(** * Mappedin embed importer: a shallow embedding of [MappedinBlenderImporter.py]

    The script reads a JSON array of shape records and builds, through the
    host's Python API ([bpy]), one extruded mesh per visible shape (with its
    holes cut out and a per-vertex colour) and one text object per visible
    label.

    Layout of the development:
    - [Rat], [ext], [num]: the numbers of the script.  A number read from JSON
      is a Python [int] (unbounded) or a [float] (binary64); arithmetic
      rounds as Python's does, converts an [int] operand of a mixed operation
      to [float], and raises [OverflowError] where Python does.  Comparison is
      by the exact value, an extended rational.
    - [json], [Py]: the values produced by [json.load] and the Python
      operators the script applies to them ([v[k]], [k in v], truth value,
      [for x in v], [-v], [v / c], [v + c], [v < w], [int(s, 16)]), each with
      the exception it raises.
    - [Host]: the part of the host's scene the script touches: objects with
      their mesh or text data, modifier stacks, the collection the objects are
      linked to, and a log of the host calls that create, link or delete an
      object or apply a modifier.
    - the five functions of the script, in a state-and-exception monad over
      the scene; the vocabulary the statements use; sample input.
    - the properties: the origin calculator, shape construction, the
      invariants of a run, the loop over the shapes, holes, colour, labels, the
      objects a record adds; then the theorems at the sample input and the
      inputs on which the code departs from the specification. *)

From Stdlib Require Import Floats QArith ZArith Ascii String Eqdep_dec Permutation.
From stdpp Require Import gmap strings list fin_maps.

Set Warnings "-register-all,-inexact-float".
Local Open Scope Z_scope.

(** ** Exact rationals in lowest terms

    A [rat] is a fraction of [Q] together with the (boolean) fact that it is
    reduced, so that equal numbers are equal terms and closed terms evaluate
    to values that [reflexivity] can compare. *)
Module Rat.

Definition Q_eqb (a b : Q) : bool :=
  (Qnum a =? Qnum b)%Z && (Qden a =? Qden b)%positive.

Definition reduced (q : Q) : bool := Q_eqb (Qred q) q.

Record rat := mkRat { val : Q; val_reduced : reduced val = true }.

Definition zero : rat := mkRat 0 eq_refl.

(** The fraction [q] as a [rat], when it is reduced.  The proof stored is
    the evaluation of the test. *)
Definition check (q : Q) : option rat :=
  match reduced q as b return reduced q = b → option rat with
  | true => λ H, Some (mkRat q H)
  | false => λ _, None
  end eq_refl.

(** The [rat] of a fraction: [Qred q] is reduced, so [check] succeeds. *)
Definition of_Q (q : Q) : rat := default zero (check (Qred q)).
Definition of_Z (z : Z) : rat := of_Q (inject_Z z).

Definition ltb (a b : rat) : bool :=
  (Qnum (val a) * QDen (val b) <? Qnum (val b) * QDen (val a))%Z.
Definition is_zero (a : rat) : bool := (Qnum (val a) =? 0)%Z.

End Rat.

Abbreviation rat := Rat.rat.

(** ** Numbers of the script

    [json.load] reads a JSON number without fraction or exponent as an [int]
    of any size and every other number as a [float]; the literals
    [Infinity], [-Infinity] and [NaN] give the special floats.  A [float] is
    a binary64 value of the kernel, with its own arithmetic. *)
Inductive num := Int (z : Z) | Float (f : float).

Definition num_of_Z (z : Z) : num := Int z.

(** [math.inf], and the not-a-number float. *)
Definition inf : num := Float infinity.
Definition NaN : num := Float nan.

(** *** Conversion and arithmetic

    [float_of_Z z] is the float nearest to [z] (ties to even), and
    [div_Z x y] the float nearest to the exact quotient [x / y]: what
    [float(z)] and the true division of two [int]s compute.  Both give an
    infinity exactly where Python raises [OverflowError] instead. *)
Definition float_of_Z (z : Z) : float :=
  SF2Prim (binary_normalize 53 1024 z 0 false).

Definition spec_of_Z (z : Z) : spec_float :=
  match z with
  | Z0 => S754_zero false
  | Zpos p => S754_finite false p 0
  | Zneg p => S754_finite true p 0
  end.

Definition div_Z (x y : Z) : float :=
  SF2Prim (SFdiv 53 1024 (spec_of_Z x) (spec_of_Z y)).

Definition to_float (a : num) : float :=
  match a with Int z => float_of_Z z | Float f => f end.

(** The values of [-a], [a + b] and [a / b] when Python computes one: an
    operation on two [int]s is exact, except that their quotient is a
    [float]; every other operation is the one of binary64 on the operands as
    floats. *)
Definition num_neg (a : num) : num :=
  match a with
  | Int z => Int (- z)
  | Float f => Float (- f)
  end.

Definition num_add (a b : num) : num :=
  match a, b with
  | Int x, Int y => Int (x + y)
  | _, _ => Float (to_float a + to_float b)
  end.

Definition num_div (a b : num) : num :=
  match a, b with
  | Int x, Int y => Float (div_Z x y)
  | _, _ => Float (to_float a / to_float b)
  end.

(** *** The value of a number, and the order

    Python compares two numbers by their exact values, also an [int] with a
    [float]; a comparison with not-a-number is false, and the two zeros of
    binary64 are equal.  [value] gives the value as an extended rational:
    a float with mantissa [m] and exponent [e] is [m * 2^e]. *)
Inductive ext := Fin (q : rat) | PInf | NInf | Unordered.

Definition Q_of_float (negative : bool) (m : positive) (e : Z) : Q :=
  let n := if negative then Zneg m else Zpos m in
  match e with
  | Z0 => inject_Z n
  | Zpos k => inject_Z (n * 2 ^ Zpos k)
  | Zneg k => n # (2 ^ k)
  end.

Definition value (a : num) : ext :=
  match a with
  | Int z => Fin (Rat.of_Z z)
  | Float f =>
      match Prim2SF f with
      | S754_zero _ => Fin Rat.zero
      | S754_infinity negative => if negative then NInf else PInf
      | S754_nan => Unordered
      | S754_finite negative m e => Fin (Rat.of_Q (Q_of_float negative m e))
      end
  end.

Definition ext_ltb (a b : ext) : bool :=
  match a, b with
  | Unordered, _ | _, Unordered => false
  | Fin x, Fin y => Rat.ltb x y
  | NInf, NInf => false
  | NInf, _ => true
  | _, NInf => false
  | PInf, _ => false
  | Fin _, PInf => true
  end.

(** [a < b] *)
Definition num_ltb (a b : num) : bool := ext_ltb (value a) (value b).

(** [a == 0], as the truth value of a number needs it. *)
Definition num_is_zero (a : num) : bool :=
  match value a with Fin q => Rat.is_zero q | _ => false end.

(** A number that is not the not-a-number float. *)
Definition ordered (a : num) : Prop := value a ≠ Unordered.

(** The literals [10], [2] and [1.5] the script divides by. *)
Definition ten : num := Int 10.
Definition two : num := Int 2.
Definition one_and_a_half : num := Float 1.5.

(** ** JSON values and Python exceptions *)

(** The value [json.load] returns: [None], a [bool], a number, a [str], a
    [list] or a [dict] with string keys.  A [dict] keeps its keys in insertion
    order, so it is the list of its items; [json.load] never produces the same
    key twice.  Characters are code points below 256. *)
Inductive json :=
  | JNull
  | JBool (b : bool)
  | JNum (n : num)
  | JStr (s : string)
  | JArr (l : list json)
  | JObj (m : list (string * json)).

(** The exceptions the script can run into.  It defines none of its own and
    has no [try]. *)
Inductive exn :=
  | KeyError (k : string)
  | TypeError
  | ValueError
  | OverflowError
  | ZeroDivisionError
  | AttributeError
  | ReferenceError
  | RuntimeError.

Inductive result (A : Type) :=
  | Ok (a : A)
  | Raise (e : exn).
Arguments Ok {A} a.
Arguments Raise {A} e.

#[global] Instance result_ret : MRet result := fun A a => Ok a.
#[global] Instance result_bind : MBind result := fun A B f r =>
  match r with Ok a => f a | Raise e => Raise e end.

(** [for x in l: body(x)] with an accumulator, stopping at the first
    exception. *)
Fixpoint foldM {A B : Type} (body : B -> A -> result B) (acc : B) (l : list A)
    : result B :=
  match l with
  | [] => Ok acc
  | x :: l' => acc' ← body acc x; foldM body acc' l'
  end.

Module Py.

(** A Python [bool] is an [int]; the other values are not numbers. *)
Definition as_num (v : json) : option num :=
  match v with
  | JNum n => Some n
  | JBool b => Some (num_of_Z (if b then 1 else 0))
  | _ => None
  end.

Definition number (v : json) : result num :=
  match as_num v with Some n => Ok n | None => Raise TypeError end.

(** The value stored under key [k] of a dict. *)
Fixpoint dict_get (m : list (string * json)) (k : string) : option json :=
  match m with
  | [] => None
  | (k', v) :: m' => if String.eqb k k' then Some v else dict_get m' k
  end.

(** [v[k]] for a string key [k]. *)
Definition getitem (v : json) (k : string) : result json :=
  match v with
  | JObj m => match dict_get m k with Some x => Ok x | None => Raise (KeyError k) end
  | _ => Raise TypeError
  end.

Fixpoint is_substring (k s : string) : bool :=
  String.prefix k s ||
  match s with
  | EmptyString => false
  | String _ s' => is_substring k s'
  end.

(** [k in v] for a string [k]: key of a dict, element of a list, substring of
    a string. *)
Definition contains (k : string) (v : json) : result bool :=
  match v with
  | JObj m => Ok (match dict_get m k with Some _ => true | None => false end)
  | JArr l => Ok (existsb (fun x => match x with JStr s => String.eqb k s | _ => false end) l)
  | JStr s => Ok (is_substring k s)
  | _ => Raise TypeError
  end.

(** Truth value of [v] in a condition. *)
Definition truthy (v : json) : bool :=
  match v with
  | JNull => false
  | JBool b => b
  | JNum n => negb (num_is_zero n)
  | JStr s => negb (String.eqb s "")
  | JArr l => match l with [] => false | _ => true end
  | JObj m => match m with [] => false | _ => true end
  end.

Fixpoint chars (s : string) : list json :=
  match s with
  | EmptyString => []
  | String c s' => JStr (String c EmptyString) :: chars s'
  end.

(** The elements [for x in v] runs through. *)
Definition iter (v : json) : result (list json) :=
  match v with
  | JArr l => Ok l
  | JObj m => Ok (map (fun kv => JStr (fst kv)) m)
  | JStr s => Ok (chars s)
  | _ => Raise TypeError
  end.

(** [float(a)]: an [int] beyond the range of binary64 is refused. *)
Definition float (a : num) : result float :=
  match a with
  | Float f => Ok f
  | Int z =>
      let f := float_of_Z z in
      if is_infinity f then Raise OverflowError else Ok f
  end.

(** [a / b] on numbers.  Two [int]s: the divisor must not be zero, and the
    quotient must be in the range of binary64.  Otherwise both operands are
    converted to [float], the dividend first, and the divisor must not be a
    zero. *)
Definition quotient (a b : num) : result num :=
  match a, b with
  | Int x, Int y =>
      if (y =? 0)%Z then Raise ZeroDivisionError
      else
        let q := div_Z x y in
        if is_infinity q then Raise OverflowError else Ok (Float q)
  | _, _ =>
      x ← float a;
      y ← float b;
      if is_zero y then Raise ZeroDivisionError else Ok (Float (x / y))
  end.

(** [a + b] on numbers: exact on two [int]s; otherwise both operands are
    converted to [float]. *)
Definition sum (a b : num) : result num :=
  match a, b with
  | Int x, Int y => Ok (Int (x + y))
  | _, _ =>
      x ← float a;
      y ← float b;
      Ok (Float (x + y))
  end.

(** [-v], [v / c] and [v + c] for a literal [c], [v < w] and [v > w] against
    a number [w]. *)
Definition neg (v : json) : result num := n ← number v; Ok (num_neg n).
Definition truediv (v : json) (c : num) : result num := n ← number v; quotient n c.
Definition add (v : json) (c : num) : result num := n ← number v; sum n c.
Definition lt (v : json) (w : num) : result bool := n ← number v; Ok (num_ltb n w).
Definition gt (v : json) (w : num) : result bool := n ← number v; Ok (num_ltb w n).


(** [v[i:j]] as the script uses it, on the way to [int(_, 16)].  A list can
    be sliced as well, but [int] then rejects the slice with the same
    [TypeError] the other types raise at once. *)
Definition slice (v : json) (i j : nat) : result string :=
  match v with
  | JStr s => Ok (substring i (j - i) s)
  | _ => Raise TypeError
  end.

(** *** [int(s, 16)]

    As CPython reads it: surrounding whitespace, an optional sign, an optional
    [0x] prefix, then hexadecimal digits, where single underscores may
    separate digits (and follow the prefix). *)
Definition is_space (c : ascii) : bool :=
  let n := N_of_ascii c in
  ((9 <=? n) && (n <=? 13) || (n =? 32) || (n =? 133) || (n =? 160))%N.

Definition digit16 (c : ascii) : option Z :=
  let n := Z.of_N (N_of_ascii c) in
  if (48 <=? n) && (n <=? 57) then Some (n - 48)
  else if (97 <=? n) && (n <=? 102) then Some (n - 87)
  else if (65 <=? n) && (n <=? 70) then Some (n - 55)
  else None.

Fixpoint lstrip (l : list ascii) : list ascii :=
  match l with
  | c :: l' => if is_space c then lstrip l' else l
  | [] => []
  end.

Definition is_underscore (c : ascii) : bool := Ascii.eqb c "_".

(** The digit loop: [acc] is the value so far, [digits] whether a digit has
    been read, [prev_us] whether the previous character was an underscore.
    Gives the value and the unread rest, or nothing on a doubled or trailing
    underscore or when no digit was read. *)
Fixpoint scan16 (l : list ascii) (acc : Z) (digits prev_us : bool)
    : option (Z * list ascii) :=
  match l with
  | c :: l' =>
      match digit16 c with
      | Some d => scan16 l' (16 * acc + d) true false
      | None =>
          if is_underscore c then
            if prev_us then None else scan16 l' acc digits true
          else if prev_us || negb digits then None else Some (acc, l)
      end
  | [] => if prev_us || negb digits then None else Some (acc, l)
  end.

Definition skip_sign (l : list ascii) : bool * list ascii :=
  match l with
  | c :: l' =>
      if Ascii.eqb c "+" then (false, l')
      else if Ascii.eqb c "-" then (true, l')
      else (false, l)
  | [] => (false, l)
  end.

Definition skip_prefix (l : list ascii) : list ascii :=
  match l with
  | z :: x :: l' =>
      if Ascii.eqb z "0" && (Ascii.eqb x "x" || Ascii.eqb x "X") then
        match l' with
        | u :: l'' => if is_underscore u then l'' else l'
        | [] => l'
        end
      else l
  | _ => l
  end.

Definition int16 (s : string) : result Z :=
  let '(negative, l) := skip_sign (lstrip (list_ascii_of_string s)) in
  let l := skip_prefix l in
  match l with
  | c :: _ => if is_underscore c then Raise ValueError else
      match scan16 l 0 false false with
      | Some (v, rest) =>
          match lstrip rest with
          | [] => Ok (if negative then - v else v)
          | _ => Raise ValueError
          end
      | None => Raise ValueError
      end
  | [] => Raise ValueError
  end.

End Py.

Local Close Scope Z_scope.

(** ** The host's scene

    What the script can observe or change through [bpy].  Geometry computed
    by the host (the result of applying a modifier) is kept as a term: the
    embedding does not compute solids.  Host calls are taken to succeed on
    well-typed arguments and existing objects; the file the script runs in has
    the default collection named [Collection].  Mesh and curve datablocks are
    tracked through the object that owns them. *)

Definition vec3 : Type := num * num * num.
Definition rgba : Type := num * num * num * num.

Definition zero : num := num_of_Z 0.
Definition origin3 : vec3 := (zero, zero, zero).

(** A modifier on an object's stack.  A property the script has not assigned
    yet holds the host's default ([None]). *)
Inductive modifier :=
  | Solidify (offset thickness : option num)
  | Boolean (operand : nat) (operation solver : string).

(** Mesh data: the single n-gon given to [from_pydata], and what applying a
    Solidify or a Boolean modifier makes of a mesh.  A Boolean records the
    mesh and the location of its operand at the time it is applied. *)
Inductive mesh :=
  | Polygon (verts : list vec3) (face : list nat)
  | Solidified (offset thickness : option num) (m : mesh)
  | Cut (operation solver : string) (m : mesh) (tool : mesh) (tool_location : vec3).

(** Object data: a mesh with its optional [Color] attribute (one slot per
    vertex; [None] is a slot the script has not written), or a text curve. *)
Inductive obdata :=
  | MeshData (m : mesh) (color : option (list (option rgba)))
  | TextData (body : string) (size : num) (align_x : string).

Record object := mkObject {
  ob_name : string;
  ob_data : obdata;
  ob_modifiers : list (string * modifier);
  ob_location : vec3;
  ob_rotation : vec3
}.

(** The host calls that create, link or delete an object or apply a
    modifier, in the order they were made; a modifier application is logged
    with the mesh it produced. *)
Inductive event :=
  | ObjectNew (id : nat) (name : string)
  | ModifierApply (id : nat) (name : string) (result : mesh)
  | ObjectLink (id : nat)
  | ObjectDelete (id : nat).

(** [objects] is [bpy.data.objects], keyed by the identity of the object;
    [collection] lists the objects linked to [Collection]; [next_id] is the
    identity the next new object gets. *)
Record scene := mkScene {
  objects : gmap nat object;
  collection : list nat;
  next_id : nat;
  log : list event
}.

Definition empty_scene : scene := mkScene ∅ [] 0 [].

(** State of the scene and Python exceptions: a computation that raises
    leaves the scene as it was at the time of the [raise]. *)
Definition M (A : Type) : Type := scene -> result A * scene.

#[global] Instance M_ret : MRet M := fun A a s => (Ok a, s).
#[global] Instance M_bind : MBind M := fun A B f m s =>
  match m s with
  | (Ok a, s') => f a s'
  | (Raise e, s') => (Raise e, s')
  end.

Definition lift {A} (r : result A) : M A := fun s => (r, s).

(** [for x in l: body(x)] in the scene monad. *)
Fixpoint for_each {A} (l : list A) (body : A -> M unit) : M unit :=
  match l with
  | [] => mret tt
  | x :: l' => body x ≫= fun _ => for_each l' body
  end.

Module Host.

Definition set_objects (f : gmap nat object -> gmap nat object) (s : scene) : scene :=
  mkScene (f (objects s)) (collection s) (next_id s) (log s).

(** Run [f] on the object [id]; a removed object cannot be used. *)
Definition update (id : nat) (f : object -> result object) : M unit := fun s =>
  match objects s !! id with
  | Some o =>
      match f o with
      | Ok o' => (Ok tt, set_objects <[id := o']> s)
      | Raise e => (Raise e, s)
      end
  | None => (Raise ReferenceError, s)
  end.

(** [bpy.data.objects.new(name, data)] *)
Definition objects_new (name : string) (d : obdata) : M nat := fun s =>
  let id := next_id s in
  (Ok id,
   mkScene (<[id := mkObject name d [] origin3 origin3]> (objects s))
           (collection s) (S id) (log s ++ [ObjectNew id name])).

(** [obj.modifiers.new(name, type)], with the new modifier's properties at
    their defaults. *)
Definition modifiers_new (id : nat) (name : string) (m : modifier) : M unit :=
  update id (fun o =>
    Ok (mkObject (ob_name o) (ob_data o) (ob_modifiers o ++ [(name, m)])
                 (ob_location o) (ob_rotation o))).

Fixpoint set_modifier (name : string) (f : modifier -> modifier)
    (l : list (string * modifier)) : list (string * modifier) :=
  match l with
  | [] => []
  | (n, m) :: l' =>
      if String.eqb n name then (n, f m) :: l' else (n, m) :: set_modifier name f l'
  end.

(** Assignment to a property of the modifier called [name]. *)
Definition modifier_set (id : nat) (name : string) (f : modifier -> modifier) : M unit :=
  update id (fun o =>
    Ok (mkObject (ob_name o) (ob_data o) (set_modifier name f (ob_modifiers o))
                 (ob_location o) (ob_rotation o))).

Definition set_offset (v : num) (m : modifier) : modifier :=
  match m with Solidify _ t => Solidify (Some v) t | _ => m end.
Definition set_thickness (v : num) (m : modifier) : modifier :=
  match m with Solidify o _ => Solidify o (Some v) | _ => m end.

Fixpoint find_modifier (name : string) (l : list (string * modifier)) : option modifier :=
  match l with
  | [] => None
  | (n, m) :: l' => if String.eqb n name then Some m else find_modifier name l'
  end.

Fixpoint remove_modifier (name : string) (l : list (string * modifier))
    : list (string * modifier) :=
  match l with
  | [] => []
  | (n, m) :: l' => if String.eqb n name then l' else (n, m) :: remove_modifier name l'
  end.

(** The mesh a modifier produces from [m].  The operand of a Boolean is read
    from the scene. *)
Definition apply_to (objs : gmap nat object) (md : modifier) (m : mesh) : result mesh :=
  match md with
  | Solidify o t => Ok (Solidified o t m)
  | Boolean operand operation solver =>
      match objs !! operand with
      | Some (mkObject _ (MeshData tool _) _ loc _) => Ok (Cut operation solver m tool loc)
      | _ => Raise ReferenceError
      end
  end.

(** [bpy.ops.object.modifier_apply(modifier=name)] with [object=id] as the
    context: the modifier's result replaces the mesh and the modifier leaves
    the stack.  The script applies modifiers to meshes without a colour
    attribute only; the new mesh has none. *)
Definition modifier_apply (id : nat) (name : string) : M unit := fun s =>
  match objects s !! id with
  | Some o =>
      match find_modifier name (ob_modifiers o), ob_data o with
      | Some md, MeshData m _ =>
          match apply_to (objects s) md m with
          | Ok m' =>
              (Ok tt,
               mkScene (<[id := mkObject (ob_name o) (MeshData m' None)
                                         (remove_modifier name (ob_modifiers o))
                                         (ob_location o) (ob_rotation o)]> (objects s))
                       (collection s) (next_id s)
                       (log s ++ [ModifierApply id name m']))
          | Raise e => (Raise e, s)
          end
      | _, _ => (Raise RuntimeError, s)
      end
  | None => (Raise ReferenceError, s)
  end.

(** [obj.location = Vector(v)] and [obj.rotation_euler = Vector(v)] *)
Definition set_location (id : nat) (v : vec3) : M unit :=
  update id (fun o =>
    Ok (mkObject (ob_name o) (ob_data o) (ob_modifiers o) v (ob_rotation o))).
Definition set_rotation (id : nat) (v : vec3) : M unit :=
  update id (fun o =>
    Ok (mkObject (ob_name o) (ob_data o) (ob_modifiers o) (ob_location o) v)).

(** [bpy.data.collections['Collection'].objects.link(obj)] *)
Definition collection_link (id : nat) : M unit := fun s =>
  match objects s !! id with
  | Some _ =>
      (Ok tt, mkScene (objects s) (collection s ++ [id]) (next_id s)
                      (log s ++ [ObjectLink id]))
  | None => (Raise ReferenceError, s)
  end.

(** [bpy.ops.object.delete()] with [selected_objects=[id]] as the context:
    the object leaves the collection and [bpy.data.objects]. *)
Definition object_delete (id : nat) : M unit := fun s =>
  match objects s !! id with
  | Some _ =>
      (Ok tt, mkScene (delete id (objects s))
                      (filter (fun i => i ≠ id) (collection s)) (next_id s)
                      (log s ++ [ObjectDelete id]))
  | None => (Raise ReferenceError, s)
  end.

(** [mesh.from_pydata(mesh_vtx, [], [mesh_face])]: the coordinates must be
    numbers. *)
Definition from_pydata (mesh_vtx : list (num * num * json)) (mesh_face : list nat)
    : result mesh :=
  verts ← foldM (fun acc '(x, y, zv) => z ← Py.number zv; Ok (acc ++ [(x, y, z)]))
                [] mesh_vtx;
  Ok (Polygon verts mesh_face).

End Host.

(** ** The script *)

Inductive status := FINISHED.

Section Script.

(** Two functions the script relies on and the embedding does not compute:
    the number of vertices of a mesh the host has built, and the value of
    [math.radians] (degrees times pi/180) on a number it accepts. *)
Variable vertex_count : mesh -> nat.
Variable radians : num -> num.

(** [obj.data.color_attributes.new(name='Color', type='FLOAT_COLOR',
    domain='POINT')]: one slot per vertex; gives the number of slots. *)
Definition color_attributes_new (id : nat) : M nat := fun s =>
  match objects s !! id with
  | Some (mkObject n (MeshData m _) mods loc rot) =>
      let k := vertex_count m in
      (Ok k, Host.set_objects
               <[id := mkObject n (MeshData m (Some (replicate k None))) mods loc rot]> s)
  | Some _ => (Raise AttributeError, s)
  | None => (Raise ReferenceError, s)
  end.

(** [vtx.color = mesh_col] for the slot [i] of the attribute: the four
    entries must be numbers. *)
Definition set_vertex_color (id i : nat) (mesh_col : num * num * num * json) : M unit :=
  Host.update id (fun o =>
    match ob_data o with
    | MeshData m (Some slots) =>
        let '(r, g, b, opacity) := mesh_col in
        a ← Py.number opacity;
        Ok (mkObject (ob_name o) (MeshData m (Some (<[i := Some (r, g, b, a)]> slots)))
                     (ob_modifiers o) (ob_location o) (ob_rotation o))
    | _ => Raise AttributeError
    end).

(** [createShapeObj(vertices, geometry, isHole=False)] *)
Definition read_vertex (geometry : json) (acc : list (num * num * json) * list nat)
    (vtx : json) : result (list (num * num * json) * list nat) :=
  let '(mesh_vtx, mesh_face) := acc in
  let mesh_face := mesh_face ++ [length mesh_vtx] in
  xv ← Py.getitem vtx "x";
  nx ← Py.neg xv;
  x ← Py.quotient nx ten;
  yv ← Py.getitem vtx "y";
  y ← Py.truediv yv ten;
  pos ← Py.getitem geometry "position";
  z ← Py.getitem pos "z";
  Ok (mesh_vtx ++ [(x, y, z)], mesh_face).

Definition createShapeObj (vertices geometry : json) (isHole : bool) : M nat :=
  (* read in vertex data *)
  '(mesh_vtx, mesh_face) ← lift (vs ← Py.iter vertices;
                                 foldM (read_vertex geometry) ([], []) vs);
  (* create mesh and parent object *)
  mesh ← lift (Host.from_pydata mesh_vtx mesh_face);
  obj ← Host.objects_new "Mesh" (MeshData mesh None);
  (* add solidify *)
  Host.modifiers_new obj "Solidify" (Solidify None None);;
  Host.modifier_set obj "Solidify" (Host.set_offset zero);;
  thickness ← lift (if isHole then Ok (num_of_Z 999)
                    else sc ← Py.getitem geometry "scale";
                         z ← Py.getitem sc "z";
                         Py.number z);
  Host.modifier_set obj "Solidify" (Host.set_thickness thickness);;
  (* apply solidify *)
  Host.modifier_apply obj "Solidify";;
  (* make the object sit atop the xy plane *)
  loc_z ← lift (sc ← Py.getitem geometry "scale";
                z ← Py.getitem sc "z";
                Py.truediv z two);
  Host.set_location obj (zero, zero, loc_z);;
  Host.collection_link obj;;
  mret obj.

(** [applyColorAttrib(obj, material)] *)
Definition channel (material : json) (i j : nat) : result num :=
  color ← Py.getitem material "color";
  digits ← Py.slice color i j;
  n ← Py.int16 digits;
  Py.quotient (num_of_Z n) (num_of_Z 255).

Definition applyColorAttrib (obj : nat) (material : json) : M unit :=
  r ← lift (channel material 1 3);
  g ← lift (channel material 3 5);
  b ← lift (channel material 5 7);
  opacity ← lift (Py.getitem material "opacity");
  let mesh_col := (r, g, b, opacity) in
  (* apply color vtx attributes *)
  match material with
  | JNull => mret tt
  | _ =>
      n ← color_attributes_new obj;
      for_each (seq 0 n) (fun vtx => set_vertex_color obj vtx mesh_col)
  end.

(** [subtractObj(obj1, obj2)] *)
Definition subtractObj (obj1 obj2 : nat) : M unit :=
  (* add boolean *)
  Host.modifiers_new obj1 "Boolean" (Boolean obj2 "DIFFERENCE" "EXACT");;
  (* apply boolean, delete obj2 *)
  Host.modifier_apply obj1 "Boolean";;
  Host.object_delete obj2.

(** [getShapeOrigin(vertices)].  The four running bounds start at [inf] and
    [-inf] and are only ever replaced by a coordinate that has just been
    compared with a number, so they are kept as numbers. *)
Definition bounds : Type := num * num * num * num.

Definition widen (b : bounds) (vtx : json) : result bounds :=
  let '(min_x, max_x, min_y, max_y) := b in
  x ← Py.getitem vtx "x";
  lt_x ← Py.lt x min_x;
  min_x ← (if (lt_x : bool) then Py.number x else Ok min_x);
  gt_x ← Py.gt x max_x;
  max_x ← (if (gt_x : bool) then Py.number x else Ok max_x);
  y ← Py.getitem vtx "y";
  lt_y ← Py.lt y min_y;
  min_y ← (if (lt_y : bool) then Py.number y else Ok min_y);
  gt_y ← Py.gt y max_y;
  max_y ← (if (gt_y : bool) then Py.number y else Ok max_y);
  Ok (min_x, max_x, min_y, max_y).

Definition getShapeOrigin (vertices : json) : result (num * num) :=
  vs ← Py.iter vertices;
  '(min_x, max_x, min_y, max_y) ← foldM widen (inf, num_neg inf, inf, num_neg inf) vs;
  sum_x ← Py.sum min_x max_x;
  origin_x ← Py.quotient sum_x two;
  sum_y ← Py.sum min_y max_y;
  origin_y ← Py.quotient sum_y two;
  Ok (origin_x, origin_y).

(** [createLabel(lb, vtx)] *)
Definition align_of (v : json) : string :=
  match v with
  | JStr s => if String.eqb s "left" then "LEFT"
              else if String.eqb s "right" then "RIGHT" else "CENTER"
  | _ => "CENTER"
  end.

Definition text_of (v : json) : result string :=
  match v with JStr s => Ok s | _ => Raise TypeError end.

(** [radians(rot[k] + offset) if k in rot else 0]; without an offset the
    value is converted as it is.  [math.radians] takes its argument as a
    [float]. *)
Definition angle (rot : json) (k : string) (offset : option num) : result num :=
  has ← Py.contains k rot;
  if (has : bool) then
    v ← Py.getitem rot k;
    d ← match offset with Some c => Py.add v c | None => Py.number v end;
    _ ← Py.float d;
    Ok (radians d)
  else Ok zero.

Definition createLabel (lb vtx : json) : M unit :=
  (* create text curve *)
  '(body, size, align_x) ← lift (t ← Py.getitem lb "text";
                                 body ← text_of t;
                                 fs ← Py.getitem lb "fontSize";
                                 size ← Py.truediv fs one_and_a_half;
                                 al ← Py.getitem lb "align";
                                 Ok (body, size, align_of al));
  obj ← Host.objects_new "Label" (TextData body size align_x);
  (* label position *)
  '(loc_x, loc_y, loc_z) ← lift (origin ← getShapeOrigin vtx;
                                 loc ← Py.getitem lb "position";
                                 loc_x ← Py.quotient (num_neg (fst origin)) ten;
                                 loc_y ← Py.quotient (snd origin) ten;
                                 has_z ← Py.contains "z" loc;
                                 loc_z ← (if (has_z : bool) then z ← Py.getitem loc "z"; Py.truediv z ten
                                          else Ok zero);
                                 Ok (loc_x, loc_y, loc_z));
  Host.set_location obj (loc_x, loc_y, loc_z);;
  (* label rotation *)
  '(rot_x, rot_y, rot_z) ← lift (rot ← Py.getitem lb "rotation";
                                 rot_x ← angle rot "x" None;
                                 rot_y ← angle rot "y" None;
                                 rot_z ← angle rot "z" (Some (num_of_Z 180));
                                 Ok (rot_x, rot_y, rot_z));
  Host.set_rotation obj (rot_x, rot_y, rot_z);;
  Host.collection_link obj.

(** [importJson(path)], from the value [json.load] has read from the file at
    [path]. *)

(** The body of [for hole in shape['holes']]. *)
Definition cut_hole (shape : json) (shapeObj : nat) (hole : json) : M unit :=
  geometry ← lift (Py.getitem shape "geometry");
  holeObj ← createShapeObj hole geometry true;
  subtractObj shapeObj holeObj.

(** The conditions of the two [if] statements of the loop body:
    ['vertexes' in shape and shape['geometry']['visible']], and
    ['label' in shape and 'visible' in shape['label'] and
    shape['label']['visible']]. *)
Definition shape_visible (shape : json) : result bool :=
  has ← Py.contains "vertexes" shape;
  if (has : bool) then
    geometry ← Py.getitem shape "geometry";
    visible ← Py.getitem geometry "visible";
    Ok (Py.truthy visible)
  else Ok false.

Definition label_visible (shape : json) : result bool :=
  has ← Py.contains "label" shape;
  if (has : bool) then
    label ← Py.getitem shape "label";
    has_visible ← Py.contains "visible" label;
    if (has_visible : bool) then
      label ← Py.getitem shape "label";
      visible ← Py.getitem label "visible";
      Ok (Py.truthy visible)
    else Ok false
  else Ok false.

(** The two statements of the body of [for shape in data]: the [if] that
    creates the shape geometry, and the [if] that creates the text label. *)
Definition import_geometry (shape : json) : M unit :=
  (* create shape geometry *)
  go ← lift (shape_visible shape);
  if (go : bool) then
    '(vertexes, geometry) ← lift (v ← Py.getitem shape "vertexes";
                                  g ← Py.getitem shape "geometry";
                                  Ok (v, g));
    shapeObj ← createShapeObj vertexes geometry false;
    (* if this shape has a hole, create a mesh for it and subtract it *)
    has_holes ← lift (Py.contains "holes" shape);
    (if (has_holes : bool) then
       holes ← lift (h ← Py.getitem shape "holes"; Py.iter h);
       for_each holes (cut_hole shape shapeObj)
     else mret tt);;
    (* apply color after optionally making a hole *)
    material ← lift (Py.getitem shape "material");
    applyColorAttrib shapeObj material
  else mret tt.

Definition import_label (shape : json) : M unit :=
  (* create text labels *)
  go ← lift (label_visible shape);
  if (go : bool) then
    '(label, vertexes) ← lift (l ← Py.getitem shape "label";
                               v ← Py.getitem shape "vertexes";
                               Ok (l, v));
    createLabel label vertexes
  else mret tt.

Definition import_shape (shape : json) : M unit :=
  import_geometry shape;;
  import_label shape.

Definition importJson (data : json) : M status :=
  shapes ← lift (Py.iter data);
  for_each shapes import_shape;;
  mret FINISHED.

End Script.

(** ** Reading the input

    The shape of the data the theorems are stated for. *)

(** [r] is a value: the operation does not raise. *)
Definition evaluates {A} (r : result A) : Prop := ∃ a, r = Ok a.

(** The coordinates of a record: a dict with numbers under [x] and [y]. *)
Definition point_of (v : json) : option (num * num) :=
  match v with
  | JObj m =>
      match Py.dict_get m "x" ≫= Py.as_num, Py.dict_get m "y" ≫= Py.as_num with
      | Some x, Some y => Some (x, y)
      | _, _ => None
      end
  | _ => None
  end.

Definition coords (v : json) : num * num := default (NaN, NaN) (point_of v).

Definition has_xy (v : json) : Prop := is_Some (point_of v).

(** A point record: a record with coordinates that Python can scale, that
    is, for which [-x/10] and [y/10] are values.  (An [int] of more than some
    309 digits has no tenth in binary64: the division raises
    [OverflowError].) *)
Definition is_point (v : json) : Prop :=
  has_xy v ∧
  evaluates (Py.quotient (num_neg (coords v).1) ten) ∧
  evaluates (Py.quotient (coords v).2 ten).

(** The midpoint of [lo] and [hi] as the script computes it: [(lo + hi)/2]. *)
Definition midpoint (lo hi : num) : result num :=
  s ← Py.sum lo hi; Py.quotient s two.


(** Numbers of a list that compare equal are the same number: the list has
    no [int] next to the [float] of the same value, and not both zeros of
    binary64. *)
Definition distinct_values (xs : list num) : Prop :=
  ∀ a b, a ∈ xs → b ∈ xs → value a = value b → a = b.

(** One step of the four running bounds, on the coordinates of a point. *)
Definition lower (m x : num) : num := if num_ltb x m then x else m.
Definition upper (m x : num) : num := if num_ltb m x then x else m.
Definition widen_pt (b : bounds) (p : num * num) : bounds :=
  let '(min_x, max_x, min_y, max_y) := b in
  (lower min_x p.1, upper max_x p.1, lower min_y p.2, upper max_y p.2).

(** The numbers a geometry record holds under [position.z] and [scale.z]
    (the extrusion depth). *)
Definition position_z (geometry : json) : option num :=
  match Py.getitem geometry "position" with
  | Ok pos => match Py.getitem pos "z" with Ok z => Py.as_num z | Raise _ => None end
  | Raise _ => None
  end.
Definition depth (geometry : json) : option num :=
  match Py.getitem geometry "scale" with
  | Ok sc => match Py.getitem sc "z" with Ok z => Py.as_num z | Raise _ => None end
  | Raise _ => None
  end.

(** The depth of a geometry record the script can place: the number under
    [scale.z], when Python can halve it. *)
Definition scale_z (geometry : json) : option num :=
  match depth geometry with
  | Some sz => match Py.quotient sz two with Ok _ => Some sz | Raise _ => None end
  | None => None
  end.

(** The scene-space vertex of a source point, in the plane at height [z]. *)
Definition to_scene (z : num) (p : num * num) : vec3 :=
  (num_div (num_neg p.1) ten, num_div p.2 ten, z).

(** The n-gon over the points [pts], in input order, extruded by
    [thickness]. *)
Definition extruded (pts : list (num * num)) (z thickness : num) : mesh :=
  Solidified (Some zero) (Some thickness)
             (Polygon (to_scene z <$> pts) (seq 0 (length pts))).

Definition thickness_of (sz : num) (isHole : bool) : num :=
  if isHole then num_of_Z 999 else sz.

(** The object [createShapeObj] leaves in the scene. *)
Definition solid_object (pts : list (num * num)) (pz sz : num) (isHole : bool) : object :=
  mkObject "Mesh" (MeshData (extruded pts pz (thickness_of sz isHole)) None) []
           (zero, zero, num_div sz two) origin3.

(** The solid that cuts a hole: the outline of the hole extruded by 999. *)
Definition hole_tool (pz : num) (hole : list json) : mesh :=
  extruded (coords <$> hole) pz (num_of_Z 999).

(** What the Boolean modifier of [subtractObj] makes of [m], with a tool
    located where [createShapeObj] has put it. *)
Definition subtracted (sz : num) (m tool : mesh) : mesh :=
  Cut "DIFFERENCE" "EXACT" m tool (zero, zero, num_div sz two).

(** The shape's mesh once the holes have been cut, first hole first. *)
Definition cut_all (pz sz : num) (m : mesh) (holes : list (list json)) : mesh :=
  fold_left (λ m hole, subtracted sz m (hole_tool pz hole)) holes m.

Definition is_creation (e : event) : bool :=
  match e with ObjectNew _ _ => true | _ => false end.
Definition is_deletion (e : event) : bool :=
  match e with ObjectDelete _ => true | _ => false end.

(** The host calls of the loop over the holes, for the shape object [sid]
    with mesh [m], when the next new object gets the identity [n]. *)
Fixpoint hole_events (sid n : nat) (pz sz : num) (m : mesh) (holes : list (list json))
    : list event :=
  match holes with
  | [] => []
  | hole :: holes' =>
      let tool := hole_tool pz hole in
      let m' := subtracted sz m tool in
      [ObjectNew n "Mesh"; ModifierApply n "Solidify" tool; ObjectLink n;
       ModifierApply sid "Boolean" m'; ObjectDelete n]
      ++ hole_events sid (S n) pz sz m' holes'
  end.

(** The vertices of the n-gon a mesh was built from. *)
Fixpoint outline (m : mesh) : list vec3 :=
  match m with
  | Polygon verts _ => verts
  | Solidified _ _ m' => outline m'
  | Cut _ _ m' _ _ => outline m'
  end.

(** The index list of the n-gon's single face. *)
Fixpoint face (m : mesh) : list nat :=
  match m with
  | Polygon _ f => f
  | Solidified _ _ m' => face m'
  | Cut _ _ m' _ _ => face m'
  end.

(** Mesh objects and text objects. *)
Inductive kind := KMesh | KText.

Definition kind_of (o : object) : kind :=
  match ob_data o with
  | MeshData _ _ => KMesh
  | TextData _ _ _ => KText
  end.

(** The kind of every object of the scene. *)
Definition kinds (s : scene) : gmap nat kind := kind_of <$> objects s.

(** No object has an identity that is still to be given out. *)
Definition fresh (s : scene) : Prop := ∀ i, next_id s ≤ i → objects s !! i = None.

(** A record with a [vertexes] key whose [geometry.visible] is true, and a
    record with a [label] key whose [visible] is present and true. *)
Definition has_visible_geometry (shape : json) : Prop :=
  ∃ m vertexes geometry visible,
    shape = JObj m ∧ Py.dict_get m "vertexes" = Some vertexes ∧
    Py.dict_get m "geometry" = Some geometry ∧
    Py.getitem geometry "visible" = Ok visible ∧ Py.truthy visible = true.

Definition has_visible_label (shape : json) : Prop :=
  ∃ m label visible,
    shape = JObj m ∧ Py.dict_get m "label" = Some label ∧
    Py.getitem label "visible" = Ok visible ∧ Py.truthy visible = true.

(** A record with a visible label and no [vertexes]. *)
Definition label_without_vertexes (shape : json) : Prop :=
  ∃ m, shape = JObj m ∧ Py.dict_get m "vertexes" = None ∧ has_visible_label shape.

(** ** Statements about runs *)

(** [invariant I m φ]: started in a scene where [I] holds, [m] ends, with a
    value or an exception, in a scene where [I] holds; a value it returns
    satisfies [φ]. *)
Definition invariant {A} (I : scene → Prop) (m : M A) (φ : A → Prop) : Prop :=
  ∀ s, I s →
    match m s with
    | (Ok a, s') => I s' ∧ φ a
    | (Raise _, s') => I s'
    end.

(** [on_success P m Q]: when [m], started where [P] holds, returns a value,
    [Q] holds of the value and the scene. *)
Definition on_success {A} (P : scene → Prop) (m : M A) (Q : A → scene → Prop) : Prop :=
  ∀ s, P s → match m s with (Ok a, s') => Q a s' | (Raise _, _) => True end.

Section Closed.
Variable vertex_count : mesh → nat.

(** A predicate on scenes that every host call keeps, when the call is
    handed objects among [U]; a new object is among [U]. *)
Record closed (I : scene → Prop) (U : nat → Prop) : Prop := {
  closed_new name d : invariant I (Host.objects_new name d) U;
  closed_update id f : U id → invariant I (Host.update id f) (λ _, True);
  closed_apply id name : U id → invariant I (Host.modifier_apply id name) (λ _, True);
  closed_link id : U id → invariant I (Host.collection_link id) (λ _, True);
  closed_delete id : U id → invariant I (Host.object_delete id) (λ _, True);
  closed_color id : U id → invariant I (color_attributes_new vertex_count id) (λ _, True)
}.

End Closed.

(** [stable n s0 s]: from [s0] to [s] the log and the object counter have only
    grown, no identity of [s0] that was free has been filled, and the objects
    below [n], with their membership of the collection, are as they were. *)
Definition stable (n : nat) (s0 s : scene) : Prop :=
  next_id s0 ≤ next_id s ∧
  (∃ l, log s = log s0 ++ l) ∧
  (∀ i, i < next_id s0 → objects s0 !! i = None → objects s !! i = None) ∧
  (∀ i, i < n → objects s !! i = objects s0 !! i) ∧
  (∀ i, i < n → i ∈ collection s ↔ i ∈ collection s0).

Abbreviation keeps n s0 := (invariant (stable n s0)).

(** The scene has the kinds [K] and the next identity is [N], or is at
    least [N]. *)
Definition at_kinds (K : gmap nat kind) (N : nat) (s : scene) : Prop :=
  kinds s = K ∧ next_id s = N.
Definition kinds_from (K : gmap nat kind) (N : nat) (s : scene) : Prop :=
  kinds s = K ∧ N ≤ next_id s.

(** An update that leaves a mesh a mesh and a text a text. *)
Definition keeps_kind (f : object → result object) : Prop :=
  ∀ o o', f o = Ok o' → kind_of o' = kind_of o.

(** ** Sample input

    The records of the scenarios the specification lists, used to run the
    embedding.  To run it, the two functions it leaves open are given
    stand-ins: a vertex count (an n-gon has n vertices, an extrusion twice
    those of its base, a difference those of both operands), and the
    conversion to radians of CPython, the product with the float nearest to
    pi/180. *)
Module Sample.

Fixpoint vertex_count (m : mesh) : nat :=
  match m with
  | Polygon verts _ => length verts
  | Solidified _ _ m' => 2 * vertex_count m'
  | Cut _ _ m' tool _ => vertex_count m' + vertex_count tool
  end.

Definition radians (d : num) : num := Float (to_float d * 0.017453292519943295).

Definition number (z : Z) : json := JNum (num_of_Z z).
Definition point (x y : Z) : json := JObj [("x", number x); ("y", number y)].

Definition geometry (visible : bool) : json :=
  JObj [("position", JObj [("x", number 0); ("y", number 0); ("z", number 0)]);
        ("scale", JObj [("x", number 1); ("y", number 1); ("z", number 5)]);
        ("visible", JBool visible)].

Definition corners : list json := [point 0 0; point 10 0; point 10 10; point 0 10].
Definition hole : list json := [point 2 2; point 8 2; point 8 8; point 2 8].

Definition material (color : string) : json :=
  JObj [("color", JStr color); ("opacity", JNum (Float 1))].

Definition label : json :=
  JObj [("text", JStr "Atrium"); ("fontSize", number 3); ("align", JStr "left");
        ("visible", JBool true);
        ("position", JObj [("x", number 4); ("y", number 4); ("z", number 20)]);
        ("rotation", JObj [("x", number 0); ("y", number 0); ("z", number 90)])].

(** The green square of the end-to-end scenario. *)
Definition square : json :=
  JObj [("vertexes", JArr corners); ("geometry", geometry true);
        ("material", material "#00FF00")].

(** The square with a rectangular hole. *)
Definition square_with_hole : json :=
  JObj [("vertexes", JArr corners); ("geometry", geometry true);
        ("holes", JArr [JArr hole]); ("material", material "#00FF00")].

(** The square with a label. *)
Definition labelled_square : json :=
  JObj [("vertexes", JArr corners); ("geometry", geometry true);
        ("material", material "#00FF00"); ("label", label)].

(** A square whose colour is not hexadecimal. *)
Definition miscoloured_square : json :=
  JObj [("vertexes", JArr corners); ("geometry", geometry true);
        ("material", material "#GG0000")].

(** A record with a visible label and no outline. *)
Definition lone_label : json := JObj [("label", label)].

(** An outline of two points. *)
Definition segment : list json := [point 0 0; point 10 0].
Definition segment_shape : json :=
  JObj [("vertexes", JArr segment); ("geometry", geometry true);
        ("material", material "#00FF00")].

Definition run (data : list json) : result status * scene :=
  importJson vertex_count radians (JArr data) empty_scene.

(** The scene the green square leaves; the scene after the miscoloured
    square that follows it has raised; the scene the labelled square
    leaves. *)
Definition after_square : scene := (run [square]).2.
Definition after_miscoloured : scene :=
  (import_shape vertex_count radians miscoloured_square after_square).2.
Definition after_labelled : scene :=
  (import_shape vertex_count radians labelled_square empty_scene).2.

(** A scene holding the extruded square, not yet coloured. *)
Definition bare_square : object :=
  solid_object (coords <$> corners) (num_of_Z 0) (num_of_Z 5) false.
Definition bare_scene : scene :=
  mkScene (<[0 := bare_square]> ∅) [0] 1 [].

End Sample.

(** ** Vocabulary of the error and edge cases *)

(** The exceptions a vertex without coordinates makes the loops over an
    outline raise. *)
Definition vertex_error (e : exn) : Prop :=
  e = TypeError ∨ e = KeyError "x" ∨ e = KeyError "y".

(** The object [createShapeObj] has made when [geometry['scale']['z']]
    cannot be read: for a shape, the flat n-gon with the Solidify modifier
    still on its stack, its thickness not assigned; for a hole, the n-gon
    extruded by 999, not moved.  Neither is linked to the collection. *)
Definition unfinished_object (pts : list (num * num)) (pz : num) (isHole : bool) : object :=
  if isHole then
    mkObject "Mesh" (MeshData (extruded pts pz (num_of_Z 999)) None) [] origin3 origin3
  else
    mkObject "Mesh" (MeshData (Polygon (to_scene pz <$> pts) (seq 0 (length pts))) None)
             [("Solidify", Solidify (Some zero) None)] origin3 origin3.

(** Every character, and the range in which [int(_, 16)] of one or two
    characters lies when it is a number at all. *)
Definition all_ascii : list ascii := List.map ascii_of_nat (seq 0 256).

Definition in_range (r : result Z) : bool :=
  match r with
  | Ok n => ((-15 <=? n) && (n <=? 255))%Z
  | Raise _ => true
  end.

(** ** Sample input for the error and edge cases *)
Module Defect.
Import Sample.

(** A point record without [y], and an outline that contains it. *)
Definition half_point : json := JObj [("x", number 5)].
Definition broken_outline : list json := [point 0 0; half_point; point 10 10].

(** The square as a ring that repeats its first corner. *)
Definition ring : list json := corners ++ [point 0 0].


(** A geometry without [scale], and one with nothing but [scale]. *)
Definition unscaled_geometry : json :=
  JObj [("position", JObj [("z", number 0)]); ("visible", JBool true)].
Definition scale_only : json := JObj [("scale", JObj [("z", number 5)])].

(** A label without [rotation], and one whose rotation has no component. *)
Definition unrotated_label : json :=
  JObj [("text", JStr "Atrium"); ("fontSize", number 3); ("align", JStr "left");
        ("visible", JBool true); ("position", JObj [("z", number 20)])].
Definition unturned_label : json :=
  JObj [("text", JStr "Atrium"); ("fontSize", number 3); ("align", JStr "left");
        ("visible", JBool true); ("position", JObj [("z", number 20)]);
        ("rotation", JObj [])].

(** Records: a hidden square with and without a visible label, a square
    without geometry, a square without material, a square with a good and a
    defective hole. *)
Definition hidden_labelled_square : list (string * json) :=
  [("vertexes", JArr corners); ("geometry", geometry false); ("label", label)].
Definition hidden_square : json :=
  JObj [("vertexes", JArr corners); ("geometry", geometry false)].
Definition square_without_geometry : list (string * json) :=
  [("vertexes", JArr corners); ("label", label)].
Definition square_without_material : list (string * json) :=
  [("vertexes", JArr corners); ("geometry", geometry true); ("label", label)].
Definition square_with_broken_hole : json :=
  JObj [("vertexes", JArr corners); ("geometry", geometry true);
        ("holes", JArr [JArr hole; JArr broken_outline]);
        ("material", material "#00FF00")].

(** A file whose top level is an object that wraps the array. *)
Definition wrapped : json := JObj [("shapes", JArr [square])].

(** A scene with the extruded square and the solid of its hole. *)
Definition hole_solid : object :=
  solid_object (coords <$> hole) (num_of_Z 0) (num_of_Z 5) true.
Definition tool_scene : scene :=
  mkScene (<[1 := hole_solid]> (<[0 := bare_square]> ∅)) [0; 1] 2 [].

End Defect.

(** * Properties *)

(** ** [int(s, 16)] on a few strings *)

Example int16_FF : Py.int16 "FF" = Ok 255%Z.
Proof. reflexivity. Qed.
Example int16_empty : Py.int16 "" = Raise ValueError.
Proof. reflexivity. Qed.
Example int16_signed : Py.int16 " -f" = Ok (-15)%Z.
Proof. reflexivity. Qed.
Example int16_prefix_only : Py.int16 "0x" = Raise ValueError.
Proof. reflexivity. Qed.
Example int16_underscores : Py.int16 "0x_f_f" = Ok 255%Z /\ Py.int16 "f__f" = Raise ValueError
  /\ Py.int16 "ff_" = Raise ValueError /\ Py.int16 "_ff" = Raise ValueError.
Proof. repeat split. Qed.
Example int16_not_hex : Py.int16 "G0" = Raise ValueError.
Proof. reflexivity. Qed.

(** ** Rationals in lowest terms *)

Module RatFacts.
Import Rat.

Lemma Q_eqb_eq a b : Q_eqb a b = true ↔ a = b.
Proof.
  unfold Q_eqb. destruct a as [a1 a2], b as [b1 b2]. simpl.
  rewrite andb_true_iff, Z.eqb_eq, Pos.eqb_eq. split.
  - intros [-> ->]. reflexivity.
  - intros [= -> ->]. split; reflexivity.
Qed.

Lemma reduced_Qred q : reduced (Qred q) = true.
Proof. unfold reduced. apply Q_eqb_eq. apply Qred_complete, Qred_correct. Qed.

Lemma check_reduced q : reduced q = true → val <$> check q = Some q.
Proof.
  intros Hq. unfold check.
  assert (H : ∀ b (e : reduced q = b), b = true →
            val <$> (match b as b' return reduced q = b' → option rat with
                     | true => λ H, Some (mkRat q H)
                     | false => λ _, None
                     end e) = Some q).
  { intros [] e Hb; [done|discriminate]. }
  by apply H.
Qed.

Lemma val_of_Q q : val (of_Q q) = Qred q.
Proof.
  unfold of_Q. pose proof (check_reduced _ (reduced_Qred q)) as H.
  destruct (check (Qred q)) as [r|]; [|done]. by injection H.
Qed.

Lemma rat_eq (a b : rat) : val a = val b → a = b.
Proof.
  destruct a as [a Ha], b as [b Hb]. simpl. intros ->.
  f_equal. apply UIP_dec. apply Bool.bool_dec.
Qed.

Lemma ltb_lt a b : ltb a b = true ↔ (val a < val b)%Q.
Proof. unfold ltb, Qlt. apply Z.ltb_lt. Qed.

Lemma ltb_irrefl a : ltb a a = false.
Proof. unfold ltb. apply Z.ltb_irrefl. Qed.

Lemma ltb_trans a b c : ltb a b = true → ltb b c = true → ltb a c = true.
Proof. rewrite !ltb_lt. apply Qlt_trans. Qed.

Lemma ltb_asym a b : ltb a b = true → ltb b a = false.
Proof.
  intros H. destruct (ltb b a) eqn:E; [|reflexivity].
  rewrite ltb_lt in H, E. exfalso. exact (Qlt_irrefl _ (Qlt_trans _ _ _ H E)).
Qed.

(** Two reduced fractions that are not ordered are the same term. *)
Lemma ltb_total a b : ltb a b = false → ltb b a = false → a = b.
Proof.
  intros H1 H2. apply rat_eq.
  assert (E : (val a == val b)%Q).
  { apply Qle_antisym; apply Qnot_lt_le; intros H%ltb_lt; congruence. }
  destruct a as [a Ha], b as [b Hb]. simpl in *.
  pose proof (proj1 (Q_eqb_eq _ _) Ha) as Ea.
  pose proof (proj1 (Q_eqb_eq _ _) Hb) as Eb. rewrite <- Ea, <- Eb.
  apply Qred_complete, E.
Qed.

Lemma of_Q_proper p q : (p == q)%Q → of_Q p = of_Q q.
Proof. intros H. apply rat_eq. rewrite !val_of_Q. by apply Qred_complete. Qed.

End RatFacts.

(** ** The order on numbers *)

Lemma ext_ltb_trans a b c :
  ext_ltb a b = true → ext_ltb b c = true → ext_ltb a c = true.
Proof.
  destruct a, b, c; simpl; try done. apply RatFacts.ltb_trans.
Qed.

Lemma ext_ltb_asym a b : ext_ltb a b = true → ext_ltb b a = false.
Proof. destruct a, b; simpl; try done. apply RatFacts.ltb_asym. Qed.

Lemma ext_ltb_total a b :
  a ≠ Unordered → b ≠ Unordered → ext_ltb a b = false → ext_ltb b a = false → a = b.
Proof.
  destruct a, b; simpl; try done.
  intros _ _ H1 H2. f_equal. by apply RatFacts.ltb_total.
Qed.

Lemma ext_ltb_irrefl a : ext_ltb a a = false.
Proof. destruct a; simpl; try done. apply RatFacts.ltb_irrefl. Qed.

Lemma num_ltb_trans a b c :
  num_ltb a b = true → num_ltb b c = true → num_ltb a c = true.
Proof. apply ext_ltb_trans. Qed.

Lemma num_ltb_asym a b : num_ltb a b = true → num_ltb b a = false.
Proof. apply ext_ltb_asym. Qed.

Lemma num_ltb_irrefl a : num_ltb a a = false.
Proof. apply ext_ltb_irrefl. Qed.

(** Two numbers that are not ordered either way have the same value. *)
Lemma num_ltb_total a b :
  ordered a → ordered b → num_ltb a b = false → num_ltb b a = false →
  value a = value b.
Proof. apply ext_ltb_total. Qed.

Lemma num_ltb_ordered_l a b : num_ltb a b = true → ordered a.
Proof. unfold num_ltb, ordered. by destruct (value a). Qed.

Lemma num_ltb_ordered_r a b : num_ltb a b = true → ordered b.
Proof. unfold num_ltb, ordered. by destruct (value a), (value b). Qed.

(** Below a number that is not below [c], nothing is below [c] either. *)
Lemma num_ltb_neg_trans a b c :
  ordered b → num_ltb a b = false → num_ltb b c = false → num_ltb a c = false.
Proof.
  intros Hb H1 H2. destruct (num_ltb a c) eqn:E; [|done].
  destruct (num_ltb c b) eqn:E2.
  - by rewrite (num_ltb_trans _ _ _ E E2) in H1.
  - assert (Hv : value b = value c).
    { apply num_ltb_total; eauto using num_ltb_ordered_r. }
    unfold num_ltb in *. congruence.
Qed.

Lemma ordered_inf : ordered inf ∧ ordered (num_neg inf).
Proof. by split. Qed.

Lemma not_ordered_NaN : ¬ ordered NaN.
Proof. intros H. by apply H. Qed.

(** The infinities are the only numbers with an infinite value. *)
Lemma value_PInf a : value a = PInf → a = inf.
Proof.
  destruct a as [z|f]; [done|]. unfold value, inf. intros H. f_equal.
  apply Prim2SF_inj. change (Prim2SF infinity) with (S754_infinity false).
  destruct (Prim2SF f) as [?|[]| |]; done.
Qed.

Lemma value_NInf a : value a = NInf → a = num_neg inf.
Proof.
  destruct a as [z|f]; [done|]. unfold value, inf. intros H.
  change (num_neg (Float infinity)) with (Float neg_infinity). f_equal.
  apply Prim2SF_inj. change (Prim2SF neg_infinity) with (S754_infinity true).
  destruct (Prim2SF f) as [?|[]| |]; done.
Qed.

(** Different [int]s have different values: a list of [int]s has distinct
    values. *)
Lemma value_Int_inj x y : value (Int x) = value (Int y) → x = y.
Proof.
  unfold value, Rat.of_Z. intros [= H]. apply (f_equal Rat.val) in H.
  rewrite !RatFacts.val_of_Q in H.
  assert (E : (inject_Z x == inject_Z y)%Q).
  { rewrite <- (Qred_correct (inject_Z x)), <- (Qred_correct (inject_Z y)). by rewrite H. }
  unfold Qeq in E. simpl in E. lia.
Qed.

Lemma distinct_values_ints xs :
  Forall (λ a, ∃ z, a = Int z) xs → distinct_values xs.
Proof.
  rewrite Forall_forall. intros H a b Ha Hb Hv.
  destruct (H a Ha) as [x ->], (H b Hb) as [y ->]. f_equal. by apply value_Int_inj.
Qed.

Lemma fold_widen_pt_split ps a b c d :
  fold_left widen_pt ps (a, b, c, d) =
  (fold_left lower ps.*1 a, fold_left upper ps.*1 b,
   fold_left lower ps.*2 c, fold_left upper ps.*2 d).
Proof.
  revert a b c d. induction ps as [|p ps IH]; intros; simpl; [done|].
  apply IH.
Qed.

(** The running minimum: it is the start value or an element, and nothing
    is below it. *)
Lemma fold_lower_spec xs m0 :
  ordered m0 →
  let r := fold_left lower xs m0 in
  ordered r ∧ (r = m0 ∨ r ∈ xs) ∧ num_ltb m0 r = false ∧
  ∀ x, x ∈ xs → num_ltb x r = false.
Proof.
  revert m0. induction xs as [|x xs IH]; intros m0 Hm0; simpl.
  - repeat split; auto.
    + apply num_ltb_irrefl.
    + intros x Hx. by apply elem_of_nil in Hx.
  - assert (Hl : ordered (lower m0 x)).
    { unfold lower. destruct (num_ltb x m0) eqn:E; eauto using num_ltb_ordered_l. }
    destruct (IH _ Hl) as (Hr & Hin & Hlow & Hall).
    set (r := fold_left lower xs (lower m0 x)) in *.
    assert (Hx : num_ltb x r = false ∧ num_ltb m0 r = false).
    { unfold lower in Hlow, Hl. destruct (num_ltb x m0) eqn:E.
      - split; [done|]. destruct (num_ltb m0 r) eqn:E2; [|done].
        by rewrite (num_ltb_trans _ _ _ E E2) in Hlow.
      - split; [|done]. by apply (num_ltb_neg_trans _ m0). }
    destruct Hx as [Hx Hm]. repeat split; auto.
    + destruct Hin as [Hin|Hin].
      * unfold lower in Hin. destruct (num_ltb x m0); [right|left]; auto.
        rewrite Hin. apply list_elem_of_here.
      * right. by apply list_elem_of_further.
    + intros y [->|Hy]%elem_of_cons; auto.
Qed.

Lemma fold_upper_spec xs m0 :
  ordered m0 →
  let r := fold_left upper xs m0 in
  ordered r ∧ (r = m0 ∨ r ∈ xs) ∧ num_ltb r m0 = false ∧
  ∀ x, x ∈ xs → num_ltb r x = false.
Proof.
  revert m0. induction xs as [|x xs IH]; intros m0 Hm0; simpl.
  - repeat split; auto.
    + apply num_ltb_irrefl.
    + intros x Hx. by apply elem_of_nil in Hx.
  - assert (Hl : ordered (upper m0 x)).
    { unfold upper. destruct (num_ltb m0 x) eqn:E; eauto using num_ltb_ordered_r. }
    destruct (IH _ Hl) as (Hr & Hin & Hlow & Hall).
    set (r := fold_left upper xs (upper m0 x)) in *.
    assert (Hx : num_ltb r x = false ∧ num_ltb r m0 = false).
    { unfold upper in Hlow, Hl. destruct (num_ltb m0 x) eqn:E.
      - split; [done|]. destruct (num_ltb r m0) eqn:E2; [|done].
        by rewrite (num_ltb_trans _ _ _ E2 E) in Hlow.
      - split; [|done]. by apply (num_ltb_neg_trans _ m0). }
    destruct Hx as [Hx Hm]. repeat split; auto.
    + destruct Hin as [Hin|Hin].
      * unfold upper in Hin. destruct (num_ltb m0 x); [right|left]; auto.
        rewrite Hin. apply list_elem_of_here.
      * right. by apply list_elem_of_further.
    + intros y [->|Hy]%elem_of_cons; auto.
Qed.



(** Numbers of a list that compare equal are the same number: the list has
    no [int] next to the [float] of the same value, and not both zeros of
    binary64. *)
Lemma fold_lower_same xs ys :
  distinct_values xs → (∀ x, x ∈ xs ↔ x ∈ ys) →
  fold_left lower xs inf = fold_left lower ys inf.
Proof.
  intros Hd H.
  destruct (fold_lower_spec xs inf) as (Hn & Hin & _ & Hle); [apply ordered_inf|].
  destruct (fold_lower_spec ys inf) as (Hn' & Hin' & _ & Hle'); [apply ordered_inf|].
  set (r := fold_left lower xs inf) in *. set (r' := fold_left lower ys inf) in *.
  assert (Hv : value r = value r').
  { apply num_ltb_total; [done|done|..].
    - destruct Hin as [->|Hin]; [|apply Hle'; by apply H].
      unfold num_ltb. change (value inf) with PInf. by destruct (value r').
    - destruct Hin' as [->|Hin']; [|apply Hle; by apply H].
      unfold num_ltb. change (value inf) with PInf. by destruct (value r). }
  destruct Hin as [Hin|Hin], Hin' as [Hin'|Hin'].
  - congruence.
  - rewrite Hin in *. symmetry. by apply value_PInf.
  - rewrite Hin' in *. by apply value_PInf.
  - apply Hd; [done|by apply H|done].
Qed.

Lemma fold_upper_same xs ys :
  distinct_values xs → (∀ x, x ∈ xs ↔ x ∈ ys) →
  fold_left upper xs (num_neg inf) = fold_left upper ys (num_neg inf).
Proof.
  intros Hd H.
  destruct (fold_upper_spec xs (num_neg inf)) as (Hn & Hin & _ & Hle);
    [apply ordered_inf|].
  destruct (fold_upper_spec ys (num_neg inf)) as (Hn' & Hin' & _ & Hle');
    [apply ordered_inf|].
  set (r := fold_left upper xs (num_neg inf)) in *.
  set (r' := fold_left upper ys (num_neg inf)) in *.
  assert (Hv : value r = value r').
  { apply num_ltb_total; [done|done|..].
    - destruct Hin' as [->|Hin']; [|apply Hle; by apply H].
      unfold num_ltb. change (value (num_neg inf)) with NInf. by destruct (value r).
    - destruct Hin as [->|Hin]; [|apply Hle'; by apply H].
      unfold num_ltb. change (value (num_neg inf)) with NInf. by destruct (value r'). }
  destruct Hin as [Hin|Hin], Hin' as [Hin'|Hin'].
  - congruence.
  - rewrite Hin in *. symmetry. by apply value_NInf.
  - rewrite Hin' in *. by apply value_NInf.
  - apply Hd; [done|by apply H|done].
Qed.

(** ** Arithmetic that evaluates *)

Lemma float_value a f : Py.float a = Ok f → f = to_float a.
Proof.
  destruct a as [z|g]; simpl; [|congruence].
  destruct (is_infinity (float_of_Z z)); [done|congruence].
Qed.

(** A quotient and a sum that Python computes are the values [num_div] and
    [num_add] give. *)
Lemma quotient_value a b q : Py.quotient a b = Ok q → q = num_div a b.
Proof.
  unfold Py.quotient, num_div, Py.float, to_float.
  destruct a as [x|f], b as [y|g]; cbn [mbind result_bind].
  - destruct (y =? 0)%Z; [done|]. destruct (is_infinity (div_Z x y)); [done|congruence].
  - destruct (is_infinity (float_of_Z x)); cbn [mbind result_bind]; [done|].
    destruct (is_zero g); [done|congruence].
  - destruct (is_infinity (float_of_Z y)); cbn [mbind result_bind]; [done|].
    destruct (is_zero (float_of_Z y)); [done|congruence].
  - destruct (is_zero g); [done|congruence].
Qed.

Lemma sum_value a b s : Py.sum a b = Ok s → s = num_add a b.
Proof.
  unfold Py.sum, num_add, Py.float, to_float.
  destruct a as [x|f], b as [y|g]; cbn [mbind result_bind].
  - congruence.
  - destruct (is_infinity (float_of_Z x)); cbn [mbind result_bind]; [done|congruence].
  - destruct (is_infinity (float_of_Z y)); cbn [mbind result_bind]; [done|congruence].
  - congruence.
Qed.

Lemma evaluates_quotient a b :
  evaluates (Py.quotient a b) → Py.quotient a b = Ok (num_div a b).
Proof. intros [q H]. by rewrite H, (quotient_value _ _ _ H). Qed.

Lemma midpoint_value lo hi o :
  midpoint lo hi = Ok o → o = num_div (num_add lo hi) two.
Proof.
  unfold midpoint. destruct (Py.sum lo hi) as [s|] eqn:E; [|done]. simpl.
  apply sum_value in E as ->. apply quotient_value.
Qed.


Lemma quotient_float_two f : Py.quotient (Float f) two = Ok (num_div (Float f) two).
Proof. reflexivity. Qed.

Lemma quotient_is_float a b q : Py.quotient a b = Ok q → ∃ f, q = Float f.
Proof. intros ->%quotient_value. unfold num_div. destruct a, b; by eexists. Qed.

(** The exceptions of the script's arithmetic. *)
Lemma float_raises a e : Py.float a = Raise e → e = OverflowError.
Proof.
  destruct a as [z|f]; simpl; [|done].
  destruct (is_infinity (float_of_Z z)); congruence.
Qed.

Lemma sum_raises a b e : Py.sum a b = Raise e → e = OverflowError.
Proof.
  unfold Py.sum, Py.float.
  destruct a as [x|f], b as [y|g]; cbn [mbind result_bind]; try done.
  - destruct (is_infinity (float_of_Z x)); cbn [mbind result_bind]; congruence.
  - destruct (is_infinity (float_of_Z y)); cbn [mbind result_bind]; congruence.
Qed.

Lemma quotient_literal_raises a c e :
  c = ten ∨ c = two ∨ c = num_of_Z 255 → Py.quotient a c = Raise e → e = OverflowError.
Proof.
  intros Hc. unfold Py.quotient. destruct a as [x|f].
  - destruct Hc as [->|[->| ->]]; simpl;
      (match goal with |- context [is_infinity ?q] => destruct (is_infinity q) end;
       congruence).
  - by destruct Hc as [->|[->| ->]].
Qed.

(** ** The origin calculator *)

Lemma point_of_getitem v p :
  point_of v = Some p →
  ∃ xv yv, Py.getitem v "x" = Ok xv ∧ Py.as_num xv = Some p.1 ∧
           Py.getitem v "y" = Ok yv ∧ Py.as_num yv = Some p.2.
Proof.
  destruct v as [| | | | |m]; simpl; try done.
  destruct (Py.dict_get m "x") as [xv|]; simpl; [|done].
  destruct (Py.as_num xv) as [x|] eqn:Ex; [|done].
  destruct (Py.dict_get m "y") as [yv|]; simpl; [|done].
  destruct (Py.as_num yv) as [y|] eqn:Ey; [|done].
  intros [= <-]. by exists xv, yv.
Qed.

Lemma coords_point v p : point_of v = Some p → coords v = p.
Proof. unfold coords. by intros ->. Qed.

Lemma is_point_has_xy v : is_point v → has_xy v.
Proof. by intros [? _]. Qed.

Lemma Forall_is_point_has_xy vs : Forall is_point vs → Forall has_xy vs.
Proof. intros H. eapply Forall_impl; [exact H|]. apply is_point_has_xy. Qed.

Lemma widen_point b v p : point_of v = Some p → widen b v = Ok (widen_pt b p).
Proof.
  intros (xv & yv & Hx & Hxn & Hy & Hyn)%point_of_getitem.
  destruct b as [[[min_x max_x] min_y] max_y], p as [x y]. simpl in *.
  unfold widen, Py.lt, Py.gt, Py.number. rewrite Hx, Hy. simpl.
  rewrite Hxn, Hyn. simpl. unfold lower, upper.
  by destruct (num_ltb x min_x), (num_ltb max_x x), (num_ltb y min_y), (num_ltb max_y y).
Qed.

Lemma foldM_widen vs b :
  Forall has_xy vs → foldM widen b vs = Ok (fold_left widen_pt (coords <$> vs) b).
Proof.
  intros H. revert b. induction H as [|v vs [p Hp] _ IH]; intros b; simpl; [done|].
  rewrite (coords_point _ _ Hp), (widen_point _ _ _ Hp). simpl. apply IH.
Qed.

(** The origin of a sequence of records with coordinates: the midpoints of
    the running bounds. *)
Lemma getShapeOrigin_points vs :
  Forall has_xy vs →
  getShapeOrigin (JArr vs) =
  (origin_x ← midpoint (fold_left lower (coords <$> vs).*1 inf)
                       (fold_left upper (coords <$> vs).*1 (num_neg inf));
   origin_y ← midpoint (fold_left lower (coords <$> vs).*2 inf)
                       (fold_left upper (coords <$> vs).*2 (num_neg inf));
   Ok (origin_x, origin_y)).
Proof.
  intros H. unfold getShapeOrigin, midpoint. cbn [Py.iter mbind result_bind].
  rewrite (foldM_widen _ _ H), fold_widen_pt_split. cbn [mbind result_bind].
  destruct (Py.sum (fold_left lower (coords <$> vs).*1 inf) _) as [sx|];
    cbn [mbind result_bind]; [|done].
  destruct (Py.quotient sx two); cbn [mbind result_bind]; [|done].
  by destruct (Py.sum _ _) as [sy|]; cbn [mbind result_bind].
Qed.

Lemma widen_not_point b v :
  point_of v = None → ∃ e, widen b v = Raise e ∧ vertex_error e.
Proof.
  destruct b as [[[min_x max_x] min_y] max_y]. unfold vertex_error.
  destruct v as [|c|n|str|l|m]; try (intros _; exists TypeError; by auto).
  unfold point_of, widen, Py.getitem, Py.lt, Py.gt, Py.number.
  destruct (Py.dict_get m "x") as [xv|]; simpl; [|intros _; eexists; by eauto].
  destruct (Py.as_num xv) as [x|]; simpl; [|intros _; eexists; by eauto].
  destruct (num_ltb x min_x), (num_ltb max_x x); simpl;
    (destruct (Py.dict_get m "y") as [yv|]; simpl; [|intros _; eexists; by eauto];
     destruct (Py.as_num yv) as [y|]; simpl; [done|intros _; eexists; by eauto]).
Qed.

(** The loop over the outline runs through when every element has
    coordinates, and otherwise raises at the first that has none. *)
Lemma foldM_widen_cases vs b :
  (Forall has_xy vs ∧ ∃ b', foldM widen b vs = Ok b') ∨
  (¬ Forall has_xy vs ∧ ∃ e, foldM widen b vs = Raise e ∧ vertex_error e).
Proof.
  revert b. induction vs as [|v vs IH]; intros b; [left; by eauto|].
  cbn [foldM]. destruct (point_of v) as [p|] eqn:Hp.
  - rewrite (widen_point _ _ _ Hp). cbn [mbind result_bind].
    destruct (IH (widen_pt b p)) as [[H Hr]|[H Hr]].
    + left. split; [|done]. constructor; [unfold has_xy; by rewrite Hp|done].
    + right. split; [|done]. intros [_ Hall]%Forall_cons_1. by apply H.
  - destruct (widen_not_point b v Hp) as (e & -> & He). right. split; [|by eauto].
    intros [Hv _]%Forall_cons_1. unfold has_xy in Hv. rewrite Hp in Hv. by destruct Hv.
Qed.


(** Both halves of an origin are quotients, hence floats. *)
Lemma getShapeOrigin_floats vertices o :
  getShapeOrigin vertices = Ok o → ∃ fx fy, o = (Float fx, Float fy).
Proof.
  unfold getShapeOrigin. intros Ho.
  destruct (Py.iter vertices) as [l|]; [|done]. cbn [mbind result_bind] in Ho.
  destruct (foldM widen _ l) as [[[[a b] c] d]|]; [|done].
  cbn [mbind result_bind] in Ho.
  destruct (Py.sum a b) as [sx|]; [|done]. cbn [mbind result_bind] in Ho.
  destruct (Py.quotient sx two) as [ox|] eqn:Ex; [|done].
  cbn [mbind result_bind] in Ho.
  destruct (Py.sum c d) as [sy|]; [|done]. cbn [mbind result_bind] in Ho.
  destruct (Py.quotient sy two) as [oy|] eqn:Ey; [|done].
  cbn [mbind result_bind] in Ho. injection Ho as <-.
  apply quotient_is_float in Ex as [fx ->], Ey as [fy ->]. by eauto.
Qed.


Lemma getShapeOrigin_same vs vs' :
  Forall has_xy vs → Forall has_xy vs' →
  distinct_values (coords <$> vs).*1 → distinct_values (coords <$> vs).*2 →
  (∀ x, x ∈ (coords <$> vs).*1 ↔ x ∈ (coords <$> vs').*1) →
  (∀ y, y ∈ (coords <$> vs).*2 ↔ y ∈ (coords <$> vs').*2) →
  getShapeOrigin (JArr vs) = getShapeOrigin (JArr vs').
Proof.
  intros H H' Hx Hy H1 H2. rewrite !getShapeOrigin_points by done.
  by rewrite (fold_lower_same _ _ Hx H1), (fold_upper_same _ _ Hx H1),
             (fold_lower_same _ _ Hy H2), (fold_upper_same _ _ Hy H2).
Qed.


(** What the two midpoints give: their values, or [OverflowError]. *)
Lemma midpoints_result lo_x hi_x lo_y hi_y (r : result (num * num)) :
  r = (origin_x ← midpoint lo_x hi_x; origin_y ← midpoint lo_y hi_y;
       Ok (origin_x, origin_y)) →
  (∀ o, r = Ok o →
        o = (num_div (num_add lo_x hi_x) two, num_div (num_add lo_y hi_y) two)) ∧
  (∀ e, r = Raise e → e = OverflowError).
Proof.
  intros ->.
  assert (Hm : ∀ lo hi e, midpoint lo hi = Raise e → e = OverflowError).
  { intros lo hi e. unfold midpoint. destruct (Py.sum lo hi) as [s|e'] eqn:E; simpl.
    - apply quotient_literal_raises. auto.
    - intros [= <-]. by eapply sum_raises. }
  destruct (midpoint lo_x hi_x) as [ox|ex] eqn:Ex; cbn [mbind result_bind].
  - destruct (midpoint lo_y hi_y) as [oy|ey] eqn:Ey; cbn [mbind result_bind].
    + split; [|done]. intros o [= <-].
      by rewrite (midpoint_value _ _ _ Ex), (midpoint_value _ _ _ Ey).
    + split; [done|]. intros e [= <-]. by eapply Hm.
  - split; [done|]. intros e [= <-]. by eapply Hm.
Qed.


(** C5 (as the code has it).  On the empty sequence the origin calculator
    raises nothing: the bounds are still [inf] and [-inf], and it returns
    ((inf + -inf)/2, (inf + -inf)/2), which is (nan, nan). *)
Theorem getShapeOrigin_empty :
  getShapeOrigin (JArr []) =
    Ok (num_div (num_add inf (num_neg inf)) two, num_div (num_add inf (num_neg inf)) two) ∧
  num_div (num_add inf (num_neg inf)) two = NaN.
Proof. split; reflexivity. Qed.

(** C5 (as stated) fails: the call on the empty sequence does not fail. *)
Lemma getShapeOrigin_empty_no_error :
  ¬ ∃ e, getShapeOrigin (JArr []) = Raise e.
Proof. intros [e H]. discriminate H. Qed.

(** ** Running the scene monad *)

Lemma M_bind_run {A B} (m : M A) (f : A → M B) s :
  (m ≫= f) s =
  match m s with (Ok a, s') => f a s' | (Raise e, s') => (Raise e, s') end.
Proof. reflexivity. Qed.

Lemma lift_run {A} (r : result A) s : lift r s = (r, s).
Proof. reflexivity. Qed.

Lemma M_ret_run {A} (a : A) s : (mret a : M A) s = (Ok a, s).
Proof. reflexivity. Qed.

Lemma update_insert id f o objs c k l :
  Host.update id f (mkScene (<[id := o]> objs) c k l) =
  match f o with
  | Ok o' => (Ok tt, mkScene (<[id := o']> objs) c k l)
  | Raise e => (Raise e, mkScene (<[id := o]> objs) c k l)
  end.
Proof.
  unfold Host.update, Host.set_objects. simpl. rewrite lookup_insert_eq.
  destruct (f o); [|done]. by rewrite insert_insert_eq.
Qed.

(** ** Shape construction *)

Lemma geometry_z_getitem geometry pz :
  position_z geometry = Some pz →
  ∃ pos zv, Py.getitem geometry "position" = Ok pos ∧ Py.getitem pos "z" = Ok zv ∧
            Py.as_num zv = Some pz.
Proof.
  unfold position_z. destruct (Py.getitem geometry "position") as [pos|]; [|done].
  destruct (Py.getitem pos "z") as [zv|] eqn:E; [|done]. intros H. by exists pos, zv.
Qed.

Lemma depth_getitem geometry sz :
  depth geometry = Some sz →
  ∃ sc zv, Py.getitem geometry "scale" = Ok sc ∧ Py.getitem sc "z" = Ok zv ∧
           Py.as_num zv = Some sz.
Proof.
  unfold depth. destruct (Py.getitem geometry "scale") as [sc|]; [|done].
  destruct (Py.getitem sc "z") as [zv|] eqn:E; [|done]. intros H. by exists sc, zv.
Qed.

Lemma scale_z_depth geometry sz :
  scale_z geometry = Some sz →
  depth geometry = Some sz ∧ Py.quotient sz two = Ok (num_div sz two).
Proof.
  unfold scale_z. destruct (depth geometry) as [d|]; [|done].
  destruct (Py.quotient d two) as [q|] eqn:E; [|done]. intros [= <-].
  split; [done|]. apply evaluates_quotient. by eexists.
Qed.

Lemma geometry_scale_getitem geometry sz :
  scale_z geometry = Some sz →
  ∃ sc zv, Py.getitem geometry "scale" = Ok sc ∧ Py.getitem sc "z" = Ok zv ∧
           Py.as_num zv = Some sz ∧ Py.quotient sz two = Ok (num_div sz two).
Proof.
  intros [(sc & zv & H1 & H2 & H3)%depth_getitem Hq]%scale_z_depth. by exists sc, zv.
Qed.

Lemma read_vertex_point geometry pos zv v mesh_vtx mesh_face :
  Py.getitem geometry "position" = Ok pos → Py.getitem pos "z" = Ok zv →
  is_point v →
  read_vertex geometry (mesh_vtx, mesh_face) v =
  Ok (mesh_vtx ++ [(num_div (num_neg (coords v).1) ten, num_div (coords v).2 ten, zv)],
      mesh_face ++ [length mesh_vtx]).
Proof.
  intros Hpos Hz ([p Hp] & Hqx%evaluates_quotient & Hqy%evaluates_quotient).
  rewrite (coords_point _ _ Hp) in *.
  apply point_of_getitem in Hp as (xv & yv & Hx & Hxn & Hy & Hyn).
  unfold read_vertex, Py.neg, Py.truediv, Py.number.
  rewrite Hx; simpl. rewrite Hxn; simpl. rewrite Hqx; simpl.
  rewrite Hy; simpl. rewrite Hyn; simpl. rewrite Hqy; simpl.
  rewrite Hpos; simpl. by rewrite Hz.
Qed.

Lemma foldM_read_vertex geometry pos zv vs mesh_vtx mesh_face :
  Py.getitem geometry "position" = Ok pos → Py.getitem pos "z" = Ok zv →
  Forall is_point vs →
  foldM (read_vertex geometry) (mesh_vtx, mesh_face) vs =
  Ok (mesh_vtx ++ ((λ v, (num_div (num_neg (coords v).1) ten,
                          num_div (coords v).2 ten, zv)) <$> vs),
      mesh_face ++ seq (length mesh_vtx) (length vs)).
Proof.
  intros Hpos Hz H. revert mesh_vtx mesh_face.
  induction H as [|v vs Hv _ IH]; intros mesh_vtx mesh_face; cbn [foldM].
  - simpl. by rewrite !app_nil_r.
  - rewrite (read_vertex_point _ _ _ _ _ _ Hpos Hz Hv). simpl.
    rewrite IH, length_app. simpl.
    rewrite <- !app_assoc. simpl. by rewrite Nat.add_1_r.
Qed.

Lemma from_pydata_numbers {A} (fx fy : A → num) (l : list A) zv z face :
  Py.as_num zv = Some z →
  Host.from_pydata ((λ a, (fx a, fy a, zv)) <$> l) face =
  Ok (Polygon ((λ a, (fx a, fy a, z)) <$> l) face).
Proof.
  intros Hz. unfold Host.from_pydata.
  assert (H : ∀ acc, foldM (λ acc '(x, y, zv), z ← Py.number zv; Ok (acc ++ [(x, y, z)]))
                           acc ((λ a, (fx a, fy a, zv)) <$> l)
                     = Ok (acc ++ ((λ a, (fx a, fy a, z)) <$> l))).
  { induction l as [|q l IH]; intros acc; simpl.
    - by rewrite app_nil_r.
    - unfold Py.number. rewrite Hz. simpl. rewrite IH, <- app_assoc. done. }
  by rewrite H.
Qed.

Lemma modifier_apply_insert id name o md m c0 objs c k l :
  Host.find_modifier name (ob_modifiers o) = Some md →
  ob_data o = MeshData m c0 →
  Host.modifier_apply id name (mkScene (<[id := o]> objs) c k l) =
  match Host.apply_to (<[id := o]> objs) md m with
  | Ok m' =>
      (Ok tt,
       mkScene (<[id := mkObject (ob_name o) (MeshData m' None)
                                 (Host.remove_modifier name (ob_modifiers o))
                                 (ob_location o) (ob_rotation o)]> objs)
               c k (l ++ [ModifierApply id name m']))
  | Raise e => (Raise e, mkScene (<[id := o]> objs) c k l)
  end.
Proof.
  intros Hf Hd. unfold Host.modifier_apply. simpl.
  rewrite lookup_insert_eq, Hf, Hd.
  destruct (Host.apply_to _ md m); [|done]. by rewrite insert_insert_eq.
Qed.

Section Construction.
Variable vertex_count : mesh → nat.
Variable radians : num → num.

Lemma createShapeObj_ok vs geometry pz sz isHole s :
  Forall is_point vs → position_z geometry = Some pz → scale_z geometry = Some sz →
  createShapeObj (JArr vs) geometry isHole s =
  (Ok (next_id s),
   mkScene (<[next_id s := solid_object (coords <$> vs) pz sz isHole]> (objects s))
           (collection s ++ [next_id s]) (S (next_id s))
           (log s ++ [ObjectNew (next_id s) "Mesh";
                      ModifierApply (next_id s) "Solidify"
                        (extruded (coords <$> vs) pz (thickness_of sz isHole));
                      ObjectLink (next_id s)])).
Proof.
  intros Hpts (pos & zv & Hpos & Hz & Hzn)%geometry_z_getitem
         (sc & sv & Hsc & Hs & Hsn & Hq)%geometry_scale_getitem.
  unfold createShapeObj. rewrite M_bind_run, lift_run. simpl.
  rewrite (foldM_read_vertex _ _ _ _ _ _ Hpos Hz Hpts). simpl.
  rewrite M_bind_run, lift_run.
  rewrite (from_pydata_numbers _ _ _ _ _ _ Hzn).
  rewrite M_bind_run. unfold Host.objects_new at 1. cbn [next_id objects collection log].
  unfold Host.modifiers_new, Host.modifier_set.
  rewrite M_bind_run, update_insert. cbn [ob_name ob_data ob_modifiers ob_location ob_rotation].
  rewrite M_bind_run, update_insert. cbn [ob_name ob_data ob_modifiers ob_location ob_rotation].
  rewrite M_bind_run, lift_run.
  assert (Ht : (if isHole then Ok (num_of_Z 999)
                else sc ← Py.getitem geometry "scale"; z ← Py.getitem sc "z"; Py.number z)
               = Ok (thickness_of sz isHole)).
  { destruct isHole; [done|]. rewrite Hsc. simpl. rewrite Hs. simpl.
    unfold Py.number. by rewrite Hsn. }
  rewrite Ht. rewrite M_bind_run, update_insert.
  cbn [ob_name ob_data ob_modifiers ob_location ob_rotation].
  simpl (Host.set_modifier _ _ _).
  rewrite M_bind_run. erewrite modifier_apply_insert; [|reflexivity|reflexivity].
  simpl (Host.remove_modifier _ _).
  cbn [Host.apply_to ob_name ob_data ob_modifiers ob_location ob_rotation].
  rewrite M_bind_run, lift_run.
  assert (Hl : (sc ← Py.getitem geometry "scale"; z ← Py.getitem sc "z"; Py.truediv z two)
               = Ok (num_div sz two)).
  { rewrite Hsc. simpl. rewrite Hs. simpl. unfold Py.truediv, Py.number. by rewrite Hsn. }
  rewrite Hl. unfold Host.set_location. rewrite M_bind_run, update_insert.
  cbn [ob_name ob_data ob_modifiers ob_location ob_rotation].
  rewrite M_bind_run. unfold Host.collection_link.
  cbn [next_id objects collection log]. rewrite lookup_insert_eq.
  rewrite M_ret_run. unfold solid_object, extruded.
  rewrite <- !list_fmap_compose, length_fmap. simpl.
  rewrite <- !app_assoc. reflexivity.
Qed.

(** ** What every call of the script keeps *)

Lemma invariant_ret {A} I (a : A) (φ : A → Prop) : φ a → invariant I (mret a) φ.
Proof. intros H s Hs. by rewrite M_ret_run. Qed.

Lemma invariant_bind {A B} I (m : M A) (f : A → M B) ψ φ :
  invariant I m ψ → (∀ a, ψ a → invariant I (f a) φ) → invariant I (m ≫= f) φ.
Proof.
  intros Hm Hf s Hs. rewrite M_bind_run. specialize (Hm s Hs).
  destruct (m s) as [[a|e] s1]; [|done]. destruct Hm as [Hs1 Ha].
  by apply Hf.
Qed.

Lemma invariant_weaken {A} I (m : M A) (ψ φ : A → Prop) :
  invariant I m ψ → (∀ a, ψ a → φ a) → invariant I m φ.
Proof.
  intros Hm Hi s Hs. specialize (Hm s Hs).
  destruct (m s) as [[a|e] s1]; [|done]. destruct Hm. auto.
Qed.

Lemma invariant_lift {A} I (r : result A) : invariant I (lift r) (λ _, True).
Proof. intros s Hs. rewrite lift_run. by destruct r. Qed.

Lemma invariant_for_each {A} I (l : list A) (body : A → M unit) :
  (∀ x, invariant I (body x) (λ _, True)) →
  invariant I (for_each l body) (λ _, True).
Proof.
  intros Hb. induction l as [|x l IH]; simpl.
  - by apply invariant_ret.
  - eapply invariant_bind; [apply Hb|]. intros _ _. apply IH.
Qed.

(** The scene at the end of a run satisfies what the run keeps. *)
Lemma invariant_run {A} I (m : M A) φ s : invariant I m φ → I s → I (m s).2.
Proof.
  intros Hm Hs. specialize (Hm s Hs). destruct (m s) as [[a|e] s']; simpl; tauto.
Qed.

Lemma invariant_update I id f :
  (∀ s o o', I s → objects s !! id = Some o → I (Host.set_objects <[id := o']> s)) →
  invariant I (Host.update id f) (λ _, True).
Proof.
  intros HI s Hs. unfold Host.update.
  destruct (objects s !! id) as [o|] eqn:Ho; [|done].
  destruct (f o) as [o'|e]; [|done]. split; [|done]. by eapply HI.
Qed.

Lemma invariant_color_attributes_new I id :
  (∀ s o o', I s → objects s !! id = Some o → I (Host.set_objects <[id := o']> s)) →
  invariant I (color_attributes_new vertex_count id) (λ _, True).
Proof.
  intros HI s Hs. unfold color_attributes_new.
  destruct (objects s !! id) as [[nm [m c|] mods loc rot]|] eqn:Ho; try done.
  split; [|done]. by eapply HI.
Qed.

(** *** The functions of the script keep what the host calls keep *)

Section ClosedFacts.
Context (I : scene → Prop) (U : nat → Prop) (HI : closed vertex_count I U).

Ltac closed_prim :=
  first [ apply invariant_lift
        | apply (closed_new _ _ _ HI)
        | apply (closed_update _ _ _ HI); assumption
        | apply (closed_apply _ _ _ HI); assumption
        | apply (closed_link _ _ _ HI); assumption
        | apply (closed_delete _ _ _ HI); assumption
        | apply (closed_color _ _ _ HI); assumption ].

Ltac closed_step :=
  lazymatch goal with
  | |- invariant _ (mret _) _ => apply invariant_ret; try done
  | |- invariant _ (_ ≫= _) _ => eapply invariant_bind; [closed_prim|]; intros ? ?; cbv beta in *
  | |- invariant _ (let '(_, _) := ?p in _) _ => destruct p
  | |- invariant _ (if ?b then _ else _) _ => destruct b
  | |- invariant _ _ _ => eapply invariant_weaken; [closed_prim|]; simpl; intros; try done
  end.

Lemma closed_createShapeObj vertices geometry isHole :
  invariant I (createShapeObj vertices geometry isHole) U.
Proof.
  unfold createShapeObj, Host.modifiers_new, Host.modifier_set, Host.set_location.
  repeat closed_step.
Qed.

Lemma closed_subtractObj obj1 obj2 :
  U obj1 → U obj2 → invariant I (subtractObj obj1 obj2) (λ _, True).
Proof.
  intros H1 H2. unfold subtractObj, Host.modifiers_new. repeat closed_step.
Qed.

Lemma closed_cut_hole shape shapeObj hole :
  U shapeObj → invariant I (cut_hole shape shapeObj hole) (λ _, True).
Proof.
  intros Hs. unfold cut_hole.
  eapply invariant_bind; [closed_prim|]; intros geometry _.
  eapply invariant_bind; [by apply closed_createShapeObj|]; intros holeObj Hh.
  by apply closed_subtractObj.
Qed.

Lemma closed_applyColorAttrib obj material :
  U obj → invariant I (applyColorAttrib vertex_count obj material) (λ _, True).
Proof.
  intros Hn. unfold applyColorAttrib.
  eapply invariant_bind; [closed_prim|]; intros r _.
  eapply invariant_bind; [closed_prim|]; intros g _.
  eapply invariant_bind; [closed_prim|]; intros b _.
  eapply invariant_bind; [closed_prim|]; intros opacity _.
  assert (Hfill : invariant I (color_attributes_new vertex_count obj ≫= λ k,
                    for_each (seq 0 k) (λ vtx, set_vertex_color obj vtx (r, g, b, opacity)))
                  (λ _, True)).
  { closed_step. apply invariant_for_each. intros i. unfold set_vertex_color. closed_step. }
  destruct material; first [exact Hfill | by apply invariant_ret].
Qed.

Lemma closed_createLabel lb vtx : invariant I (createLabel radians lb vtx) (λ _, True).
Proof.
  unfold createLabel, Host.set_location, Host.set_rotation. repeat closed_step.
Qed.

Lemma closed_import_geometry shape :
  invariant I (import_geometry vertex_count shape) (λ _, True).
Proof.
  unfold import_geometry.
  eapply invariant_bind; [closed_prim|]. intros go _.
  destruct go; [|by apply invariant_ret].
  eapply invariant_bind; [closed_prim|]. intros [vertexes geometry] _.
  eapply invariant_bind; [by apply closed_createShapeObj|]. intros shapeObj Hobj.
  eapply invariant_bind; [closed_prim|]. intros has_holes _.
  eapply (invariant_bind _ _ _ (λ _, True)).
  - destruct has_holes; [|by apply invariant_ret].
    eapply invariant_bind; [closed_prim|]. intros holes _.
    apply invariant_for_each. intros hole. by apply closed_cut_hole.
  - intros _ _. eapply invariant_bind; [closed_prim|]. intros material _.
    by apply closed_applyColorAttrib.
Qed.

Lemma closed_import_label shape : invariant I (import_label radians shape) (λ _, True).
Proof.
  unfold import_label.
  eapply invariant_bind; [closed_prim|]. intros go _.
  destruct go; [|by apply invariant_ret].
  eapply invariant_bind; [closed_prim|]. intros [label vertexes] _.
  by apply closed_createLabel.
Qed.

Lemma closed_import_shape shape :
  invariant I (import_shape vertex_count radians shape) (λ _, True).
Proof.
  unfold import_shape.
  eapply invariant_bind; [by apply closed_import_geometry|]. intros _ _.
  by apply closed_import_label.
Qed.

Lemma closed_importJson data :
  invariant I (importJson vertex_count radians data) (λ _, True).
Proof.
  unfold importJson.
  eapply invariant_bind; [closed_prim|]. intros shapes _.
  eapply invariant_bind.
  - apply invariant_for_each. intros shape. apply closed_import_shape.
  - intros _ _. by apply invariant_ret.
Qed.

End ClosedFacts.

(** *** Earlier objects are left alone *)

Lemma stable_refl n s : stable n s s.
Proof. repeat split; auto. exists []. by rewrite app_nil_r. Qed.

Lemma stable_insert n s0 s id o o' l :
  n ≤ id → objects s !! id = Some o → stable n s0 s →
  stable n s0 (mkScene (<[id := o']> (objects s)) (collection s) (next_id s) (log s ++ l)).
Proof.
  intros Hn Ho (Hk & [l0 Hl] & Hfree & Hobj & Hcol). split_and!; simpl; auto.
  - exists (l0 ++ l). by rewrite Hl, app_assoc.
  - intros i Hi Hnone. rewrite lookup_insert_ne; [by apply Hfree|].
    intros <-. rewrite (Hfree _ Hi Hnone) in Ho. done.
  - intros i Hi. rewrite lookup_insert_ne by lia. by apply Hobj.
Qed.

Lemma stable_set_objects n s0 id :
  n ≤ id →
  ∀ s o o', stable n s0 s → objects s !! id = Some o →
            stable n s0 (Host.set_objects <[id := o']> s).
Proof.
  intros Hn s o o' Hs Ho.
  pose proof (stable_insert n s0 s id o o' [] Hn Ho Hs) as H.
  by rewrite app_nil_r in H.
Qed.

Lemma stable_closed n s0 :
  n ≤ next_id s0 → closed vertex_count (stable n s0) (λ id, n ≤ id).
Proof.
  intros Hn. split.
  - intros name d s (Hk & [l0 Hl] & Hfree & Hobj & Hcol). unfold Host.objects_new.
    split; [|lia]. split_and!; simpl; auto.
    + exists (l0 ++ [ObjectNew (next_id s) name]). by rewrite Hl, app_assoc.
    + intros i Hi Hnone. rewrite lookup_insert_ne by lia. by apply Hfree.
    + intros i Hi. rewrite lookup_insert_ne by lia. by apply Hobj.
  - intros id f Hid. by apply invariant_update, stable_set_objects.
  - intros id name Hid s Hs. unfold Host.modifier_apply.
    destruct (objects s !! id) as [o|] eqn:Ho; [|done].
    destruct (Host.find_modifier name (ob_modifiers o)) as [md|]; [|done].
    destruct (ob_data o) as [m c|]; [|done].
    destruct (Host.apply_to (objects s) md m) as [m'|e]; [|done].
    split; [|done]. by eapply stable_insert.
  - intros id Hid s Hs. pose proof Hs as (Hk & [l0 Hl] & Hfree & Hobj & Hcol).
    unfold Host.collection_link.
    destruct (objects s !! id) as [o|] eqn:Ho; [|done].
    split; [|done]. split_and!; simpl; auto.
    + exists (l0 ++ [ObjectLink id]). by rewrite Hl, app_assoc.
    + intros i Hi. rewrite elem_of_app, list_elem_of_singleton, <- Hcol by done.
      split; [intros [?|?]; [done|lia]|auto].
  - intros id Hid s Hs. pose proof Hs as (Hk & [l0 Hl] & Hfree & Hobj & Hcol).
    unfold Host.object_delete.
    destruct (objects s !! id) as [o|] eqn:Ho; [|done].
    split; [|done]. split_and!; simpl; auto.
    + exists (l0 ++ [ObjectDelete id]). by rewrite Hl, app_assoc.
    + intros i Hi Hnone. destruct (decide (i = id)) as [->|Hne].
      * apply lookup_delete_eq.
      * rewrite lookup_delete_ne by done. by apply Hfree.
    + intros i Hi. rewrite lookup_delete_ne by lia. by apply Hobj.
    + intros i Hi. rewrite list_elem_of_filter, <- Hcol by done.
      split; [by intros [_ ?]|]. intros ?. split; [lia|done].
  - intros id Hid. by apply invariant_color_attributes_new, stable_set_objects.
Qed.

Lemma keeps_cut_hole n s0 shape shapeObj hole :
  n ≤ next_id s0 → n ≤ shapeObj → keeps n s0 (cut_hole shape shapeObj hole) (λ _, True).
Proof. intros Hn Hs. by apply (closed_cut_hole _ _ (stable_closed n s0 Hn)). Qed.

Lemma keeps_applyColorAttrib n s0 obj material :
  n ≤ next_id s0 → n ≤ obj →
  keeps n s0 (applyColorAttrib vertex_count obj material) (λ _, True).
Proof. intros Hn Hs. by apply (closed_applyColorAttrib _ _ (stable_closed n s0 Hn)). Qed.

Lemma keeps_import_label n s0 shape :
  n ≤ next_id s0 → keeps n s0 (import_label radians shape) (λ _, True).
Proof. intros Hn. by apply (closed_import_label _ _ (stable_closed n s0 Hn)). Qed.

Lemma keeps_import_shape n s0 shape :
  n ≤ next_id s0 → keeps n s0 (import_shape vertex_count radians shape) (λ _, True).
Proof. intros Hn. by apply (closed_import_shape _ _ (stable_closed n s0 Hn)). Qed.

(** *** Identities still to be given out stay free *)

Lemma fresh_closed : closed vertex_count fresh (λ _, True).
Proof.
  assert (Hset : ∀ id s o o', fresh s → objects s !! id = Some o →
                              fresh (Host.set_objects <[id := o']> s)).
  { intros id s o o' Hs Ho i Hi. simpl in *. rewrite lookup_insert_ne; [by apply Hs|].
    intros <-. by rewrite (Hs _ Hi) in Ho. }
  split.
  - intros name d s Hs. unfold Host.objects_new. split; [|done].
    intros i Hi. simpl in *. rewrite lookup_insert_ne by lia. apply Hs. lia.
  - intros id f _. apply invariant_update, Hset.
  - intros id name _ s Hs. unfold Host.modifier_apply.
    destruct (objects s !! id) as [o|] eqn:Ho; [|done].
    destruct (Host.find_modifier name (ob_modifiers o)) as [md|]; [|done].
    destruct (ob_data o) as [m c|]; [|done].
    destruct (Host.apply_to (objects s) md m) as [m'|e]; [|done].
    split; [|done]. intros i Hi. simpl in *.
    rewrite lookup_insert_ne; [by apply Hs|]. intros <-. by rewrite (Hs _ Hi) in Ho.
  - intros id _ s Hs. unfold Host.collection_link.
    by destruct (objects s !! id) as [o|].
  - intros id _ s Hs. unfold Host.object_delete.
    destruct (objects s !! id) as [o|] eqn:Ho; [|done].
    split; [|done]. intros i Hi. simpl in *.
    apply lookup_delete_None. right. by apply Hs.
  - intros id _. apply invariant_color_attributes_new, Hset.
Qed.

(** Every scene an import reaches from the empty scene, or from any scene
    with this property, has it. *)
Lemma importJson_fresh data s :
  fresh s → fresh (importJson vertex_count radians data s).2.
Proof. apply invariant_run with (φ := λ _, True), (closed_importJson _ _ fresh_closed). Qed.

Lemma import_shape_fresh shape s :
  fresh s → fresh (import_shape vertex_count radians shape s).2.
Proof. apply invariant_run with (φ := λ _, True), (closed_import_shape _ _ fresh_closed). Qed.

(** ** The loop over the shapes *)

Lemma for_each_app {A} (l1 l2 : list A) (body : A → M unit) s :
  for_each (l1 ++ l2) body s =
  match for_each l1 body s with
  | (Ok _, s1) => for_each l2 body s1
  | (Raise e, s1) => (Raise e, s1)
  end.
Proof.
  revert s. induction l1 as [|x l1 IH]; intros s; simpl; [done|].
  rewrite !M_bind_run. destruct (body x s) as [[[]|e] s1]; [apply IH|done].
Qed.

(** Once the body raises, the loop is over: what follows in the list plays
    no part. *)
Lemma for_each_raise {A} (pre post : list A) (x : A) (body : A → M unit) s s1 e s2 :
  for_each pre body s = (Ok tt, s1) → body x s1 = (Raise e, s2) →
  for_each (pre ++ x :: post) body s = (Raise e, s2).
Proof.
  intros Hpre Hx. rewrite for_each_app, Hpre. simpl. by rewrite M_bind_run, Hx.
Qed.

Lemma for_each_raise_early {A} (pre post : list A) (body : A → M unit) s s1 e :
  for_each pre body s = (Raise e, s1) →
  for_each (pre ++ post) body s = (Raise e, s1).
Proof. intros Hpre. by rewrite for_each_app, Hpre. Qed.

Lemma importJson_run shapes s :
  importJson vertex_count radians (JArr shapes) s =
  match for_each shapes (import_shape vertex_count radians) s with
  | (Ok _, s') => (Ok FINISHED, s')
  | (Raise e, s') => (Raise e, s')
  end.
Proof.
  unfold importJson. rewrite M_bind_run, lift_run. simpl. rewrite M_bind_run.
  by destruct (for_each shapes _ s) as [[[]|e] s'].
Qed.

(** C1 (as the code has it).  An exception raised while a shape is
    processed leaves [importJson] at once: the result is that exception and
    the scene at the time it was raised, whatever shapes follow in the array;
    the objects that existed when the shape was started, and their links to
    the collection, are as they were. *)
Theorem importJson_error_aborts (pre post : list json) (shape : json) (s s1 s2 : scene) (e : exn) :
  for_each pre (import_shape vertex_count radians) s = (Ok tt, s1) →
  import_shape vertex_count radians shape s1 = (Raise e, s2) →
  importJson vertex_count radians (JArr (pre ++ shape :: post)) s = (Raise e, s2) ∧
  (∀ i, i < next_id s1 →
        objects s2 !! i = objects s1 !! i ∧ (i ∈ collection s2 ↔ i ∈ collection s1)).
Proof.
  intros Hpre Hshape. split.
  - by rewrite importJson_run, (for_each_raise _ _ _ _ _ _ _ _ Hpre Hshape).
  - pose proof (keeps_import_shape (next_id s1) s1 shape (le_n _) s1 (stable_refl _ _)) as H.
    rewrite Hshape in H. destruct H as (_ & _ & _ & Hobj & Hcol). auto.
Qed.

Lemma getitem_contains v k x : Py.getitem v k = Ok x → Py.contains k v = Ok true.
Proof.
  destruct v as [| | | | |m]; simpl; try done.
  by destruct (Py.dict_get m k).
Qed.

Lemma import_shape_label_without_vertexes shape s :
  label_without_vertexes shape →
  import_shape vertex_count radians shape s = (Raise (KeyError "vertexes"), s).
Proof.
  intros (m & -> & Hv & (m' & label & visible & [= <-] & Hl & Hvis & Ht)).
  assert (H1 : shape_visible (JObj m) = Ok false).
  { unfold shape_visible, Py.contains. by rewrite Hv. }
  assert (H2 : label_visible (JObj m) = Ok true).
  { assert (Hc : Py.contains "label" (JObj m) = Ok true) by (simpl; by rewrite Hl).
    assert (Hg : Py.getitem (JObj m) "label" = Ok label) by (simpl; by rewrite Hl).
    unfold label_visible. rewrite Hc. cbn [mbind result_bind]. rewrite Hg.
    cbn [mbind result_bind]. rewrite (getitem_contains _ _ _ Hvis).
    cbn [mbind result_bind]. rewrite Hvis. cbn [mbind result_bind]. by rewrite Ht. }
  unfold import_shape, import_geometry, import_label.
  rewrite M_bind_run, M_bind_run, lift_run, H1, M_ret_run.
  rewrite M_bind_run, lift_run, H2.
  rewrite M_bind_run, lift_run. unfold Py.getitem. by rewrite Hl, Hv.
Qed.

(** C10.  When the array holds a record with a visible label and no
    [vertexes] key, then, the records before it being imported, [importJson]
    raises [KeyError('vertexes')] on the way to [createLabel] and the scene is
    the one the earlier records left: neither this record nor any record after
    it adds anything.  (If an earlier record raises, the import has stopped
    there.) *)
Theorem importJson_label_without_vertexes (pre post : list json) (shape : json) (s : scene) :
  label_without_vertexes shape →
  (∀ s1, for_each pre (import_shape vertex_count radians) s = (Ok tt, s1) →
         importJson vertex_count radians (JArr (pre ++ shape :: post)) s
         = (Raise (KeyError "vertexes"), s1)) ∧
  (∀ e s1, for_each pre (import_shape vertex_count radians) s = (Raise e, s1) →
           importJson vertex_count radians (JArr (pre ++ shape :: post)) s
           = (Raise e, s1)).
Proof.
  intros Hshape. split.
  - intros s1 Hpre. rewrite importJson_run.
    by rewrite (for_each_raise _ _ _ _ _ _ _ _ Hpre
                  (import_shape_label_without_vertexes shape s1 Hshape)).
  - intros e s1 Hpre. rewrite importJson_run.
    by rewrite (for_each_raise_early _ _ _ _ _ _ Hpre).
Qed.

(** ** Cutting the holes *)

Lemma update_run id f s o o' :
  objects s !! id = Some o → f o = Ok o' →
  Host.update id f s = (Ok tt, Host.set_objects <[id := o']> s).
Proof. intros Ho Hf. unfold Host.update. by rewrite Ho, Hf. Qed.

Lemma cut_hole_ok shape geometry pz sz sid hole s nm m c loc rot :
  Py.getitem shape "geometry" = Ok geometry →
  position_z geometry = Some pz → scale_z geometry = Some sz →
  Forall is_point hole →
  objects s !! sid = Some (mkObject nm (MeshData m c) [] loc rot) →
  sid ≠ next_id s →
  cut_hole shape sid (JArr hole) s =
  (Ok tt,
   mkScene (<[sid := mkObject nm (MeshData (subtracted sz m (hole_tool pz hole)) None)
                              [] loc rot]> (delete (next_id s) (objects s)))
           (filter (λ i, i ≠ next_id s) (collection s)) (S (next_id s))
           (log s ++ hole_events sid (next_id s) pz sz m [hole])).
Proof.
  intros Hg Hpz Hsz Hpts Ho Hne. unfold cut_hole.
  rewrite M_bind_run, lift_run, Hg, M_bind_run.
  rewrite (createShapeObj_ok _ _ _ _ true s Hpts Hpz Hsz).
  set (n := next_id s) in *.
  unfold subtractObj, Host.modifiers_new.
  rewrite M_bind_run.
  erewrite update_run; [| by (simpl; rewrite lookup_insert_ne by done) | reflexivity].
  unfold Host.set_objects.
  cbn [objects collection next_id log ob_name ob_data ob_modifiers ob_location ob_rotation app].
  rewrite M_bind_run. erewrite modifier_apply_insert; [|reflexivity|reflexivity].
  cbn [Host.apply_to ob_name ob_data ob_modifiers ob_location ob_rotation].
  rewrite lookup_insert_ne by done. rewrite lookup_insert_eq.
  unfold solid_object at 1.
  simpl (Host.remove_modifier _ _).
  unfold Host.object_delete. cbn [objects collection next_id log].
  rewrite lookup_insert_ne by done. rewrite lookup_insert_eq.
  rewrite delete_insert_ne by done. rewrite delete_insert_eq.
  rewrite filter_app, filter_cons_False, filter_nil, app_nil_r by (intros H; by apply H).
  unfold hole_events, hole_tool, subtracted, thickness_of.
  rewrite <- !app_assoc. simpl. reflexivity.
Qed.

Lemma cut_holes_ok shape geometry pz sz sid nm loc rot holes :
  Py.getitem shape "geometry" = Ok geometry →
  position_z geometry = Some pz → scale_z geometry = Some sz →
  Forall (Forall is_point) holes →
  ∀ s m,
    objects s !! sid = Some (mkObject nm (MeshData m None) [] loc rot) →
    sid < next_id s →
    ∃ s',
      for_each (JArr <$> holes) (cut_hole shape sid) s = (Ok tt, s') ∧
      objects s' !! sid = Some (mkObject nm (MeshData (cut_all pz sz m holes) None) [] loc rot) ∧
      next_id s' = next_id s + length holes ∧
      log s' = log s ++ hole_events sid (next_id s) pz sz m holes ∧
      (∀ i, next_id s ≤ i < next_id s' → objects s' !! i = None).
Proof.
  intros Hg Hpz Hsz Hholes. induction Hholes as [|hole holes Hpts _ IH]; intros s m Ho Hlt.
  - exists s. simpl. rewrite M_ret_run, Nat.add_0_r, app_nil_r. split_and!; auto.
    intros i Hi. lia.
  - cbn [fmap list_fmap for_each]. rewrite M_bind_run.
    rewrite (cut_hole_ok _ _ _ _ _ _ _ _ _ _ _ _ Hg Hpz Hsz Hpts Ho) by lia.
    set (s1 := mkScene _ _ _ _).
    destruct (IH s1 (subtracted sz m (hole_tool pz hole))) as (s' & Hrun & Hobj & Hid & Hlog & Hnone).
    { apply lookup_insert_eq. }
    { simpl. lia. }
    exists s'. split_and!; auto.
    + rewrite Hid. simpl. lia.
    + rewrite Hlog. simpl. by rewrite <- app_assoc.
    + intros i Hi. destruct (decide (i = next_id s)) as [->|Hne].
      * assert (Hst : keeps sid s1 (for_each (JArr <$> holes) (cut_hole shape sid)) (λ _, True)).
        { apply invariant_for_each. intros h. apply keeps_cut_hole; simpl; lia. }
        specialize (Hst s1 (stable_refl _ _)). rewrite Hrun in Hst.
        destruct Hst as [(_ & _ & Hfree & _) _]. apply Hfree; simpl; [lia|].
        rewrite lookup_insert_ne by lia. apply lookup_delete_eq.
      * apply Hnone. simpl. lia.
Qed.

(** Colouring writes to the object it is given and to nothing else. *)
Lemma invariant_applyColorAttrib I obj material :
  (∀ s o o', I s → objects s !! obj = Some o → I (Host.set_objects <[obj := o']> s)) →
  invariant I (applyColorAttrib vertex_count obj material) (λ _, True).
Proof.
  intros HI. unfold applyColorAttrib.
  eapply invariant_bind; [apply invariant_lift|]; intros r _.
  eapply invariant_bind; [apply invariant_lift|]; intros g _.
  eapply invariant_bind; [apply invariant_lift|]; intros b _.
  eapply invariant_bind; [apply invariant_lift|]; intros opacity _.
  assert (Hfill : invariant I (color_attributes_new vertex_count obj ≫= λ k,
                    for_each (seq 0 k) (λ vtx, set_vertex_color obj vtx (r, g, b, opacity)))
                  (λ _, True)).
  { eapply invariant_bind; [by apply invariant_color_attributes_new|]. intros k _.
    apply invariant_for_each. intros i. by apply invariant_update. }
  destruct material; first [exact Hfill | by apply invariant_ret].
Qed.

Lemma applyColorAttrib_log obj material s :
  log (applyColorAttrib vertex_count obj material s).2 = log s ∧
  next_id (applyColorAttrib vertex_count obj material s).2 = next_id s.
Proof.
  pose proof (invariant_applyColorAttrib (λ s', log s' = log s ∧ next_id s' = next_id s)
                obj material) as H.
  specialize (H (λ _ _ _ Hs _, Hs) s (conj eq_refl eq_refl)).
  destruct (applyColorAttrib vertex_count obj material s) as [[[]|e] s']; simpl; tauto.
Qed.

(** The host calls of [createLabel]: the text object is created first and
    linked last. *)
Lemma createLabel_log lb vtx s :
  ∃ rest,
    log (createLabel radians lb vtx s).2 = log s ++ rest ∧
    rest `prefix_of` [ObjectNew (next_id s) "Label"; ObjectLink (next_id s)].
Proof.
  unfold createLabel. rewrite M_bind_run, lift_run.
  match goal with |- context [match ?r with Ok _ => _ | Raise _ => _ end] =>
    destruct r as [[[body size] align_x]|e] end.
  2:{ exists []. simpl. rewrite app_nil_r. split; [done|]. apply prefix_nil. }
  rewrite M_bind_run. unfold Host.objects_new at 1. cbn [next_id objects collection log].
  rewrite M_bind_run, lift_run.
  match goal with |- context [match ?r with Ok _ => _ | Raise _ => _ end] =>
    destruct r as [[[loc_x loc_y] loc_z]|e] end.
  2:{ exists [ObjectNew (next_id s) "Label"]. simpl. split; [done|]. by eexists [_]. }
  unfold Host.set_location, Host.set_rotation.
  rewrite M_bind_run, update_insert.
  cbn [ob_name ob_data ob_modifiers ob_location ob_rotation].
  rewrite M_bind_run, lift_run.
  match goal with |- context [match ?r with Ok _ => _ | Raise _ => _ end] =>
    destruct r as [[[rot_x rot_y] rot_z]|e] end.
  2:{ exists [ObjectNew (next_id s) "Label"]. simpl. split; [done|]. by eexists [_]. }
  rewrite M_bind_run, update_insert.
  cbn [ob_name ob_data ob_modifiers ob_location ob_rotation].
  unfold Host.collection_link. cbn [next_id objects collection log].
  rewrite lookup_insert_eq. simpl.
  exists [ObjectNew (next_id s) "Label"; ObjectLink (next_id s)].
  split; [by rewrite <- app_assoc|done].
Qed.

Lemma shape_visible_true shape vertexes geometry visible :
  Py.getitem shape "vertexes" = Ok vertexes →
  Py.getitem shape "geometry" = Ok geometry →
  Py.getitem geometry "visible" = Ok visible →
  shape_visible shape = Ok (Py.truthy visible).
Proof.
  intros Hv Hg Hvis. unfold shape_visible.
  rewrite (getitem_contains _ _ _ Hv). cbn [mbind result_bind].
  rewrite Hg. cbn [mbind result_bind]. by rewrite Hvis.
Qed.

(** Up to the end of the loop over the holes, on a visible shape with
    well-formed outline, geometry and holes. *)
Lemma import_geometry_holes shape vs geometry visible pz sz holes s :
  Py.getitem shape "vertexes" = Ok (JArr vs) → Forall is_point vs →
  Py.getitem shape "geometry" = Ok geometry →
  Py.getitem geometry "visible" = Ok visible → Py.truthy visible = true →
  position_z geometry = Some pz → scale_z geometry = Some sz →
  Py.getitem shape "holes" = Ok (JArr (JArr <$> holes)) →
  Forall (Forall is_point) holes →
  let n := next_id s in
  let m0 := extruded (coords <$> vs) pz sz in
  ∃ s1,
    import_geometry vertex_count shape s =
      (material ← lift (Py.getitem shape "material");
       applyColorAttrib vertex_count n material) s1 ∧
    objects s1 !! n =
      Some (mkObject "Mesh" (MeshData (cut_all pz sz m0 holes) None) []
                     (zero, zero, num_div sz two) origin3) ∧
    next_id s1 = S n + length holes ∧
    log s1 = log s ++ [ObjectNew n "Mesh"; ModifierApply n "Solidify" m0; ObjectLink n]
                   ++ hole_events n (S n) pz sz m0 holes ∧
    (∀ i, S n ≤ i < next_id s1 → objects s1 !! i = None).
Proof.
  intros Hv Hpts Hg Hvis Ht Hpz Hsz Hh Hholes n m0.
  unfold import_geometry.
  rewrite M_bind_run, lift_run, (shape_visible_true _ _ _ _ Hv Hg Hvis), Ht.
  rewrite M_bind_run, lift_run, Hv. cbn [mbind result_bind]. rewrite Hg.
  cbn [mbind result_bind]. rewrite M_bind_run.
  rewrite (createShapeObj_ok _ _ _ _ false s Hpts Hpz Hsz).
  fold n. set (sA := mkScene _ _ _ _).
  rewrite M_bind_run, lift_run, (getitem_contains _ _ _ Hh).
  destruct (cut_holes_ok shape geometry pz sz n "Mesh" (zero, zero, num_div sz two) origin3
              holes Hg Hpz Hsz Hholes sA m0) as (s1 & Hrun & Hobj & Hid & Hlog & Hnone).
  { apply lookup_insert_eq. }
  { simpl. lia. }
  exists s1. split_and!; auto.
  - rewrite M_bind_run, M_bind_run, lift_run, Hh. cbn [mbind result_bind Py.iter].
    by rewrite Hrun.
  - rewrite Hlog. simpl. by rewrite <- app_assoc.
Qed.

(** With two holes, the second Boolean difference is taken on the result of
    the first. *)
Lemma hole_events_two sid n pz sz m h1 h2 :
  hole_events sid n pz sz m [h1; h2] =
  [ObjectNew n "Mesh"; ModifierApply n "Solidify" (hole_tool pz h1); ObjectLink n;
   ModifierApply sid "Boolean" (subtracted sz m (hole_tool pz h1));
   ObjectDelete n;
   ObjectNew (S n) "Mesh"; ModifierApply (S n) "Solidify" (hole_tool pz h2);
   ObjectLink (S n);
   ModifierApply sid "Boolean"
     (subtracted sz (subtracted sz m (hole_tool pz h1)) (hole_tool pz h2));
   ObjectDelete (S n)].
Proof. reflexivity. Qed.

(** Each hole contributes one creation and one deletion. *)
Lemma hole_events_count sid n pz sz m holes :
  length (List.filter is_creation (hole_events sid n pz sz m holes)) = length holes ∧
  length (List.filter is_deletion (hole_events sid n pz sz m holes)) = length holes.
Proof.
  revert n m. induction holes as [|h holes IH]; intros n m; [done|].
  destruct (IH (S n) (subtracted sz m (hole_tool pz h))) as [IH1 IH2].
  simpl. by rewrite IH1, IH2.
Qed.

(** C3.  For a visible shape with a [holes] key holding N hole polygons,
    the host calls of [import_shape] are: the creation of the shape's solid;
    then, for each hole in input order, the creation of a hole solid (outline
    extruded by 999), the Boolean difference of the shape's current mesh (the
    result of the previous subtraction) with that solid, and at once the
    deletion of the hole solid; then at most the creation of the label.  In
    the scene it leaves, none of the N hole solids exists. *)
Theorem import_shape_cuts_holes (shape geometry visible : json) (vs : list json)
    (holes : list (list json)) (pz sz : num) (s : scene) :
  Py.getitem shape "vertexes" = Ok (JArr vs) → Forall is_point vs →
  Py.getitem shape "geometry" = Ok geometry →
  Py.getitem geometry "visible" = Ok visible → Py.truthy visible = true →
  position_z geometry = Some pz → scale_z geometry = Some sz →
  Py.getitem shape "holes" = Ok (JArr (JArr <$> holes)) →
  Forall (Forall is_point) holes →
  let n := next_id s in
  let m0 := extruded (coords <$> vs) pz sz in
  let s' := (import_shape vertex_count radians shape s).2 in
  ∃ rest,
    log s' = log s ++ [ObjectNew n "Mesh"; ModifierApply n "Solidify" m0; ObjectLink n]
                   ++ hole_events n (S n) pz sz m0 holes ++ rest ∧
    rest `prefix_of` [ObjectNew (S n + length holes) "Label";
                      ObjectLink (S n + length holes)] ∧
    ∀ k, k < length holes → objects s' !! (S n + k) = None.
Proof.
  intros Hv Hpts Hg Hvis Ht Hpz Hsz Hh Hholes n m0.
  destruct (import_geometry_holes _ _ _ _ _ _ _ s Hv Hpts Hg Hvis Ht Hpz Hsz Hh Hholes)
    as (s1 & Hrun & _ & Hid & Hlog & Hnone).
  fold n m0 in Hrun, Hid, Hlog, Hnone.
  assert (Hcol : ∃ r2 s2,
    import_geometry vertex_count shape s = (r2, s2) ∧ log s2 = log s1 ∧
    next_id s2 = next_id s1 ∧ stable n s1 s2).
  { rewrite Hrun, M_bind_run, lift_run.
    destruct (Py.getitem shape "material") as [material|e].
    - pose proof (applyColorAttrib_log n material s1) as [Hl Hk].
      assert (Hn1 : n ≤ next_id s1) by lia.
      pose proof (keeps_applyColorAttrib n s1 n material Hn1 (le_n _) s1 (stable_refl _ _)) as Hst.
      destruct (applyColorAttrib vertex_count n material s1) as [[[]|e] s2]; simpl in *.
      + exists (Ok tt), s2. tauto.
      + by exists (Raise e), s2.
    - exists (Raise e), s1. split_and!; auto. apply stable_refl. }
  destruct Hcol as (r2 & s2 & Hgeo & Hlog2 & Hid2 & Hst2).
  assert (Hfin : ∃ rest,
    log (import_shape vertex_count radians shape s).2 = log s2 ++ rest ∧
    rest `prefix_of` [ObjectNew (next_id s2) "Label"; ObjectLink (next_id s2)] ∧
    stable n s2 (import_shape vertex_count radians shape s).2).
  { unfold import_shape. rewrite M_bind_run, Hgeo.
    assert (Hnil : ∀ z, ∃ rest, log z = log z ++ rest ∧
              rest `prefix_of` [ObjectNew (next_id s2) "Label"; ObjectLink (next_id s2)]).
    { intros z. exists []. rewrite app_nil_r. split; [done|apply prefix_nil]. }
    destruct r2 as [[]|e]; simpl.
    2:{ destruct (Hnil s2) as (rest & ? & ?). exists rest. split_and!; auto. apply stable_refl. }
    pose proof (keeps_import_label n s2 shape) as Hst.
    assert (Hle : n ≤ next_id s2) by lia.
    specialize (Hst Hle s2 (stable_refl _ _)).
    assert (Hst' : stable n s2 (import_label radians shape s2).2).
    { destruct (import_label radians shape s2) as [[[]|e] s3]; simpl; tauto. }
    clear Hst. revert Hst'. unfold import_label. rewrite M_bind_run, lift_run.
    destruct (label_visible shape) as [[]|e]; simpl.
    2,3: intros ?; destruct (Hnil s2) as (rest & ? & ?); by exists rest.
    rewrite M_bind_run, lift_run.
    match goal with |- context [match ?r with Ok _ => _ | Raise _ => _ end] =>
      destruct r as [[label vertexes]|e] end; simpl.
    2: intros ?; destruct (Hnil s2) as (rest & ? & ?); by exists rest.
    intros Hst'. destruct (createLabel_log label vertexes s2) as (rest & Hl & Hp).
    by exists rest. }
  destruct Hfin as (rest & Hlog3 & Hpre & Hst3).
  exists rest. split_and!.
  - by rewrite Hlog3, Hlog2, Hlog, <- !app_assoc.
  - by rewrite Hid2, Hid in Hpre.
  - intros k Hk.
    destruct Hst2 as (_ & _ & Hfree2 & _). destruct Hst3 as (_ & _ & Hfree3 & _).
    apply Hfree3; [lia|]. apply Hfree2; [lia|]. apply Hnone. lia.
Qed.

(** ** Coordinates and degenerate outlines *)

(** A record with coordinates that is not a point stops the loop over the
    outline with [OverflowError], before [geometry] is read. *)
Lemma read_vertex_overflow geometry acc v :
  has_xy v → ¬ is_point v → read_vertex geometry acc v = Raise OverflowError.
Proof.
  intros [p Hp] Hn. destruct acc as [mesh_vtx mesh_face].
  pose proof (coords_point _ _ Hp) as Hc.
  apply point_of_getitem in Hp as (xv & yv & Hx & Hxn & Hy & Hyn).
  unfold read_vertex, Py.neg, Py.truediv, Py.number.
  rewrite Hx; simpl. rewrite Hxn; simpl.
  destruct (Py.quotient (num_neg p.1) ten) as [qx|e] eqn:Ex; simpl.
  - rewrite Hy; simpl. rewrite Hyn; simpl.
    destruct (Py.quotient p.2 ten) as [qy|e] eqn:Ey; simpl.
    + destruct Hn. unfold is_point, has_xy, evaluates. rewrite Hc, Ex, Ey.
      split_and!; [|by eexists..].
      destruct v as [| | | | |m]; try done. simpl in *.
      destruct (Py.dict_get m "x"); [|done]. destruct (Py.dict_get m "y"); [|done].
      simplify_eq. simpl. by rewrite Hxn, Hyn.
    + f_equal. eapply quotient_literal_raises; [|exact Ey]. auto.
  - f_equal. eapply quotient_literal_raises; [|exact Ex]. auto.
Qed.

(** C8.  Every source point (x, y) of the outline of a shape or of a hole
    becomes the vertex (-x/10, y/10, position.z) of the face of the object
    [createShapeObj] builds: the same mapping for every point, in input
    order, with the quotients Python computes ((25, -40) gives (-2.5, -4.0),
    (3, 1) gives (-0.3, 0.1), (0.5, 2.0) gives (-0.05, 0.2)).  A record whose
    coordinates are too large for the division produces no vertex: the loop
    raises [OverflowError] there. *)
Theorem createShapeObj_vertices (vs : list json) (geometry : json) (pz sz : num)
    (isHole : bool) (s : scene) :
  Forall is_point vs → position_z geometry = Some pz → scale_z geometry = Some sz →
  (∃ s' m c,
     createShapeObj (JArr vs) geometry isHole s = (Ok (next_id s), s') ∧
     ob_data <$> objects s' !! next_id s = Some (MeshData m c) ∧
     outline m = (λ v, (num_div (num_neg (coords v).1) ten,
                        num_div (coords v).2 ten, pz)) <$> vs ∧
     face m = seq 0 (length vs)) ∧
  (num_div (num_neg (Int 25)) ten = Float (-2.5) ∧
   num_div (Int (-40)) ten = Float (-4) ∧
   num_div (num_neg (Int 3)) ten = Float (-0.3) ∧
   num_div (Int 1) ten = Float 0.1 ∧
   num_div (num_neg (Float 0.5)) ten = Float (-0.05) ∧
   num_div (Float 2) ten = Float 0.2) ∧
  (∀ v acc, has_xy v → ¬ is_point v →
            read_vertex geometry acc v = Raise OverflowError).
Proof.
  intros Hpts Hpz Hsz. split; [|split].
  - eexists _, _, _.
    rewrite (createShapeObj_ok _ _ _ _ isHole s Hpts Hpz Hsz). split; [done|].
    simpl. rewrite lookup_insert_eq. simpl. split; [done|]. split.
    + unfold extruded. simpl. by rewrite <- list_fmap_compose.
    + unfold extruded. simpl. by rewrite length_fmap.
  - split_and!; reflexivity.
  - intros v acc. apply read_vertex_overflow.
Qed.

(** C4 (as the code has it).  On an outline of fewer than 3 points
    [createShapeObj] raises nothing: it hands the face to the host as it is
    and returns the solidified object, linked to the collection. *)
Theorem createShapeObj_degenerate (vs : list json) (geometry : json) (pz sz : num)
    (isHole : bool) (s : scene) :
  length vs < 3 →
  Forall is_point vs → position_z geometry = Some pz → scale_z geometry = Some sz →
  ∃ s',
    createShapeObj (JArr vs) geometry isHole s = (Ok (next_id s), s') ∧
    objects s' !! next_id s = Some (solid_object (coords <$> vs) pz sz isHole) ∧
    next_id s ∈ collection s' ∧
    length (face (extruded (coords <$> vs) pz (thickness_of sz isHole))) < 3.
Proof.
  intros Hlen Hpts Hpz Hsz. eexists.
  rewrite (createShapeObj_ok _ _ _ _ isHole s Hpts Hpz Hsz). split; [done|].
  simpl. rewrite lookup_insert_eq. split_and!; [done| |].
  - apply elem_of_app. right. apply list_elem_of_here.
  - unfold extruded. simpl. by rewrite length_seq, length_fmap.
Qed.

(** ** Colour *)

Lemma digit16_plain c d :
  Py.digit16 c = Some d →
  Py.is_space c = false ∧ Ascii.eqb c "+" = false ∧ Ascii.eqb c "-" = false ∧
  Py.is_underscore c = false ∧ Ascii.eqb c "x" = false ∧ Ascii.eqb c "X" = false.
Proof.
  destruct c as [[] [] [] [] [] [] [] []]; vm_compute; intros H;
    first [discriminate H | repeat split].
Qed.

(** Two hexadecimal digits read as the number they spell. *)
Lemma int16_two_digits a b da db :
  Py.digit16 a = Some da → Py.digit16 b = Some db →
  Py.int16 (String a (String b EmptyString)) = Ok (16 * da + db)%Z.
Proof.
  intros Ha Hb.
  destruct (digit16_plain _ _ Ha) as (Hs & Hp & Hm & Hu & _ & _).
  destruct (digit16_plain _ _ Hb) as (_ & _ & _ & _ & Hx & HX).
  unfold Py.int16. cbn [list_ascii_of_string Py.lstrip]. rewrite Hs.
  cbn [Py.skip_sign]. rewrite Hp, Hm. cbn [Py.skip_prefix]. rewrite Hx, HX.
  rewrite andb_false_r. rewrite Hu. cbn [Py.scan16]. rewrite Ha, Hb.
  cbn [orb negb Py.lstrip]. do 2 f_equal.
Qed.

(** The value of a colour channel, an [int] from -15 to 255 (two digits at
    most, or a sign and a digit), has a quotient by 255. *)
Lemma channel_quotients_checked :
  forallb (λ k, match Py.quotient (Int (Z.of_nat k - 15)) (num_of_Z 255) with
                | Ok _ => true
                | Raise _ => false
                end) (seq 0 271) = true.
Proof. vm_compute. reflexivity. Qed.

Lemma quotient_255 n :
  (-15 ≤ n ≤ 255)%Z →
  Py.quotient (num_of_Z n) (num_of_Z 255) = Ok (num_div (num_of_Z n) (num_of_Z 255)).
Proof.
  intros Hn. apply evaluates_quotient.
  pose proof (proj1 (forallb_forall _ _) channel_quotients_checked (Z.to_nat (n + 15))) as H.
  cbv beta in H. rewrite Z2Nat.id, Z.add_simpl_r in H by lia.
  unfold evaluates, num_of_Z in *.
  destruct (Py.quotient (Int n) (Int 255)) as [q|e]; [by eexists|].
  discriminate H. apply in_seq. lia.
Qed.

Lemma digit16_range c d : Py.digit16 c = Some d → (0 ≤ d ≤ 15)%Z.
Proof.
  destruct c as [[] [] [] [] [] [] [] []]; vm_compute; intros H;
    first [discriminate H | injection H as <-; split; discriminate].
Qed.

Lemma channel_hex material c0 r1 r2 g1 g2 b1 b2 :
  Py.getitem material "color" =
    Ok (JStr (String c0 (String r1 (String r2 (String g1 (String g2
               (String b1 (String b2 EmptyString)))))))) →
  ∀ R1 R2 G1 G2 B1 B2,
    Py.digit16 r1 = Some R1 → Py.digit16 r2 = Some R2 →
    Py.digit16 g1 = Some G1 → Py.digit16 g2 = Some G2 →
    Py.digit16 b1 = Some B1 → Py.digit16 b2 = Some B2 →
    channel material 1 3 = Ok (num_div (num_of_Z (16 * R1 + R2)) (num_of_Z 255)) ∧
    channel material 3 5 = Ok (num_div (num_of_Z (16 * G1 + G2)) (num_of_Z 255)) ∧
    channel material 5 7 = Ok (num_div (num_of_Z (16 * B1 + B2)) (num_of_Z 255)).
Proof.
  intros Hc R1 R2 G1 G2 B1 B2 Hr1 Hr2 Hg1 Hg2 Hb1 Hb2.
  unfold channel. rewrite Hc. cbn [mbind result_bind Py.slice Nat.sub substring].
  rewrite (int16_two_digits _ _ _ _ Hr1 Hr2), (int16_two_digits _ _ _ _ Hg1 Hg2),
    (int16_two_digits _ _ _ _ Hb1 Hb2). cbn [mbind result_bind].
  apply digit16_range in Hr1, Hr2, Hg1, Hg2, Hb1, Hb2.
  split_and!; apply quotient_255; lia.
Qed.

(** The loop over the slots of the attribute writes the colour to each of
    them. *)
Lemma fill_colors obj r g b opacity a nm m mods loc rot :
  Py.as_num opacity = Some a →
  ∀ j i slots s,
    objects s !! obj = Some (mkObject nm (MeshData m (Some slots)) mods loc rot) →
    length slots = i + j →
    for_each (seq i j) (λ vtx, set_vertex_color obj vtx (r, g, b, opacity)) s =
    (Ok tt,
     Host.set_objects
       <[obj := mkObject nm
                  (MeshData m (Some (take i slots ++ replicate j (Some (r, g, b, a)))))
                  mods loc rot]> s).
Proof.
  intros Ha. induction j as [|j IH]; intros i slots s Ho Hlen; simpl.
  - rewrite M_ret_run, app_nil_r, take_ge by lia.
    unfold Host.set_objects. rewrite insert_id by done. by destruct s.
  - rewrite M_bind_run. unfold set_vertex_color.
    erewrite update_run; [|exact Ho|]; cycle 1.
    { cbn [ob_data]. unfold Py.number. rewrite Ha. reflexivity. }
    cbn [ob_name ob_modifiers ob_location ob_rotation].
    erewrite (IH (S i)); cycle 1.
    { simpl. apply lookup_insert_eq. }
    { rewrite length_insert. lia. }
    unfold Host.set_objects. simpl. rewrite insert_insert_eq.
    do 6 f_equal.
    assert (Hi : i < length slots) by lia.
    rewrite (take_S_r _ _ (Some (r, g, b, a))) by by apply list_lookup_insert_eq.
    rewrite take_insert_ge by lia. by rewrite <- app_assoc.
Qed.

Lemma applyColorAttrib_ok obj material opacity a nm m c mods loc rot r g b s :
  objects s !! obj = Some (mkObject nm (MeshData m c) mods loc rot) →
  channel material 1 3 = Ok r → channel material 3 5 = Ok g →
  channel material 5 7 = Ok b →
  Py.getitem material "opacity" = Ok opacity → Py.as_num opacity = Some a →
  applyColorAttrib vertex_count obj material s =
  (Ok tt,
   Host.set_objects
     <[obj := mkObject nm
                (MeshData m (Some (replicate (vertex_count m) (Some (r, g, b, a)))))
                mods loc rot]> s).
Proof.
  intros Ho Hr Hg Hb Hop Ha. unfold applyColorAttrib.
  rewrite M_bind_run, lift_run, Hr, M_bind_run, lift_run, Hg.
  rewrite M_bind_run, lift_run, Hb, M_bind_run, lift_run, Hop.
  assert (Hfill : (color_attributes_new vertex_count obj ≫= λ n,
             for_each (seq 0 n) (λ vtx, set_vertex_color obj vtx (r, g, b, opacity))) s
          = (Ok tt, Host.set_objects
               <[obj := mkObject nm
                  (MeshData m (Some (replicate (vertex_count m) (Some (r, g, b, a)))))
                  mods loc rot]> s)).
  { rewrite M_bind_run. unfold color_attributes_new. rewrite Ho.
    erewrite (fill_colors _ _ _ _ _ _ _ _ _ _ _ Ha); cycle 1.
    { simpl. apply lookup_insert_eq. }
    { by rewrite length_replicate. }
    unfold Host.set_objects. simpl. by rewrite insert_insert_eq. }
  destruct material; try exact Hfill. discriminate Hop.
Qed.

(** C6.  For a material with colour [#RRGGBB] and opacity [o], colour
    application gives the mesh of the object a colour attribute with one
    slot per vertex, every slot holding (R/255, G/255, B/255, o); for
    [#FF0000] and opacity 1.0 every slot holds (1.0, 0.0, 0.0, 1.0). *)
Theorem applyColorAttrib_uniform (obj : nat) (o : object) (m : mesh)
    (c : option (list (option rgba))) (material opacity : json) (a : num)
    (r1 r2 g1 g2 b1 b2 : ascii) (R1 R2 G1 G2 B1 B2 : Z) (s : scene) :
  objects s !! obj = Some o → ob_data o = MeshData m c →
  Py.getitem material "color" =
    Ok (JStr (String "#" (String r1 (String r2 (String g1 (String g2
               (String b1 (String b2 EmptyString)))))))) →
  Py.digit16 r1 = Some R1 → Py.digit16 r2 = Some R2 →
  Py.digit16 g1 = Some G1 → Py.digit16 g2 = Some G2 →
  Py.digit16 b1 = Some B1 → Py.digit16 b2 = Some B2 →
  Py.getitem material "opacity" = Ok opacity → Py.as_num opacity = Some a →
  let rgba := (num_div (num_of_Z (16 * R1 + R2)) (num_of_Z 255),
               num_div (num_of_Z (16 * G1 + G2)) (num_of_Z 255),
               num_div (num_of_Z (16 * B1 + B2)) (num_of_Z 255), a) in
  ∃ s',
    applyColorAttrib vertex_count obj material s = (Ok tt, s') ∧
    ob_data <$> objects s' !! obj =
      Some (MeshData m (Some (replicate (vertex_count m) (Some rgba)))) ∧
    (r1 = "F"%char → r2 = "F"%char → g1 = "0"%char → g2 = "0"%char →
     b1 = "0"%char → b2 = "0"%char → a = Float 1 →
     rgba = (Float 1, Float 0, Float 0, Float 1)).
Proof.
  intros Ho Hd Hc Hr1 Hr2 Hg1 Hg2 Hb1 Hb2 Hop Ha rgba.
  destruct o as [nm d mods loc rot]. simpl in Hd. subst d.
  destruct (channel_hex _ _ _ _ _ _ _ _ Hc _ _ _ _ _ _ Hr1 Hr2 Hg1 Hg2 Hb1 Hb2)
    as (Hr & Hg & Hb).
  eexists. rewrite (applyColorAttrib_ok _ _ _ _ _ _ _ _ _ _ _ _ _ _ Ho Hr Hg Hb Hop Ha).
  split; [done|]. split.
  - simpl. by rewrite lookup_insert_eq.
  - intros -> -> -> -> -> -> ->. vm_compute in Hr1, Hr2, Hg1, Hg2, Hb1, Hb2.
    injection Hr1 as <-. injection Hr2 as <-. injection Hg1 as <-.
    injection Hg2 as <-. injection Hb1 as <-. injection Hb2 as <-.
    reflexivity.
Qed.
(** ** Labels *)


(** A component the rotation does not have is 0, without conversion and,
    for [z], without the offset of 180 degrees. *)
Lemma angle_absent rot k offset :
  Py.contains k rot = Ok false → angle radians rot k offset = Ok zero.
Proof. intros H. unfold angle. by rewrite H. Qed.

(** Adding the literal [180] never raises. *)
Lemma sum_180 r : Py.sum r (num_of_Z 180) = Ok (num_add r (num_of_Z 180)).
Proof. by destruct r. Qed.



(** ** Which objects a record adds *)

Lemma on_success_ret {A} (P : scene → Prop) (a : A) (Q : A → scene → Prop) :
  (∀ s, P s → Q a s) → on_success P (mret a) Q.
Proof. intros H s Hs. rewrite M_ret_run. auto. Qed.

Lemma on_success_bind {A B} P (m : M A) (f : A → M B) R Q :
  on_success P m R → (∀ a, on_success (R a) (f a) Q) → on_success P (m ≫= f) Q.
Proof.
  intros Hm Hf s Hs. rewrite M_bind_run. specialize (Hm s Hs).
  destruct (m s) as [[a|e] s1]; [|done]. by apply Hf.
Qed.

Lemma on_success_lift {A} P (r : result A) :
  on_success P (lift r) (λ a s, P s ∧ r = Ok a).
Proof. intros s Hs. rewrite lift_run. by destruct r. Qed.

Lemma on_success_weaken {A} (P P' : scene → Prop) (m : M A) (Q Q' : A → scene → Prop) :
  on_success P' m Q' → (∀ s, P s → P' s) → (∀ a s, Q' a s → Q a s) →
  on_success P m Q.
Proof.
  intros Hm HP HQ s Hs. specialize (Hm s (HP s Hs)).
  destruct (m s) as [[a|e] s1]; auto.
Qed.

Lemma on_success_for_each {A} P (l : list A) (body : A → M unit) :
  (∀ x, on_success P (body x) (λ _, P)) → on_success P (for_each l body) (λ _, P).
Proof.
  intros Hb. induction l as [|x l IH]; simpl.
  - by apply on_success_ret.
  - eapply on_success_bind; [apply Hb|]. intros []. apply IH.
Qed.


Lemma kinds_insert_same s id o o' :
  objects s !! id = Some o → kind_of o' = kind_of o →
  kind_of <$> <[id := o']> (objects s) = kinds s.
Proof.
  intros Ho Hk. rewrite fmap_insert, Hk. apply insert_id.
  unfold kinds. by rewrite lookup_fmap, Ho.
Qed.

Lemma update_kinds K N id f :
  keeps_kind f → on_success (at_kinds K N) (Host.update id f) (λ _, at_kinds K N).
Proof.
  intros Hf s [HK HN]. unfold Host.update.
  destruct (objects s !! id) as [o|] eqn:Ho; [|done].
  destruct (f o) as [o'|e] eqn:Hfo; [|done].
  split; [|done]. unfold kinds. simpl. rewrite <- HK.
  apply (kinds_insert_same _ _ o); auto.
Qed.

Lemma objects_new_kinds K N name d :
  on_success (at_kinds K N) (Host.objects_new name d)
    (λ id s, id = N ∧ at_kinds (<[N := kind_of (mkObject name d [] origin3 origin3)]> K) (S N) s).
Proof.
  intros s [HK HN]. unfold Host.objects_new. split; [done|]. split; simpl; [|by rewrite HN].
  unfold kinds. simpl. by rewrite fmap_insert, HN, <- HK.
Qed.

Lemma modifier_apply_kinds K N id name :
  on_success (at_kinds K N) (Host.modifier_apply id name) (λ _, at_kinds K N).
Proof.
  intros s [HK HN]. unfold Host.modifier_apply.
  destruct (objects s !! id) as [o|] eqn:Ho; [|done].
  destruct (Host.find_modifier name (ob_modifiers o)) as [md|]; [|done].
  destruct (ob_data o) as [m c|] eqn:Hd; [|done].
  destruct (Host.apply_to (objects s) md m) as [m'|e]; [|done].
  split; [|done]. unfold kinds. simpl. rewrite <- HK.
  apply (kinds_insert_same _ _ o); auto. unfold kind_of. by rewrite Hd.
Qed.

Lemma collection_link_kinds K N id :
  on_success (at_kinds K N) (Host.collection_link id) (λ _, at_kinds K N).
Proof.
  intros s [HK HN]. unfold Host.collection_link.
  by destruct (objects s !! id) as [o|].
Qed.

Lemma object_delete_kinds K N id :
  on_success (at_kinds K N) (Host.object_delete id) (λ _, at_kinds (delete id K) N).
Proof.
  intros s [HK HN]. unfold Host.object_delete.
  destruct (objects s !! id) as [o|]; [|done].
  split; [|done]. unfold kinds. simpl. by rewrite fmap_delete, <- HK.
Qed.

Lemma color_attributes_new_kinds K N id :
  on_success (at_kinds K N) (color_attributes_new vertex_count id) (λ _, at_kinds K N).
Proof.
  intros s [HK HN]. unfold color_attributes_new.
  destruct (objects s !! id) as [[nm [m c|] mods loc rot]|] eqn:Ho; try done.
  split; [|done]. unfold kinds. simpl. rewrite <- HK.
  by apply (kinds_insert_same _ _ _ _ Ho).
Qed.

Lemma set_vertex_color_kinds K N id i col :
  on_success (at_kinds K N) (set_vertex_color id i col) (λ _, at_kinds K N).
Proof.
  apply update_kinds. intros o o'. destruct o as [nm [m [slots|]|] mods loc rot]; simpl; try done.
  destruct col as [[[r g] b] opacity]. destruct (Py.number opacity); simpl; [|done].
  by intros [= <-].
Qed.

Lemma on_success_pure {A} (P : scene → Prop) (φ : Prop) (m : M A) Q :
  (φ → on_success P m Q) → on_success (λ s, P s ∧ φ) m Q.
Proof. intros H s [Hs Hφ]. by apply H. Qed.

Lemma on_success_pure_l {A} (P : scene → Prop) (φ : Prop) (m : M A) Q :
  (φ → on_success P m Q) → on_success (λ s, φ ∧ P s) m Q.
Proof. intros H s [Hφ Hs]. by apply H. Qed.

(** A step through a pure computation, and a step through a host call that
    leaves the kinds and the counter as they are. *)
Tactic Notation "kinds_lift" "as" simple_intropattern(p) :=
  eapply on_success_bind; [apply on_success_lift|];
  intros p; apply on_success_pure; intros ?.
Tactic Notation "kinds_lift" := kinds_lift as ?.

Ltac kinds_same :=
  eapply on_success_bind;
  [ first [ apply update_kinds; intros ? ? [= <-]; reflexivity
          | apply modifier_apply_kinds
          | apply collection_link_kinds
          | apply color_attributes_new_kinds ]
  | intros ? ].

Lemma createShapeObj_kinds K N vertices geometry isHole :
  on_success (at_kinds K N) (createShapeObj vertices geometry isHole)
    (λ id s, id = N ∧ at_kinds (<[N := KMesh]> K) (S N) s).
Proof.
  unfold createShapeObj, Host.modifiers_new, Host.modifier_set, Host.set_location.
  kinds_lift as [mesh_vtx mesh_face]. kinds_lift.
  eapply on_success_bind; [apply objects_new_kinds|]. intros obj.
  apply on_success_pure_l. intros ->. change (kind_of _) with KMesh.
  kinds_same. kinds_same. kinds_lift. kinds_same. kinds_same. kinds_lift.
  kinds_same. kinds_same. by apply on_success_ret.
Qed.

Lemma subtractObj_kinds K N obj1 obj2 :
  on_success (at_kinds K N) (subtractObj obj1 obj2) (λ _, at_kinds (delete obj2 K) N).
Proof.
  unfold subtractObj, Host.modifiers_new. kinds_same. kinds_same.
  apply object_delete_kinds.
Qed.

Lemma cut_hole_kinds K N shape shapeObj hole :
  K !! N = None →
  on_success (at_kinds K N) (cut_hole shape shapeObj hole) (λ _, at_kinds K (S N)).
Proof.
  intros HN. unfold cut_hole. kinds_lift.
  eapply on_success_bind; [apply createShapeObj_kinds|]. intros holeObj.
  apply on_success_pure_l. intros ->.
  eapply on_success_weaken; [apply subtractObj_kinds|done|].
  intros [] s. by rewrite delete_insert_eq, delete_id.
Qed.

Lemma applyColorAttrib_kinds K N obj material :
  on_success (at_kinds K N) (applyColorAttrib vertex_count obj material)
    (λ _, at_kinds K N).
Proof.
  unfold applyColorAttrib.
  kinds_lift as r. kinds_lift as g. kinds_lift as b. kinds_lift as opacity.
  assert (Hfill : on_success (at_kinds K N)
            (color_attributes_new vertex_count obj ≫= λ k,
               for_each (seq 0 k) (λ vtx, set_vertex_color obj vtx (r, g, b, opacity)))
            (λ _, at_kinds K N)).
  { kinds_same. apply on_success_for_each. intros i. apply set_vertex_color_kinds. }
  destruct material; first [exact Hfill | by apply on_success_ret].
Qed.

Lemma createLabel_kinds K N lb vtx :
  on_success (at_kinds K N) (createLabel radians lb vtx)
    (λ _, at_kinds (<[N := KText]> K) (S N)).
Proof.
  unfold createLabel, Host.set_location, Host.set_rotation.
  kinds_lift as [[body size] align_x].
  eapply on_success_bind; [apply objects_new_kinds|]. intros obj.
  apply on_success_pure_l. intros ->. change (kind_of _) with KText.
  kinds_lift as [[loc_x loc_y] loc_z]. kinds_same.
  kinds_lift as [[rot_x rot_y] rot_z]. kinds_same.
  apply collection_link_kinds.
Qed.

Lemma import_geometry_kinds K N shape :
  (∀ i, N ≤ i → K !! i = None) →
  on_success (at_kinds K N) (import_geometry vertex_count shape)
    (λ _ s, ∃ vis : bool,
       shape_visible shape = Ok vis ∧
       kinds_from (if vis then <[N := KMesh]> K else K) (if vis then S N else N) s).
Proof.
  intros Hfresh. unfold import_geometry. kinds_lift as go. destruct go.
  2:{ apply on_success_ret. intros s [HK HN]. exists false. split; [done|].
      split; [done|]. by rewrite HN. }
  kinds_lift as [vertexes geometry].
  eapply on_success_bind; [apply createShapeObj_kinds|]. intros shapeObj.
  apply on_success_pure_l. intros ->.
  set (K1 := <[N := KMesh]> K).
  assert (Hfresh1 : ∀ i, S N ≤ i → K1 !! i = None).
  { intros i Hi. unfold K1. rewrite lookup_insert_ne by lia. apply Hfresh. lia. }
  assert (Hstart : ∀ s, at_kinds K1 (S N) s → kinds_from K1 (S N) s).
  { intros s [HK HN]. split; [done|]. by rewrite HN. }
  apply (on_success_weaken _ (kinds_from K1 (S N)) _ _
           (λ _ s, kinds_from K1 (S N) s)); [|done|].
  2:{ intros _ s Hs. by exists true. }
  kinds_lift as has_holes.
  eapply (on_success_bind _ _ _ (λ _, kinds_from K1 (S N))).
  - destruct has_holes; [|by apply on_success_ret].
    kinds_lift as holes. apply on_success_for_each. intros hole s [HK HN].
    pose proof (cut_hole_kinds K1 (next_id s) shape N hole (Hfresh1 _ HN) s
                  (conj HK eq_refl)) as Hcut.
    destruct (cut_hole shape N hole s) as [[[]|e] s']; [|done].
    destruct Hcut as [HK' HN']. split; [done|]. rewrite HN'. lia.
  - intros []. kinds_lift as material. intros s [HK HN].
    pose proof (applyColorAttrib_kinds K1 (next_id s) N material s (conj HK eq_refl))
      as Hcol.
    destruct (applyColorAttrib vertex_count N material s) as [[[]|e] s']; [|done].
    destruct Hcol as [HK' HN']. split; [done|]. by rewrite HN'.
Qed.

Lemma import_label_kinds K N shape :
  on_success (at_kinds K N) (import_label radians shape)
    (λ _ s, ∃ lab : bool,
       label_visible shape = Ok lab ∧ kinds s = if lab then <[N := KText]> K else K).
Proof.
  unfold import_label. kinds_lift as go. destruct go.
  2:{ apply on_success_ret. intros s [HK HN]. by exists false. }
  kinds_lift as [label vertexes].
  eapply on_success_weaken; [apply createLabel_kinds|done|].
  intros _ s [HK HN]. by exists true.
Qed.

(** The kinds after a record has been imported: the kinds before, with a
    mesh at the first new identity when the record is visible, and a text at
    a later one when its label is. *)
Lemma import_shape_kinds shape s s' :
  fresh s → import_shape vertex_count radians shape s = (Ok tt, s') →
  ∃ (vis lab : bool) k,
    shape_visible shape = Ok vis ∧ label_visible shape = Ok lab ∧
    (if vis then next_id s < k else next_id s ≤ k) ∧
    kinds s' = (if lab then <[k := KText]> else id)
                 ((if vis then <[next_id s := KMesh]> else id) (kinds s)).
Proof.
  intros Hfresh Hrun. unfold import_shape in Hrun. rewrite M_bind_run in Hrun.
  assert (HK : ∀ i, next_id s ≤ i → kinds s !! i = None).
  { intros i Hi. unfold kinds. by rewrite lookup_fmap, Hfresh. }
  pose proof (import_geometry_kinds (kinds s) (next_id s) shape HK s (conj eq_refl eq_refl))
    as Hgeo.
  destruct (import_geometry vertex_count shape s) as [[[]|e] s1]; [|done].
  destruct Hgeo as (vis & Hvis & HK1 & HN1).
  pose proof (import_label_kinds (kinds s1) (next_id s1) shape s1 (conj eq_refl eq_refl))
    as Hlab.
  rewrite Hrun in Hlab. destruct Hlab as (lab & Hlab & HK2).
  exists vis, lab, (next_id s1). split_and!; auto.
  - destruct vis; lia.
  - rewrite HK2, HK1. by destruct vis, lab.
Qed.

Lemma shape_visible_iff shape :
  shape_visible shape = Ok true ↔ has_visible_geometry shape.
Proof.
  unfold shape_visible, has_visible_geometry. split.
  - destruct shape as [|b|n|str|l|m]; simpl; try done.
    + by destruct (Py.is_substring _ _).
    + by destruct (existsb _ l).
    + destruct (Py.dict_get m "vertexes") as [v|] eqn:Hv; simpl; [|done].
      destruct (Py.dict_get m "geometry") as [g|] eqn:Hg; simpl; [|done].
      destruct (Py.getitem g "visible") as [vis|] eqn:Hvis; simpl; [|done].
      intros [= Ht]. by exists m, v, g, vis.
  - intros (m & v & g & vis & -> & Hv & Hg & Hvis & Ht).
    cbn [Py.contains Py.getitem]. rewrite Hv, Hg. cbn [mbind result_bind].
    rewrite Hvis. cbn [mbind result_bind]. by rewrite Ht.
Qed.

Lemma label_visible_iff shape :
  label_visible shape = Ok true ↔ has_visible_label shape.
Proof.
  unfold label_visible, has_visible_label. split.
  - destruct shape as [|b|n|str|l|m]; simpl; try done.
    + by destruct (Py.is_substring _ _).
    + by destruct (existsb _ l).
    + destruct (Py.dict_get m "label") as [lb|] eqn:Hl; simpl; [|done].
      destruct (Py.contains "visible" lb) as [[]|]; simpl; try done.
      destruct (Py.getitem lb "visible") as [vis|] eqn:Hvis; simpl; [|done].
      intros [= Ht]. by exists m, lb, vis.
  - intros (m & lb & vis & -> & Hl & Hvis & Ht).
    cbn [Py.contains Py.getitem]. rewrite Hl. cbn [mbind result_bind].
    rewrite (getitem_contains _ _ _ Hvis). cbn [mbind result_bind].
    rewrite Hvis. cbn [mbind result_bind]. by rewrite Ht.
Qed.

(** C2 (as the code has it).  For a record that [import_shape] processes
    without raising: the scene gains a mesh object exactly when the record
    has a [vertexes] key and [geometry.visible] is true, and a text object
    exactly when it has a [label] key whose [visible] is present and true; it
    gains at most one of each. *)
Theorem import_shape_creates (shape : json) (s s' : scene) :
  fresh s → import_shape vertex_count radians shape s = (Ok tt, s') →
  let is_new (k : kind) (i : nat) := next_id s ≤ i ∧ kinds s' !! i = Some k in
  ((∃ i, is_new KMesh i) ↔ has_visible_geometry shape) ∧
  ((∃ i, is_new KText i) ↔ has_visible_label shape) ∧
  (∀ k i j, is_new k i → is_new k j → i = j).
Proof.
  intros Hfresh Hrun is_new.
  destruct (import_shape_kinds shape s s' Hfresh Hrun) as (vis & lab & k & Hvis & Hlab & Hk & HK).
  assert (HK0 : ∀ i, next_id s ≤ i → kinds s !! i = None).
  { intros i Hi. unfold kinds. by rewrite lookup_fmap, Hfresh. }
  rewrite <- shape_visible_iff, <- label_visible_iff, Hvis, Hlab.
  assert (Hnew : ∀ kd i, is_new kd i ↔
            (vis = true ∧ kd = KMesh ∧ i = next_id s) ∨ (lab = true ∧ kd = KText ∧ i = k)).
  { intros kd i. unfold is_new. rewrite HK. split.
    - intros [Hi Hl]. destruct vis, lab; simpl in Hl.
      + destruct (decide (i = k)) as [->|Hne].
        * rewrite lookup_insert_eq in Hl. injection Hl as <-. by right.
        * rewrite lookup_insert_ne in Hl by done.
          destruct (decide (i = next_id s)) as [->|Hne'].
          -- rewrite lookup_insert_eq in Hl. injection Hl as <-. by left.
          -- rewrite lookup_insert_ne, HK0 in Hl by done. done.
      + destruct (decide (i = next_id s)) as [->|Hne'].
        * rewrite lookup_insert_eq in Hl. injection Hl as <-. by left.
        * rewrite lookup_insert_ne, HK0 in Hl by done. done.
      + destruct (decide (i = k)) as [->|Hne].
        * rewrite lookup_insert_eq in Hl. injection Hl as <-. by right.
        * rewrite lookup_insert_ne, HK0 in Hl by done. done.
      + by rewrite HK0 in Hl.
    - intros [(-> & -> & ->)|(-> & -> & ->)].
      + split; [done|]. destruct lab; simpl.
        * rewrite lookup_insert_ne by lia. apply lookup_insert_eq.
        * apply lookup_insert_eq.
      + split; [destruct vis; lia|]. simpl. apply lookup_insert_eq. }
  split_and!.
  - split.
    + intros [i [[Hv _]|(_ & [=] & _)]%Hnew]. by rewrite Hv.
    + intros [= ->]. exists (next_id s). apply Hnew. by left.
  - split.
    + intros [i [(_ & [=] & _)|[Hl _]]%Hnew]. by rewrite Hl.
    + intros [= ->]. exists k. apply Hnew. by right.
  - intros kd i j [(_ & -> & ->)|(_ & -> & ->)]%Hnew [(_ & Hkd & ->)|(_ & Hkd & ->)]%Hnew;
      done.
Qed.

(** ** More on the origin calculator *)

Lemma lower_inf x : ordered x → lower inf x = x.
Proof.
  intros Hx. unfold lower. destruct (num_ltb x inf) eqn:E; [done|].
  symmetry. apply value_PInf. unfold num_ltb, ordered in *.
  change (value inf) with PInf in E. by destruct (value x).
Qed.

Lemma upper_neg_inf x : ordered x → upper (num_neg inf) x = x.
Proof.
  intros Hx. unfold upper. destruct (num_ltb (num_neg inf) x) eqn:E; [done|].
  symmetry. apply value_NInf. unfold num_ltb, ordered in *.
  change (value (num_neg inf)) with NInf in E. by destruct (value x).
Qed.

(** X1.  The origin of a single point (x, y) is ((x + x)/2, (y + y)/2) in
    Python's arithmetic, which is not always the point: (3, 4) gives
    (3.0, 4.0), but x = 2^53 + 1 gives 2^53 as a float, below the point, and
    x = 1e308 gives [inf]. *)
Theorem getShapeOrigin_single (v : json) :
  has_xy v → ordered (coords v).1 → ordered (coords v).2 →
  getShapeOrigin (JArr [v]) =
    (origin_x ← midpoint (coords v).1 (coords v).1;
     origin_y ← midpoint (coords v).2 (coords v).2;
     Ok (origin_x, origin_y)) ∧
  midpoint (Int 3) (Int 3) = Ok (Float 3) ∧
  midpoint (Int (2 ^ 53 + 1)) (Int (2 ^ 53 + 1)) = Ok (Float 9007199254740992) ∧
  midpoint (Float 1e308) (Float 1e308) = Ok inf.
Proof.
  intros Hv Hx Hy. split; [|split_and!; reflexivity].
  rewrite getShapeOrigin_points by (constructor; [done|constructor]).
  simpl. by rewrite !lower_inf, !upper_neg_inf.
Qed.

(** X2.  The origin depends on the set of points only, when no two
    different numbers among the coordinates of an axis compare equal: two such
    sequences with the same points, in any order and with any repetitions (a
    ring that repeats its first point at the end, say), have the same
    origin. *)
Theorem getShapeOrigin_same_points (vs vs' : list json) :
  Forall has_xy vs →
  distinct_values (coords <$> vs).*1 → distinct_values (coords <$> vs).*2 →
  (∀ v, v ∈ vs ↔ v ∈ vs') →
  getShapeOrigin (JArr vs) = getShapeOrigin (JArr vs').
Proof.
  intros Hpts Hdx Hdy Hsame.
  assert (Hpts' : Forall has_xy vs').
  { rewrite Forall_forall in Hpts. apply Forall_forall. intros v Hv.
    apply Hpts. by apply Hsame. }
  apply getShapeOrigin_same; try done.
  - intros x. rewrite <- !list_fmap_compose, !list_elem_of_fmap.
    split; intros (v & -> & Hv); exists v; (split; [done|by apply Hsame]).
  - intros y. rewrite <- !list_fmap_compose, !list_elem_of_fmap.
    split; intros (v & -> & Hv); exists v; (split; [done|by apply Hsame]).
Qed.

(** X3.  Every element of the list is a dict with numbers under [x] and [y]
    exactly when the origin calculator returns a value or raises
    [OverflowError] (the sum or the halving of two bounds is out of the range
    of binary64, as for the single point x = 10^400); its other exceptions
    are [TypeError], [KeyError('x')] and [KeyError('y')]. *)
Theorem getShapeOrigin_succeeds_iff (vs : list json) :
  (Forall has_xy vs ↔
   (∃ o, getShapeOrigin (JArr vs) = Ok o) ∨
   getShapeOrigin (JArr vs) = Raise OverflowError) ∧
  (∀ e, getShapeOrigin (JArr vs) = Raise e →
        e = TypeError ∨ e = KeyError "x" ∨ e = KeyError "y" ∨ e = OverflowError) ∧
  getShapeOrigin (JArr [JObj [("x", JNum (Int (10 ^ 400))); ("y", JNum (Int 0))]])
    = Raise OverflowError.
Proof.
  split_and!; [..|reflexivity].
  - split.
    + intros H. pose proof (getShapeOrigin_points vs H) as Heq.
      destruct (midpoints_result _ _ _ _ _ Heq) as [_ Hr].
      destruct (getShapeOrigin (JArr vs)) as [o|e]; [left; by eauto|].
      right. by rewrite (Hr e).
    + unfold getShapeOrigin. cbn [Py.iter mbind result_bind].
      destruct (foldM_widen_cases vs (inf, num_neg inf, inf, num_neg inf))
        as [[H _]|[_ (e & -> & He)]]; [done|].
      cbn [mbind result_bind]. intros [[o Ho]|Ho]; [done|].
      injection Ho as ->. by destruct He as [?|[?|?]].
  - intros e.
    destruct (foldM_widen_cases vs (inf, num_neg inf, inf, num_neg inf))
      as [[H _]|[_ (e' & He' & He)]].
    + pose proof (getShapeOrigin_points vs H) as Heq.
      destruct (midpoints_result _ _ _ _ _ Heq) as [_ Hr].
      intros ->%Hr. auto.
    + unfold getShapeOrigin. cbn [Py.iter mbind result_bind]. rewrite He'.
      cbn [mbind result_bind]. intros [= <-]. unfold vertex_error in He. tauto.
Qed.

(** X4.  Whatever the origin calculator returns is a pair of floats, also
    when every coordinate is an [int]: both halves are results of a division.
    So the two divisions by 10 that [createLabel] applies to the origin never
    raise. *)
Theorem getShapeOrigin_returns_floats (vertices : json) (o : num * num) :
  getShapeOrigin vertices = Ok o →
  ∃ fx fy,
    o = (Float fx, Float fy) ∧
    Py.quotient (num_neg o.1) ten = Ok (Float (- fx / 10)) ∧
    Py.quotient o.2 ten = Ok (Float (fy / 10)).
Proof.
  intros (fx & fy & ->)%getShapeOrigin_floats. exists fx, fy. by split_and!.
Qed.

(** ** Shape construction on defective input *)

(** [createShapeObj] in full: the outcome of the three reads of the input
    decides how far the host calls get. *)
Lemma createShapeObj_run vertices geometry isHole s :
  createShapeObj vertices geometry isHole s =
  let n := next_id s in
  match (vs ← Py.iter vertices; foldM (read_vertex geometry) ([], []) vs) with
  | Raise e => (Raise e, s)
  | Ok (mesh_vtx, mesh_face) =>
  match Host.from_pydata mesh_vtx mesh_face with
  | Raise e => (Raise e, s)
  | Ok mesh =>
  match (if isHole then Ok (num_of_Z 999)
         else sc ← Py.getitem geometry "scale"; z ← Py.getitem sc "z"; Py.number z) with
  | Raise e =>
      (Raise e,
       mkScene (<[n := mkObject "Mesh" (MeshData mesh None)
                         [("Solidify", Solidify (Some zero) None)] origin3 origin3]>
                  (objects s))
               (collection s) (S n) (log s ++ [ObjectNew n "Mesh"]))
  | Ok thickness =>
  let solid := Solidified (Some zero) (Some thickness) mesh in
  match (sc ← Py.getitem geometry "scale"; z ← Py.getitem sc "z"; Py.truediv z two) with
  | Raise e =>
      (Raise e,
       mkScene (<[n := mkObject "Mesh" (MeshData solid None) [] origin3 origin3]> (objects s))
               (collection s) (S n)
               (log s ++ [ObjectNew n "Mesh"; ModifierApply n "Solidify" solid]))
  | Ok loc_z =>
      (Ok n,
       mkScene (<[n := mkObject "Mesh" (MeshData solid None) [] (zero, zero, loc_z) origin3]>
                  (objects s))
               (collection s ++ [n]) (S n)
               (log s ++ [ObjectNew n "Mesh"; ModifierApply n "Solidify" solid; ObjectLink n]))
  end end end end.
Proof.
  unfold createShapeObj. rewrite M_bind_run, lift_run. cbv zeta.
  destruct (vs ← Py.iter vertices; foldM (read_vertex geometry) ([], []) vs)
    as [[mesh_vtx mesh_face]|e]; [|done].
  rewrite M_bind_run, lift_run.
  destruct (Host.from_pydata mesh_vtx mesh_face) as [mesh|e]; [|done].
  rewrite M_bind_run. unfold Host.objects_new at 1. cbn [next_id objects collection log].
  unfold Host.modifiers_new, Host.modifier_set.
  rewrite M_bind_run, update_insert. cbn [ob_name ob_data ob_modifiers ob_location ob_rotation].
  rewrite M_bind_run, update_insert. cbn [ob_name ob_data ob_modifiers ob_location ob_rotation].
  simpl (Host.set_modifier _ _ _).
  rewrite M_bind_run, lift_run.
  destruct (if isHole then Ok (num_of_Z 999)
            else sc ← Py.getitem geometry "scale"; z ← Py.getitem sc "z"; Py.number z)
    as [thickness|e]; [|done].
  rewrite M_bind_run, update_insert.
  cbn [ob_name ob_data ob_modifiers ob_location ob_rotation].
  simpl (Host.set_modifier _ _ _).
  rewrite M_bind_run. erewrite modifier_apply_insert; [|reflexivity|reflexivity].
  simpl (Host.remove_modifier _ _).
  cbn [Host.apply_to ob_name ob_data ob_modifiers ob_location ob_rotation].
  rewrite M_bind_run, lift_run.
  destruct (sc ← Py.getitem geometry "scale"; z ← Py.getitem sc "z"; Py.truediv z two)
    as [loc_z|e]; [|by rewrite <- !app_assoc].
  unfold Host.set_location. rewrite M_bind_run, update_insert.
  cbn [ob_name ob_data ob_modifiers ob_location ob_rotation].
  rewrite M_bind_run. unfold Host.collection_link.
  cbn [next_id objects collection log]. rewrite lookup_insert_eq.
  rewrite M_ret_run. rewrite <- !app_assoc. reflexivity.
Qed.

Lemma read_vertex_inv geometry acc v acc' :
  read_vertex geometry acc v = Ok acc' →
  is_point v ∧
  ∃ pos zv, Py.getitem geometry "position" = Ok pos ∧ Py.getitem pos "z" = Ok zv.
Proof.
  intros H. destruct acc as [mesh_vtx mesh_face].
  unfold read_vertex, Py.neg, Py.truediv, Py.number in H.
  destruct (Py.getitem v "x") as [xv|] eqn:Hx; [|done]. cbn [mbind result_bind] in H.
  destruct (Py.as_num xv) as [x|] eqn:Hxn; [|done]. cbn [mbind result_bind] in H.
  destruct (Py.quotient (num_neg x) ten) as [qx|] eqn:Hqx; [|done].
  cbn [mbind result_bind] in H.
  destruct (Py.getitem v "y") as [yv|] eqn:Hy; [|done]. cbn [mbind result_bind] in H.
  destruct (Py.as_num yv) as [y|] eqn:Hyn; [|done]. cbn [mbind result_bind] in H.
  destruct (Py.quotient y ten) as [qy|] eqn:Hqy; [|done]. cbn [mbind result_bind] in H.
  destruct (Py.getitem geometry "position") as [pos|]; [|done].
  cbn [mbind result_bind] in H.
  destruct (Py.getitem pos "z") as [zv|] eqn:Hz; [|done].
  split; [|by exists pos, zv].
  assert (Hp : point_of v = Some (x, y)).
  { destruct v as [| | | | |m]; try done. simpl in Hx, Hy. simpl.
    destruct (Py.dict_get m "x"); [|done]. destruct (Py.dict_get m "y"); [|done].
    simplify_eq. simpl. by rewrite Hxn, Hyn. }
  unfold is_point, has_xy, evaluates. rewrite (coords_point _ _ Hp), Hp. simpl.
  rewrite Hqx, Hqy. split_and!; by eexists.
Qed.

Lemma read_vertex_not_point geometry acc v :
  ¬ is_point v → ∃ e, read_vertex geometry acc v = Raise e.
Proof.
  intros Hn. destruct (read_vertex geometry acc v) as [acc'|e] eqn:E; [|by eauto].
  by apply read_vertex_inv in E as [? _].
Qed.

Lemma foldM_read_vertex_inv geometry vs acc acc' :
  foldM (read_vertex geometry) acc vs = Ok acc' →
  Forall is_point vs ∧
  (vs = [] ∨
   ∃ pos zv, Py.getitem geometry "position" = Ok pos ∧ Py.getitem pos "z" = Ok zv).
Proof.
  revert acc. induction vs as [|v vs IH]; intros acc H; [by auto|].
  cbn [foldM] in H. destruct (read_vertex geometry acc v) as [acc1|] eqn:Hv; [|done].
  cbn [mbind result_bind] in H. destruct (read_vertex_inv _ _ _ _ Hv) as [Hp Hpos].
  destruct (IH _ H) as [Hall _]. split; [by constructor|by right].
Qed.

Lemma from_pydata_not_number x y zv rest face :
  Py.as_num zv = None → Host.from_pydata ((x, y, zv) :: rest) face = Raise TypeError.
Proof. intros Hz. unfold Host.from_pydata, Py.number. cbn [foldM]. by rewrite Hz. Qed.

(** X5.  An outline with an element that is not a point record, or a
    non-empty outline whose geometry has no number under [position.z], makes
    [createShapeObj] raise before the object is created: the objects, the
    collection and the log of the scene are as they were.  (The failure is
    in the loop over the vertices, before any host call, except when
    [position.z] is there and is not a number: then it is [from_pydata] that
    refuses the vertices.) *)
Theorem createShapeObj_rejects_outline (vs : list json) (geometry : json)
    (isHole : bool) (s : scene) :
  ¬ Forall is_point vs ∨ (vs ≠ [] ∧ position_z geometry = None) →
  ∃ e, createShapeObj (JArr vs) geometry isHole s = (Raise e, s).
Proof.
  intros Hbad. rewrite createShapeObj_run. cbv zeta. cbn [Py.iter mbind result_bind].
  destruct (foldM (read_vertex geometry) ([], []) vs) as [[mesh_vtx mesh_face]|e] eqn:E;
    [|by eauto].
  destruct (foldM_read_vertex_inv _ _ _ _ E) as [Hpts Hpos].
  destruct Hbad as [Hbad|[Hne Hz]]; [done|].
  destruct Hpos as [->|(pos & zv & Hpos & Hzv)]; [done|].
  rewrite (foldM_read_vertex _ _ _ _ _ _ Hpos Hzv Hpts) in E. injection E as <- <-.
  assert (Hn : Py.as_num zv = None).
  { unfold position_z in Hz. by rewrite Hpos, Hzv in Hz. }
  destruct vs as [|v vs]; [done|]. simpl.
  rewrite (from_pydata_not_number _ _ _ _ _ Hn). by eauto.
Qed.

Lemma depth_none geometry :
  depth geometry = None →
  ∃ e, (sc ← Py.getitem geometry "scale"; z ← Py.getitem sc "z"; Py.number z) = Raise e ∧
       (sc ← Py.getitem geometry "scale"; z ← Py.getitem sc "z"; Py.truediv z two) = Raise e ∧
       (e = KeyError "scale" ∨ e = KeyError "z" ∨ e = TypeError).
Proof.
  unfold depth. destruct (Py.getitem geometry "scale") as [sc|e] eqn:Hsc.
  - cbn [mbind result_bind]. destruct (Py.getitem sc "z") as [z|e] eqn:Hz.
    + cbn [mbind result_bind]. unfold Py.truediv, Py.number. intros ->.
      exists TypeError. by auto.
    + intros _. exists e. split; [done|]. split; [done|].
      destruct sc; simpl in Hz; try (injection Hz as <-; by auto).
      destruct (Py.dict_get m "z"); [done|]. injection Hz as <-. by auto.
  - intros _. exists e. split; [done|]. split; [done|].
    destruct geometry; simpl in Hsc; try (injection Hsc as <-; by auto).
    destruct (Py.dict_get m "scale"); [done|]. injection Hsc as <-. by auto.
Qed.

(** X6.  When the outline is well formed but [geometry['scale']['z']]
    cannot be read as a number, [createShapeObj] raises after it has created
    the mesh object: the object stays in the scene, unfinished and not linked
    to the collection (for a hole the Solidify modifier has been applied
    already, for a shape it is still on the stack). *)
Theorem createShapeObj_missing_scale (vs : list json) (geometry : json) (pz : num)
    (isHole : bool) (s : scene) :
  Forall is_point vs → position_z geometry = Some pz → depth geometry = None →
  let n := next_id s in
  ∃ e,
    createShapeObj (JArr vs) geometry isHole s =
    (Raise e,
     mkScene (<[n := unfinished_object (coords <$> vs) pz isHole]> (objects s))
             (collection s) (S n)
             (log s ++ ObjectNew n "Mesh" ::
                if isHole
                then [ModifierApply n "Solidify"
                        (extruded (coords <$> vs) pz (num_of_Z 999))]
                else [])) ∧
    (e = KeyError "scale" ∨ e = KeyError "z" ∨ e = TypeError).
Proof.
  intros Hpts (pos & zv & Hpos & Hz & Hzn)%geometry_z_getitem
         (e & Hnum & Hdiv & He)%depth_none n.
  exists e. split; [|done].
  rewrite createShapeObj_run. cbv zeta. cbn [Py.iter mbind result_bind].
  rewrite (foldM_read_vertex _ _ _ _ _ _ Hpos Hz Hpts). cbn [app length].
  rewrite (from_pydata_numbers _ _ _ _ _ _ Hzn).
  unfold unfinished_object, extruded, to_scene.
  rewrite <- !list_fmap_compose, length_fmap.
  destruct isHole; [by rewrite Hdiv|by rewrite Hnum].
Qed.

(** X7.  An empty outline needs no [position]: whatever else the geometry
    holds, [createShapeObj] builds the object of the empty n-gon, extruded,
    lifted by half of [scale.z] and linked to the collection. *)
Theorem createShapeObj_empty_outline (vertices geometry : json) (sz : num)
    (isHole : bool) (s : scene) :
  Py.iter vertices = Ok [] → scale_z geometry = Some sz →
  let n := next_id s in
  let solid := Solidified (Some zero) (Some (thickness_of sz isHole)) (Polygon [] []) in
  createShapeObj vertices geometry isHole s =
  (Ok n,
   mkScene (<[n := mkObject "Mesh" (MeshData solid None) [] (zero, zero, num_div sz two)
                            origin3]> (objects s))
           (collection s ++ [n]) (S n)
           (log s ++ [ObjectNew n "Mesh"; ModifierApply n "Solidify" solid; ObjectLink n])).
Proof.
  intros Hit (sc & sv & Hsc & Hs & Hsn & Hq)%geometry_scale_getitem n solid.
  rewrite createShapeObj_run. cbv zeta. rewrite Hit. cbn [mbind result_bind foldM].
  change (Host.from_pydata [] []) with (Ok (Polygon [] [])).
  rewrite Hsc. cbn [mbind result_bind]. rewrite Hs. cbn [mbind result_bind].
  unfold Py.truediv, Py.number. rewrite Hsn. cbn [mbind result_bind]. rewrite Hq.
  by destruct isHole.
Qed.

(** ** Subtraction and colour, beyond the well-formed case *)

Lemma find_modifier_app name mods md :
  Host.find_modifier name mods = None →
  Host.find_modifier name (mods ++ [(name, md)]) = Some md.
Proof.
  induction mods as [|[n m] mods IH]; simpl.
  - by rewrite String.eqb_refl.
  - destruct (String.eqb n name); [done|exact IH].
Qed.

Lemma remove_modifier_app name mods md :
  Host.find_modifier name mods = None →
  Host.remove_modifier name (mods ++ [(name, md)]) = mods.
Proof.
  induction mods as [|[n m] mods IH]; simpl.
  - by rewrite String.eqb_refl.
  - destruct (String.eqb n name); [done|]. intros H. by rewrite IH.
Qed.

(** X8.  [subtractObj] on two distinct mesh objects: the first keeps its
    name, place and modifier stack and gets the difference of its mesh and
    the second's, taken where the second is located; the second is removed
    from the scene and from the collection; no object is created. *)
Theorem subtractObj_result (obj1 obj2 : nat) (o1 o2 : object) (m tool : mesh)
    (c2 : option (list (option rgba))) (s : scene) :
  obj1 ≠ obj2 →
  objects s !! obj1 = Some o1 → ob_data o1 = MeshData m None →
  Host.find_modifier "Boolean" (ob_modifiers o1) = None →
  objects s !! obj2 = Some o2 → ob_data o2 = MeshData tool c2 →
  let cut := Cut "DIFFERENCE" "EXACT" m tool (ob_location o2) in
  subtractObj obj1 obj2 s =
  (Ok tt,
   mkScene (<[obj1 := mkObject (ob_name o1) (MeshData cut None) (ob_modifiers o1)
                               (ob_location o1) (ob_rotation o1)]>
              (delete obj2 (objects s)))
           (filter (λ i, i ≠ obj2) (collection s)) (next_id s)
           (log s ++ [ModifierApply obj1 "Boolean" cut; ObjectDelete obj2])).
Proof.
  intros Hne Ho1 Hd1 Hmods Ho2 Hd2 cut.
  destruct o1 as [nm1 d1 mods1 loc1 rot1], o2 as [nm2 d2 mods2 loc2 rot2].
  simpl in Hd1, Hd2, Hmods, cut. subst d1 d2.
  unfold subtractObj, Host.modifiers_new.
  rewrite M_bind_run. erewrite update_run; [|exact Ho1|reflexivity].
  unfold Host.set_objects.
  cbn [objects collection next_id log ob_name ob_data ob_modifiers ob_location ob_rotation].
  rewrite M_bind_run.
  erewrite modifier_apply_insert; [|by apply find_modifier_app|reflexivity].
  cbn [Host.apply_to ob_name ob_data ob_modifiers ob_location ob_rotation].
  rewrite lookup_insert_ne, Ho2 by done.
  rewrite remove_modifier_app by done.
  unfold Host.object_delete. cbn [objects collection next_id log].
  rewrite lookup_insert_ne, Ho2 by done.
  rewrite delete_insert_ne by done.
  by rewrite <- app_assoc.
Qed.

(** ** Colour: what a successful call implies, and the colour strings that
    are refused or accepted *)

Lemma set_vertex_color_not_number obj i r g b opacity nm m slots mods loc rot s :
  Py.as_num opacity = None →
  objects s !! obj = Some (mkObject nm (MeshData m (Some slots)) mods loc rot) →
  set_vertex_color obj i (r, g, b, opacity) s = (Raise TypeError, s).
Proof.
  intros Ha Ho. unfold set_vertex_color, Host.update. rewrite Ho.
  cbn [ob_data]. unfold Py.number. by rewrite Ha.
Qed.

(** X9.  [applyColorAttrib] returns only when the material is a dict, the
    object is a mesh object and every vertex has been given the same colour:
    the test [material is not None] never skips the colouring, since a
    material of [None] has already raised at [material['color']]. *)
Theorem applyColorAttrib_success_inv (obj : nat) (material : json) (s s' : scene) :
  applyColorAttrib vertex_count obj material s = (Ok tt, s') →
  ∃ items nm m c mods loc rot col,
    material = JObj items ∧
    objects s !! obj = Some (mkObject nm (MeshData m c) mods loc rot) ∧
    s' = Host.set_objects
           <[obj := mkObject nm (MeshData m (Some (replicate (vertex_count m) (Some col))))
                             mods loc rot]> s.
Proof.
  unfold applyColorAttrib. rewrite M_bind_run, lift_run.
  destruct (channel material 1 3) as [r|] eqn:Hr; [|done].
  rewrite M_bind_run, lift_run.
  destruct (channel material 3 5) as [g|] eqn:Hg; [|done].
  rewrite M_bind_run, lift_run.
  destruct (channel material 5 7) as [b|] eqn:Hb; [|done].
  rewrite M_bind_run, lift_run.
  destruct (Py.getitem material "opacity") as [opacity|] eqn:Hop; [|done].
  destruct material as [|?|?|?|?|items]; try discriminate Hop.
  rewrite M_bind_run. unfold color_attributes_new.
  destruct (objects s !! obj) as [[nm [m c|] mods loc rot]|] eqn:Ho; [|done..].
  intros H. exists items, nm, m, c, mods, loc, rot.
  destruct (Py.as_num opacity) as [a|] eqn:Ha.
  - exists (r, g, b, a). split; [done|]. split; [done|].
    erewrite (fill_colors _ _ _ _ _ _ _ _ _ _ _ Ha) in H; cycle 1.
    { simpl. apply lookup_insert_eq. }
    { by rewrite length_replicate. }
    injection H as <-. unfold Host.set_objects. simpl. by rewrite insert_insert_eq.
  - exists (r, g, b, zero). split; [done|]. split; [done|].
    destruct (vertex_count m) as [|k].
    + simpl in H. rewrite M_ret_run in H. by injection H as <-.
    + cbn [seq for_each] in H. rewrite M_bind_run in H.
      erewrite set_vertex_color_not_number in H; [done|done|].
      simpl. apply lookup_insert_eq.
Qed.

Lemma substring_short (s : string) (i n : nat) :
  String.length s ≤ i → substring i n s = ""%string.
Proof.
  revert i. induction s as [|c s IH]; intros i Hi; simpl in *.
  - by destruct i, n.
  - destruct i as [|i]; [lia|]. apply IH. lia.
Qed.

Lemma int16_raises (str : string) (e : exn) : Py.int16 str = Raise e → e = ValueError.
Proof.
  unfold Py.int16.
  destruct (Py.skip_sign (Py.lstrip (list_ascii_of_string str))) as [negative l].
  destruct (Py.skip_prefix l) as [|c l']; [congruence|].
  destruct (Py.is_underscore c); [congruence|].
  destruct (Py.scan16 (c :: l') 0 false false) as [[v rest]|]; [|congruence].
  destruct (Py.lstrip rest); congruence.
Qed.

Lemma all_ascii_complete (c : ascii) : List.In c all_ascii.
Proof.
  unfold all_ascii. rewrite <- (ascii_nat_embedding c). apply List.in_map.
  apply List.in_seq. pose proof (nat_ascii_bounded c). lia.
Qed.

(** Checked by running [int(_, 16)] on every string of one or two
    characters. *)
Lemma short_strings_checked :
  forallb (λ a,
    in_range (Py.int16 (String a EmptyString)) &&
    forallb (λ b, in_range (Py.int16 (String a (String b EmptyString)))) all_ascii)
    all_ascii = true.
Proof. vm_compute. reflexivity. Qed.

Lemma short_strings_range (a : ascii) :
  in_range (Py.int16 (String a EmptyString)) = true ∧
  ∀ b, in_range (Py.int16 (String a (String b EmptyString))) = true.
Proof.
  pose proof (proj1 (List.forallb_forall _ _) short_strings_checked a
                (all_ascii_complete a)) as H.
  apply andb_prop in H as [Ha Hb]. split; [exact Ha|].
  intros b. exact (proj1 (List.forallb_forall _ _) Hb b (all_ascii_complete b)).
Qed.

Lemma in_range_ok (n : Z) : in_range (Ok n) = true → (-15 ≤ n ≤ 255)%Z.
Proof.
  unfold in_range. intros [H1 H2]%andb_prop.
  pose proof (proj1 (Z.leb_le _ _) H1). pose proof (proj1 (Z.leb_le _ _) H2). lia.
Qed.

Lemma int16_short_range (str : string) (n : Z) :
  String.length str ≤ 2 → Py.int16 str = Ok n → (-15 ≤ n ≤ 255)%Z.
Proof.
  destruct str as [|a [|b [|c rest]]]; cbn [String.length]; intros Hlen H.
  - rewrite int16_empty in H. discriminate H.
  - destruct (short_strings_range a) as [Ha _]. rewrite H in Ha. by apply in_range_ok.
  - destruct (short_strings_range a) as [_ Hb]. specialize (Hb b).
    rewrite H in Hb. by apply in_range_ok.
  - lia.
Qed.

Lemma substring_length (s : string) (i n : nat) : String.length (substring i n s) ≤ n.
Proof.
  revert i n. induction s as [|c s IH]; intros i n.
  - destruct i, n; simpl; lia.
  - destruct i as [|i]; [|apply IH]. destruct n as [|n]; simpl; [lia|].
    specialize (IH 0 n). lia.
Qed.

Lemma channel_string material color i j :
  Py.getitem material "color" = Ok (JStr color) →
  channel material i j =
  (n ← Py.int16 (substring i (j - i) color); Py.quotient (num_of_Z n) (num_of_Z 255)).
Proof. intros H. unfold channel. by rewrite H. Qed.

(** On a slice of two characters at most the division by 255 does not
    raise: the only exception of a channel is the one of [int]. *)
Lemma channel_raises material color i j e :
  Py.getitem material "color" = Ok (JStr color) → j - i ≤ 2 →
  channel material i j = Raise e → e = ValueError.
Proof.
  intros H Hw. rewrite (channel_string _ _ _ _ H).
  destruct (Py.int16 _) as [n|e'] eqn:E; cbn [mbind result_bind].
  - rewrite quotient_255; [done|].
    apply (int16_short_range _ _ (Nat.le_trans _ _ _ (substring_length color i (j - i)) Hw) E).
  - intros [= <-]. by apply int16_raises in E.
Qed.

(** X10.  A colour string of fewer than six characters (a three-digit CSS
    colour such as [#F00], say) is refused: [applyColorAttrib] raises
    [ValueError] and leaves the scene as it was. *)
Theorem applyColorAttrib_short_colour (obj : nat) (material : json) (color : string)
    (s : scene) :
  Py.getitem material "color" = Ok (JStr color) → String.length color ≤ 5 →
  applyColorAttrib vertex_count obj material s = (Raise ValueError, s).
Proof.
  intros Hc Hlen.
  assert (Hb : channel material 5 7 = Raise ValueError).
  { rewrite (channel_string _ _ _ _ Hc), substring_short by done. reflexivity. }
  unfold applyColorAttrib. rewrite M_bind_run, lift_run.
  destruct (channel material 1 3) as [r|e] eqn:Hr;
    [|by rewrite (channel_raises _ color 1 3 _ Hc (le_n 2) Hr)].
  rewrite M_bind_run, lift_run.
  destruct (channel material 3 5) as [g|e] eqn:Hg;
    [|by rewrite (channel_raises _ color 3 5 _ Hc (le_n 2) Hg)].
  by rewrite M_bind_run, lift_run, Hb.
Qed.

(** X11.  The first character of the colour string is never looked at: two
    materials whose colours differ in it only (and whose opacity is the same)
    are treated alike, so the leading [#] is not required. *)
Theorem applyColorAttrib_ignores_first_char (obj : nat) (material material' : json)
    (a b : ascii) (rest : string) (s : scene) :
  Py.getitem material "color" = Ok (JStr (String a rest)) →
  Py.getitem material' "color" = Ok (JStr (String b rest)) →
  Py.getitem material' "opacity" = Py.getitem material "opacity" →
  applyColorAttrib vertex_count obj material' s = applyColorAttrib vertex_count obj material s.
Proof.
  intros Hc Hc' Hop.
  assert (Hch : ∀ i j, channel material' (S i) j = channel material (S i) j).
  { intros i j. by rewrite (channel_string _ _ _ _ Hc), (channel_string _ _ _ _ Hc'). }
  unfold applyColorAttrib. rewrite !Hch, Hop.
  destruct material as [|?|?|?|?|items]; try discriminate Hc.
  destruct material' as [|?|?|?|?|items']; try discriminate Hc'.
  reflexivity.
Qed.

(** ** Labels and records, beyond the well-formed case *)

(** X12.  When [createLabel] raises, nothing has been linked to the
    collection: either no object has been created and the objects, the
    collection and the log of the scene are as they were (the text, font size
    or alignment could not be read), or the text object has been created
    already and is left in the scene without a link (the outline of the
    parent, the position or the rotation could not be read). *)
Theorem createLabel_raise_unlinked (lb vtx : json) (s s' : scene) (e : exn) :
  createLabel radians lb vtx s = (Raise e, s') →
  s' = s ∨
  ∃ o, kind_of o = KText ∧ ob_name o = "Label"%string ∧
       s' = mkScene (<[next_id s := o]> (objects s)) (collection s) (S (next_id s))
                    (log s ++ [ObjectNew (next_id s) "Label"]).
Proof.
  unfold createLabel. rewrite M_bind_run, lift_run.
  match goal with |- context [match ?r with Ok _ => _ | Raise _ => _ end] =>
    destruct r as [[[body size] align_x]|e0] end.
  2:{ intros [= <- <-]. by left. }
  rewrite M_bind_run. unfold Host.objects_new at 1. cbn [next_id objects collection log].
  rewrite M_bind_run, lift_run.
  match goal with |- context [match ?r with Ok _ => _ | Raise _ => _ end] =>
    destruct r as [[[loc_x loc_y] loc_z]|e0] end.
  2:{ intros [= <- <-]. right. eexists. split_and!; [| |reflexivity]; done. }
  unfold Host.set_location, Host.set_rotation.
  rewrite M_bind_run, update_insert.
  cbn [ob_name ob_data ob_modifiers ob_location ob_rotation].
  rewrite M_bind_run, lift_run.
  match goal with |- context [match ?r with Ok _ => _ | Raise _ => _ end] =>
    destruct r as [[[rot_x rot_y] rot_z]|e0] end.
  2:{ intros [= <- <-]. right. eexists. split_and!; [| |reflexivity]; done. }
  rewrite M_bind_run, update_insert.
  cbn [ob_name ob_data ob_modifiers ob_location ob_rotation].
  unfold Host.collection_link. cbn [next_id objects collection log].
  by rewrite lookup_insert_eq.
Qed.

(** X13.  Importing the concatenation of two arrays is importing the first
    and then, if that has finished, the second in the scene the first has
    left; if the first raises, the second is not looked at. *)
Theorem importJson_app (l1 l2 : list json) (s : scene) :
  importJson vertex_count radians (JArr (l1 ++ l2)) s =
  match importJson vertex_count radians (JArr l1) s with
  | (Ok _, s1) => importJson vertex_count radians (JArr l2) s1
  | (Raise e, s1) => (Raise e, s1)
  end.
Proof.
  rewrite !importJson_run, for_each_app.
  destruct (for_each l1 _ s) as [[[]|e] s1]; [|done]. by rewrite importJson_run.
Qed.

(** X14.  Whatever the input and whether the import finishes or raises, it
    leaves every object that existed before as it was, with its membership of
    the collection; it only adds to the log of host calls and never gives out
    an identity again. *)
Theorem importJson_preserves_existing (data : json) (s : scene) :
  let s' := (importJson vertex_count radians data s).2 in
  next_id s ≤ next_id s' ∧
  (∃ l, log s' = log s ++ l) ∧
  (∀ i, i < next_id s →
        objects s' !! i = objects s !! i ∧ (i ∈ collection s' ↔ i ∈ collection s)).
Proof.
  pose proof (closed_importJson _ _ (stable_closed (next_id s) s (le_n _)) data s
                (stable_refl _ _)) as H.
  cbv zeta. destruct (importJson vertex_count radians data s) as [[st|e] s']; simpl.
  - destruct H as [(Hid & Hlog & _ & Hobj & Hcol) _]. by auto.
  - destruct H as (Hid & Hlog & _ & Hobj & Hcol). by auto.
Qed.

Lemma import_shape_string k s :
  import_shape vertex_count radians (JStr k) s = (Ok tt, s) ∨
  import_shape vertex_count radians (JStr k) s = (Raise TypeError, s).
Proof.
  unfold import_shape, import_geometry, import_label, shape_visible, label_visible.
  rewrite M_bind_run, M_bind_run, lift_run. cbn [Py.contains mbind result_bind].
  destruct (Py.is_substring "vertexes" k); cbn [Py.getitem mbind result_bind]; [by right|].
  rewrite M_ret_run, M_bind_run, lift_run. cbn [Py.contains mbind result_bind].
  destruct (Py.is_substring "label" k); cbn [Py.getitem mbind result_bind]; [by right|].
  by left.
Qed.

Lemma for_each_strings (ks : list string) s :
  for_each (JStr <$> ks) (import_shape vertex_count radians) s = (Ok tt, s) ∨
  for_each (JStr <$> ks) (import_shape vertex_count radians) s = (Raise TypeError, s).
Proof.
  induction ks as [|k ks IH]; [by left|].
  cbn [fmap list_fmap for_each]. rewrite M_bind_run.
  destruct (import_shape_string k s) as [-> | ->]; [exact IH|by right].
Qed.

Lemma chars_strings str : ∃ ks, Py.chars str = JStr <$> ks.
Proof.
  induction str as [|c str [ks IH]]; [by exists []|].
  exists (String c EmptyString :: ks). simpl. by rewrite IH.
Qed.

(** X15.  A file whose top level is not an array creates nothing: the scene
    is left as it was, and the import either reports [FINISHED] (a string, or
    an object none of whose keys contains [vertexes] or [label]) or raises
    [TypeError]. *)
Theorem importJson_not_an_array (data : json) (s : scene) :
  (∀ l, data ≠ JArr l) →
  ∃ r, importJson vertex_count radians data s = (r, s) ∧
       (r = Ok FINISHED ∨ r = Raise TypeError).
Proof.
  intros Hna. unfold importJson. rewrite M_bind_run, lift_run.
  assert (Hks : ∀ ks, ∃ r,
             (for_each (JStr <$> ks) (import_shape vertex_count radians);; mret FINISHED) s
             = (r, s) ∧ (r = Ok FINISHED ∨ r = Raise TypeError)).
  { intros ks. rewrite M_bind_run.
    destruct (for_each_strings ks s) as [-> | ->]; eexists; split; eauto. }
  destruct data as [|b|n|str|l|m]; cbn [Py.iter].
  - eexists. split; [reflexivity|by right].
  - eexists. split; [reflexivity|by right].
  - eexists. split; [reflexivity|by right].
  - destruct (chars_strings str) as [ks ->]. apply Hks.
  - by destruct (Hna l).
  - replace (map (λ kv, JStr kv.1) m) with (JStr <$> m.*1); [apply Hks|].
    by rewrite <- list_fmap_compose.
Qed.

Lemma label_visible_true shape label visible :
  Py.getitem shape "label" = Ok label →
  Py.getitem label "visible" = Ok visible →
  label_visible shape = Ok (Py.truthy visible).
Proof.
  intros Hl Hvis. unfold label_visible.
  rewrite (getitem_contains _ _ _ Hl). cbn [mbind result_bind].
  rewrite Hl. cbn [mbind result_bind].
  rewrite (getitem_contains _ _ _ Hvis). cbn [mbind result_bind].
  by rewrite Hvis.
Qed.

(** X16.  The label of a hidden shape is still made: for a record whose
    [geometry.visible] is false and whose label is visible, the body of the
    loop is [createLabel] on the label and the outline of the hidden shape,
    and nothing else. *)
Theorem import_shape_hidden_labelled (shape vertexes geometry visible label shown : json)
    (s : scene) :
  Py.getitem shape "vertexes" = Ok vertexes →
  Py.getitem shape "geometry" = Ok geometry →
  Py.getitem geometry "visible" = Ok visible → Py.truthy visible = false →
  Py.getitem shape "label" = Ok label →
  Py.getitem label "visible" = Ok shown → Py.truthy shown = true →
  import_shape vertex_count radians shape s = createLabel radians label vertexes s.
Proof.
  intros Hv Hg Hvis Hf Hl Hshown Ht. unfold import_shape, import_geometry, import_label.
  rewrite M_bind_run, M_bind_run, lift_run.
  rewrite (shape_visible_true _ _ _ _ Hv Hg Hvis), Hf, M_ret_run.
  rewrite M_bind_run, lift_run, (label_visible_true _ _ _ Hl Hshown), Ht.
  rewrite M_bind_run, lift_run, Hl. cbn [mbind result_bind]. by rewrite Hv.
Qed.

(** X17.  A record with a [vertexes] key needs a [geometry] with a
    [visible] key: without the first the body of the loop raises
    [KeyError('geometry')], without the second [KeyError('visible')], in both
    cases before anything is created and whatever else the record holds (a
    visible label, say). *)
Theorem import_shape_missing_geometry (items : list (string * json)) (vertexes : json)
    (s : scene) :
  Py.dict_get items "vertexes" = Some vertexes →
  (Py.dict_get items "geometry" = None →
   import_shape vertex_count radians (JObj items) s = (Raise (KeyError "geometry"), s)) ∧
  (∀ fields, Py.dict_get items "geometry" = Some (JObj fields) →
             Py.dict_get fields "visible" = None →
             import_shape vertex_count radians (JObj items) s
             = (Raise (KeyError "visible"), s)).
Proof.
  intros Hv. unfold import_shape, import_geometry, shape_visible.
  rewrite M_bind_run, M_bind_run, lift_run. cbn [Py.contains Py.getitem].
  rewrite Hv. cbn [mbind result_bind]. split.
  - by intros ->.
  - intros fields -> Hvis. cbn [mbind result_bind Py.getitem]. by rewrite Hvis.
Qed.

(** X18.  A visible shape without holes and without a [material] key: the
    extruded mesh is built and linked, then the colouring raises
    [KeyError('material')]; the mesh stays in the scene without a colour
    attribute, and the label of the record is never reached. *)
Theorem import_shape_missing_material (items : list (string * json)) (vs : list json)
    (geometry visible : json) (pz sz : num) (s : scene) :
  Py.dict_get items "vertexes" = Some (JArr vs) → Forall is_point vs →
  Py.dict_get items "geometry" = Some geometry →
  Py.getitem geometry "visible" = Ok visible → Py.truthy visible = true →
  position_z geometry = Some pz → scale_z geometry = Some sz →
  Py.dict_get items "holes" = None → Py.dict_get items "material" = None →
  let n := next_id s in
  import_shape vertex_count radians (JObj items) s =
  (Raise (KeyError "material"),
   mkScene (<[n := solid_object (coords <$> vs) pz sz false]> (objects s))
           (collection s ++ [n]) (S n)
           (log s ++ [ObjectNew n "Mesh";
                      ModifierApply n "Solidify" (extruded (coords <$> vs) pz sz);
                      ObjectLink n])).
Proof.
  intros Hv Hpts Hg Hvis Ht Hpz Hsz Hh Hm n.
  assert (Hv' : Py.getitem (JObj items) "vertexes" = Ok (JArr vs)) by (simpl; by rewrite Hv).
  assert (Hg' : Py.getitem (JObj items) "geometry" = Ok geometry) by (simpl; by rewrite Hg).
  unfold import_shape, import_geometry.
  rewrite M_bind_run, M_bind_run, lift_run.
  rewrite (shape_visible_true _ _ _ _ Hv' Hg' Hvis), Ht.
  rewrite M_bind_run, lift_run, Hv'. cbn [mbind result_bind]. rewrite Hg'.
  cbn [mbind result_bind]. rewrite M_bind_run.
  rewrite (createShapeObj_ok _ _ _ _ false s Hpts Hpz Hsz).
  rewrite M_bind_run, lift_run. cbn [Py.contains]. rewrite Hh.
  rewrite M_bind_run, M_ret_run, M_bind_run, lift_run. cbn [Py.getitem]. by rewrite Hm.
Qed.

(** X19.  The colour is applied to the mesh the holes have been cut out of
    (the comment at line 181): for a visible shape with well-formed outline,
    geometry, holes and material, the colour attribute has one slot for every
    vertex of the mesh after the last cut, all holding the material's
    colour. *)
Theorem import_geometry_colours_cut_mesh (shape geometry visible material opacity : json)
    (vs : list json) (holes : list (list json)) (pz sz r g b a : num) (s : scene) :
  Py.getitem shape "vertexes" = Ok (JArr vs) → Forall is_point vs →
  Py.getitem shape "geometry" = Ok geometry →
  Py.getitem geometry "visible" = Ok visible → Py.truthy visible = true →
  position_z geometry = Some pz → scale_z geometry = Some sz →
  Py.getitem shape "holes" = Ok (JArr (JArr <$> holes)) →
  Forall (Forall is_point) holes →
  Py.getitem shape "material" = Ok material →
  channel material 1 3 = Ok r → channel material 3 5 = Ok g →
  channel material 5 7 = Ok b →
  Py.getitem material "opacity" = Ok opacity → Py.as_num opacity = Some a →
  let n := next_id s in
  let m := cut_all pz sz (extruded (coords <$> vs) pz sz) holes in
  ∃ s',
    import_geometry vertex_count shape s = (Ok tt, s') ∧
    objects s' !! n =
      Some (mkObject "Mesh"
              (MeshData m (Some (replicate (vertex_count m) (Some (r, g, b, a)))))
              [] (zero, zero, num_div sz two) origin3) ∧
    (∀ k, k < length holes → objects s' !! (S n + k) = None).
Proof.
  intros Hv Hpts Hg Hvis Ht Hpz Hsz Hh Hholes Hmat Hr Hgr Hb Hop Ha n m.
  destruct (import_geometry_holes shape vs geometry visible pz sz holes s
              Hv Hpts Hg Hvis Ht Hpz Hsz Hh Hholes)
    as (s1 & Hrun & Hobj & Hid & _ & Hnone).
  rewrite Hrun, M_bind_run, lift_run, Hmat.
  rewrite (applyColorAttrib_ok _ _ _ _ _ _ _ _ _ _ _ _ _ _ Hobj Hr Hgr Hb Hop Ha).
  eexists. split; [reflexivity|]. unfold Host.set_objects. simpl. split.
  - by rewrite lookup_insert_eq.
  - intros k Hk. rewrite lookup_insert_ne by (fold n; lia). apply Hnone. fold n. lia.
Qed.

(** ** The range of a colour component *)

(** X20.  Every colour component [applyColorAttrib] computes is n/255 for
    an integer n between -15 and 255: the two characters it reads need not be
    two hexadecimal digits ([int] also accepts a sign or a blank before a
    digit), so a component can be negative, but never above 1. *)
Theorem channel_range (material : json) (i j : nat) (v : num) :
  j - i ≤ 2 → channel material i j = Ok v →
  ∃ n : Z, v = num_div (num_of_Z n) (num_of_Z 255) ∧ (-15 ≤ n ≤ 255)%Z.
Proof.
  intros Hw. unfold channel.
  destruct (Py.getitem material "color") as [color|]; [|done]. cbn [mbind result_bind].
  destruct color as [|?|?|str|?|?]; try done. cbn [Py.slice mbind result_bind].
  destruct (Py.int16 (substring i (j - i) str)) as [n|] eqn:E; [|done].
  cbn [mbind result_bind]. intros Hq%quotient_value. exists n. split; [done|].
  apply (int16_short_range _ _ (Nat.le_trans _ _ _ (substring_length str i (j - i)) Hw) E).
Qed.

(** ** Records without effect *)

Lemma import_shape_inert shape s :
  shape_visible shape = Ok false → label_visible shape = Ok false →
  import_shape vertex_count radians shape s = (Ok tt, s).
Proof.
  intros Hs Hl. unfold import_shape, import_geometry, import_label.
  by rewrite M_bind_run, M_bind_run, lift_run, Hs, M_ret_run, M_bind_run, lift_run, Hl.
Qed.

(** X21.  A record whose two conditions are both false (no outline or a
    hidden one, no label or a hidden one) has no effect at all, not even on
    the identities given out: the import of an array with such a record is
    the import of the array without it. *)
Theorem importJson_hidden_record_inert (pre post : list json) (shape : json) (s : scene) :
  shape_visible shape = Ok false → label_visible shape = Ok false →
  importJson vertex_count radians (JArr (pre ++ shape :: post)) s =
  importJson vertex_count radians (JArr (pre ++ post)) s.
Proof.
  intros Hs Hl. rewrite !importJson_run, !for_each_app.
  destruct (for_each pre _ s) as [[[]|e] s1]; [|done].
  cbn [for_each]. by rewrite M_bind_run, (import_shape_inert _ _ Hs Hl).
Qed.

(** ** Rotation of a label *)

(** [createLabel] in full: the outcome of its three reads of the input
    decides how far the host calls get. *)
Lemma createLabel_run lb vtx s :
  createLabel radians lb vtx s =
  let n := next_id s in
  match (t ← Py.getitem lb "text"; body ← text_of t; fs ← Py.getitem lb "fontSize";
         size ← Py.truediv fs one_and_a_half; al ← Py.getitem lb "align";
         Ok (body, size, align_of al)) with
  | Raise e => (Raise e, s)
  | Ok (body, size, align_x) =>
  let text := TextData body size align_x in
  match (origin ← getShapeOrigin vtx; loc ← Py.getitem lb "position";
         loc_x ← Py.quotient (num_neg (fst origin)) ten;
         loc_y ← Py.quotient (snd origin) ten;
         has_z ← Py.contains "z" loc;
         loc_z ← (if (has_z : bool) then z ← Py.getitem loc "z"; Py.truediv z ten
                  else Ok zero);
         Ok (loc_x, loc_y, loc_z)) with
  | Raise e =>
      (Raise e,
       mkScene (<[n := mkObject "Label" text [] origin3 origin3]> (objects s))
               (collection s) (S n) (log s ++ [ObjectNew n "Label"]))
  | Ok loc =>
  match (rot ← Py.getitem lb "rotation"; rot_x ← angle radians rot "x" None;
         rot_y ← angle radians rot "y" None;
         rot_z ← angle radians rot "z" (Some (num_of_Z 180));
         Ok (rot_x, rot_y, rot_z)) with
  | Raise e =>
      (Raise e,
       mkScene (<[n := mkObject "Label" text [] loc origin3]> (objects s))
               (collection s) (S n) (log s ++ [ObjectNew n "Label"]))
  | Ok rot =>
      (Ok tt,
       mkScene (<[n := mkObject "Label" text [] loc rot]> (objects s))
               (collection s ++ [n]) (S n)
               (log s ++ [ObjectNew n "Label"; ObjectLink n]))
  end end end.
Proof.
  unfold createLabel. rewrite M_bind_run, lift_run. cbv zeta.
  match goal with |- context [match ?r with Ok _ => _ | Raise _ => _ end] =>
    destruct r as [[[body size] align_x]|e] end; [|done].
  rewrite M_bind_run. unfold Host.objects_new at 1. cbn [next_id objects collection log].
  rewrite M_bind_run, lift_run.
  match goal with |- context [match ?r with Ok _ => _ | Raise _ => _ end] =>
    destruct r as [[[loc_x loc_y] loc_z]|e] end; [|done].
  unfold Host.set_location, Host.set_rotation.
  rewrite M_bind_run, update_insert.
  cbn [ob_name ob_data ob_modifiers ob_location ob_rotation].
  rewrite M_bind_run, lift_run.
  match goal with |- context [match ?r with Ok _ => _ | Raise _ => _ end] =>
    destruct r as [[[rot_x rot_y] rot_z]|e] eqn:E end;
    match goal with |- _ = match ?r' with Ok _ => _ | Raise _ => _ end =>
      let H := fresh in assert (H : r' = _) by exact E; rewrite H; clear H end; [|done].
  rewrite M_bind_run, update_insert.
  cbn [ob_name ob_data ob_modifiers ob_location ob_rotation].
  unfold Host.collection_link. cbn [next_id objects collection log].
  rewrite lookup_insert_eq. by rewrite <- app_assoc.
Qed.

(** X22.  A rotation component that is absent from the label counts as 0
    radians.  For [z] this is not the rotation of a [z] of 0: a label with
    [rotation.z = 0] is turned by [radians(180)], a label without
    [rotation.z] is not turned at all. *)
Theorem createLabel_rotation_absent (lb vtx rot : json) (s s' : scene) :
  createLabel radians lb vtx s = (Ok tt, s') →
  Py.getitem lb "rotation" = Ok rot →
  ∃ o, objects s' !! next_id s = Some o ∧
       (Py.contains "x" rot = Ok false → (ob_rotation o).1.1 = zero) ∧
       (Py.contains "y" rot = Ok false → (ob_rotation o).1.2 = zero) ∧
       (Py.contains "z" rot = Ok false → (ob_rotation o).2 = zero) ∧
       (∀ zv z, Py.getitem rot "z" = Ok zv → Py.as_num zv = Some z →
                (ob_rotation o).2 = radians (num_add z (num_of_Z 180))).
Proof.
  rewrite createLabel_run. cbv zeta. intros H Hrot.
  match type of H with context [match ?r with Ok _ => _ | Raise _ => _ end] =>
    destruct r as [[[body size] align_x]|e] end; [|done].
  match type of H with context [match ?r with Ok _ => _ | Raise _ => _ end] =>
    destruct r as [loc|e] end; [|done].
  rewrite Hrot in H. cbn [mbind result_bind] in H.
  destruct (angle radians rot "x" None) as [rx|] eqn:Hx; [|done].
  cbn [mbind result_bind] in H.
  destruct (angle radians rot "y" None) as [ry|] eqn:Hy; [|done].
  cbn [mbind result_bind] in H.
  destruct (angle radians rot "z" (Some (num_of_Z 180))) as [rz|] eqn:Hz; [|done].
  cbn [mbind result_bind] in H. injection H as <-.
  eexists. split; [apply lookup_insert_eq|]. simpl. split_and!.
  - intros Hc. rewrite (angle_absent _ _ _ Hc) in Hx. by injection Hx.
  - intros Hc. rewrite (angle_absent _ _ _ Hc) in Hy. by injection Hy.
  - intros Hc. rewrite (angle_absent _ _ _ Hc) in Hz. by injection Hz.
  - intros zv z Hzv Hzn. unfold angle in Hz.
    rewrite (getitem_contains _ _ _ Hzv) in Hz. cbn [mbind result_bind] in Hz.
    rewrite Hzv in Hz. cbn [mbind result_bind] in Hz.
    unfold Py.add, Py.number in Hz. rewrite Hzn in Hz. cbn [mbind result_bind] in Hz.
    rewrite sum_180 in Hz. cbn [mbind result_bind] in Hz.
    destruct (Py.float (num_add z (num_of_Z 180))); [|done]. by injection Hz.
Qed.

(** ** A defective hole *)

(** X23.  A hole whose outline has an element that is not a point record
    stops the import inside the loop over the holes: the exception is raised
    before the solid of that hole is created, and the mesh of the shape stays
    in the scene as the earlier holes have left it, cut by each of them,
    without a colour attribute; no solid of an earlier hole is left. *)
Theorem import_shape_defective_hole (shape geometry visible : json) (vs : list json)
    (good : list (list json)) (bad rest : list json) (pz sz : num) (s : scene) :
  Py.getitem shape "vertexes" = Ok (JArr vs) → Forall is_point vs →
  Py.getitem shape "geometry" = Ok geometry →
  Py.getitem geometry "visible" = Ok visible → Py.truthy visible = true →
  position_z geometry = Some pz → scale_z geometry = Some sz →
  Py.getitem shape "holes" = Ok (JArr ((JArr <$> good) ++ JArr bad :: rest)) →
  Forall (Forall is_point) good → ¬ Forall is_point bad →
  let n := next_id s in
  let m0 := extruded (coords <$> vs) pz sz in
  ∃ e s',
    import_shape vertex_count radians shape s = (Raise e, s') ∧
    objects s' !! n =
      Some (mkObject "Mesh" (MeshData (cut_all pz sz m0 good) None) []
                     (zero, zero, num_div sz two) origin3) ∧
    next_id s' = S n + length good ∧
    (∀ i, S n ≤ i < next_id s' → objects s' !! i = None).
Proof.
  intros Hv Hpts Hg Hvis Ht Hpz Hsz Hh Hgood Hbad n m0.
  unfold import_shape, import_geometry.
  rewrite M_bind_run, M_bind_run, lift_run, (shape_visible_true _ _ _ _ Hv Hg Hvis), Ht.
  rewrite M_bind_run, lift_run, Hv. cbn [mbind result_bind]. rewrite Hg.
  cbn [mbind result_bind]. rewrite M_bind_run.
  rewrite (createShapeObj_ok _ _ _ _ false s Hpts Hpz Hsz).
  fold n. set (sA := mkScene _ _ _ _).
  rewrite M_bind_run, lift_run, (getitem_contains _ _ _ Hh).
  destruct (cut_holes_ok shape geometry pz sz n "Mesh" (zero, zero, num_div sz two) origin3
              good Hg Hpz Hsz Hgood sA m0) as (s1 & Hrun & Hobj & Hid & _ & Hnone).
  { apply lookup_insert_eq. }
  { simpl. lia. }
  rewrite M_bind_run, M_bind_run, lift_run, Hh. cbn [mbind result_bind Py.iter].
  rewrite for_each_app, Hrun. cbn [for_each]. rewrite M_bind_run.
  unfold cut_hole at 1.
  rewrite M_bind_run, lift_run, Hg, M_bind_run, createShapeObj_run.
  cbv zeta. cbn [Py.iter mbind result_bind].
  destruct (foldM (read_vertex geometry) ([], []) bad) as [[mesh_vtx mesh_face]|e] eqn:E.
  { by destruct (foldM_read_vertex_inv _ _ _ _ E) as [Hpts' _]. }
  exists e, s1. split; [done|]. split; [exact Hobj|]. split; [exact Hid|].
  intros i Hi. apply Hnone. simpl. lia.
Qed.

End Construction.

(** * The scenarios of the specification, run on the embedding *)

Module Scenario.
Import Sample.

Lemma point_is_point (x y : Z) :
  evaluates (Py.quotient (num_neg (Int x)) ten) → evaluates (Py.quotient (Int y) ten) →
  is_point (point x y).
Proof. intros Hx Hy. split; [by eexists|]. by split. Defined.

Lemma corners_points : Forall is_point corners.
Proof. repeat constructor; apply point_is_point; by eexists. Defined.

Lemma hole_points : Forall is_point hole.
Proof. repeat constructor; apply point_is_point; by eexists. Defined.

Lemma segment_points : Forall is_point segment.
Proof. repeat constructor; apply point_is_point; by eexists. Defined.

Lemma corners_has_xy : Forall has_xy corners.
Proof. repeat constructor; by eexists. Defined.


Lemma corners_distinct :
  distinct_values (coords <$> corners).*1 ∧ distinct_values (coords <$> corners).*2.
Proof. split; apply distinct_values_ints; repeat constructor; by eexists. Defined.

Lemma fresh_empty : fresh empty_scene.
Proof. intros i _. apply lookup_empty. Defined.

(** The end-to-end scenario: one solid, linked, uniformly green and opaque,
    spanning x in [-1, 0] and y in [0, 1], extruded by 5.  The coordinates
    and the colour are floats; [position.z], the thickness and the zeros of
    the location are the [int]s of the input and of the script. *)
Example run_square :
  (run [square]).1 = Ok FINISHED ∧
  collection (run [square]).2 = [0] ∧
  objects (run [square]).2 !! 0 =
    Some (mkObject "Mesh"
            (MeshData (extruded [(Int 0, Int 0); (Int 10, Int 0); (Int 10, Int 10);
                                 (Int 0, Int 10)] (Int 0) (Int 5))
                      (Some (replicate 8 (Some (Float 0, Float 1, Float 0, Float 1)))))
            [] (Int 0, Int 0, Float 2.5) origin3) ∧
  outline (extruded (coords <$> corners) (Int 0) (Int 5)) =
    [(Float 0, Float 0, Int 0); (Float (-1), Float 0, Int 0);
     (Float (-1), Float 1, Int 0); (Float 0, Float 1, Int 0)].
Proof. repeat split. Qed.

(** The square with a hole: one solid, cut once, and no hole object left. *)
Example run_square_with_hole :
  (run [square_with_hole]).1 = Ok FINISHED ∧
  dom (objects (run [square_with_hole]).2) = {[0]} ∧
  next_id (run [square_with_hole]).2 = 2.
Proof. repeat split. Qed.

(** An invisible shape adds no object; neither does a label without a
    [visible] key. *)
Example run_invisible :
  run [JObj [("vertexes", JArr corners); ("geometry", geometry false);
             ("label", JObj [("text", JStr "Atrium")])]]
  = (Ok FINISHED, empty_scene).
Proof. reflexivity. Qed.

End Scenario.

(** * The theorems at the sample input *)

Module Witness.
Import Sample Scenario.

Lemma importJson_error_aborts_witness :
  run ([square] ++ miscoloured_square :: [square]) = (Raise ValueError, after_miscoloured) ∧
  (∀ i, i < next_id after_square →
        objects after_miscoloured !! i = objects after_square !! i ∧
        (i ∈ collection after_miscoloured ↔ i ∈ collection after_square)).
Proof.
  apply (importJson_error_aborts vertex_count radians [square] [square]
           miscoloured_square empty_scene after_square after_miscoloured ValueError).
  - vm_compute. reflexivity.
  - vm_compute. reflexivity.
Defined.

Lemma import_shape_creates_witness :
  fresh empty_scene ∧
  import_shape vertex_count radians labelled_square empty_scene = (Ok tt, after_labelled) ∧
  ((∃ i, 0 ≤ i ∧ kinds after_labelled !! i = Some KMesh)
     ↔ has_visible_geometry labelled_square) ∧
  ((∃ i, 0 ≤ i ∧ kinds after_labelled !! i = Some KText)
     ↔ has_visible_label labelled_square).
Proof.
  assert (Hrun : import_shape vertex_count radians labelled_square empty_scene
                 = (Ok tt, after_labelled)) by (vm_compute; reflexivity).
  split; [exact fresh_empty|]. split; [exact Hrun|].
  pose proof (import_shape_creates vertex_count radians labelled_square empty_scene
                after_labelled fresh_empty Hrun) as (Hm & Ht & _).
  split; [exact Hm|exact Ht].
Defined.

Lemma import_shape_cuts_holes_witness :
  ∃ rest,
    log (import_shape vertex_count radians square_with_hole empty_scene).2 =
      [] ++ [ObjectNew 0 "Mesh";
             ModifierApply 0 "Solidify" (extruded (coords <$> corners) (num_of_Z 0) (num_of_Z 5));
             ObjectLink 0]
         ++ hole_events 0 1 (num_of_Z 0) (num_of_Z 5)
              (extruded (coords <$> corners) (num_of_Z 0) (num_of_Z 5)) [hole]
         ++ rest ∧
    rest `prefix_of` [ObjectNew 2 "Label"; ObjectLink 2] ∧
    ∀ k, k < 1 →
      objects (import_shape vertex_count radians square_with_hole empty_scene).2 !! (1 + k)
      = None.
Proof.
  apply (import_shape_cuts_holes vertex_count radians square_with_hole (geometry true)
           (JBool true) corners [hole] (num_of_Z 0) (num_of_Z 5) empty_scene);
    try reflexivity.
  - exact corners_points.
  - constructor; [exact hole_points|constructor].
Defined.

Lemma createShapeObj_degenerate_witness :
  length segment < 3 ∧
  ∃ s',
    createShapeObj (JArr segment) (geometry true) false empty_scene = (Ok 0, s') ∧
    objects s' !! 0 =
      Some (solid_object (coords <$> segment) (num_of_Z 0) (num_of_Z 5) false) ∧
    0 ∈ collection s' ∧
    length (face (extruded (coords <$> segment) (num_of_Z 0)
                           (thickness_of (num_of_Z 5) false))) < 3.
Proof.
  assert (Hlen : length segment < 3) by (simpl; lia).
  split; [exact Hlen|].
  apply (createShapeObj_degenerate segment (geometry true) (num_of_Z 0) (num_of_Z 5) false
           empty_scene Hlen segment_points); reflexivity.
Defined.

Lemma applyColorAttrib_uniform_witness :
  ∃ s',
    applyColorAttrib vertex_count 0 (material "#FF0000") bare_scene = (Ok tt, s') ∧
    ob_data <$> objects s' !! 0 =
      Some (MeshData (extruded (coords <$> corners) (num_of_Z 0) (num_of_Z 5))
              (Some (replicate 8 (Some (Float 1, Float 0, Float 0, Float 1))))).
Proof.
  destruct (applyColorAttrib_uniform vertex_count 0 bare_square
              (extruded (coords <$> corners) (num_of_Z 0) (num_of_Z 5)) None
              (material "#FF0000") (JNum (Float 1)) (Float 1)
              "F" "F" "0" "0" "0" "0" 15 15 0 0 0 0 bare_scene)
    as (s' & Hrun & Hdata & Hred); try reflexivity.
  exists s'. split; [exact Hrun|].
  rewrite Hdata. by rewrite Hred.
Defined.


Lemma createShapeObj_vertices_witness :
  ∃ s' m c,
    createShapeObj (JArr corners) (geometry true) true empty_scene = (Ok 0, s') ∧
    ob_data <$> objects s' !! 0 = Some (MeshData m c) ∧
    outline m = [(Float 0, Float 0, Int 0); (Float (-1), Float 0, Int 0);
                 (Float (-1), Float 1, Int 0); (Float 0, Float 1, Int 0)] ∧
    face m = [0; 1; 2; 3].
Proof.
  exact (proj1 (createShapeObj_vertices corners (geometry true) (Int 0) (Int 5) true
                  empty_scene corners_points eq_refl eq_refl)).
Defined.


Lemma lone_label_without_vertexes : label_without_vertexes lone_label.
Proof.
  exists [("label", label)]. split; [reflexivity|]. split; [reflexivity|].
  by exists [("label", label)], label, (JBool true).
Defined.

Lemma importJson_label_without_vertexes_witness :
  label_without_vertexes lone_label ∧
  run ([square] ++ lone_label :: [square]) = (Raise (KeyError "vertexes"), after_square).
Proof.
  split; [exact lone_label_without_vertexes|].
  apply (proj1 (importJson_label_without_vertexes vertex_count radians [square] [square]
                  lone_label empty_scene lone_label_without_vertexes) after_square).
  vm_compute. reflexivity.
Defined.

End Witness.

(** * Where the code departs from the specification *)

Module Counterexample.
Import Sample Scenario.

(** C1 as stated fails.  The first record raises (its colour is not
    hexadecimal); the import ends with that exception and the valid record
    after it is never processed: a single object has ever been created,
    whereas the valid record alone is imported without error. *)
Lemma importJson_does_not_continue :
  (run [miscoloured_square; square]).1 = Raise ValueError ∧
  next_id (run [miscoloured_square; square]).2 = 1 ∧
  (run [square]).1 = Ok FINISHED.
Proof. repeat split. Qed.

(** C2 as stated fails.  The record has a [label] key whose [visible] is
    present and true, and no label object is created: the import raises and
    the scene is unchanged. *)
Lemma visible_label_not_created :
  has_visible_label lone_label ∧
  import_shape vertex_count radians lone_label empty_scene
  = (Raise (KeyError "vertexes"), empty_scene).
Proof.
  split; [|reflexivity]. by exists [("label", label)], label, (JBool true).
Qed.

(** C4 as stated fails.  A two-point outline is not rejected:
    [createShapeObj] returns an object, and the import of the record
    finishes. *)
Lemma two_points_not_rejected :
  (createShapeObj (JArr segment) (geometry true) false empty_scene).1 = Ok 0 ∧
  (run [segment_shape]).1 = Ok FINISHED ∧
  (face <$> (match ob_data <$> objects (run [segment_shape]).2 !! 0 with
             | Some (MeshData m _) => Some m
             | _ => None
             end)) = Some [0; 1].
Proof. repeat split. Qed.


End Counterexample.

(** * The error and edge cases at sample input *)

Module Cases.
Import Sample Scenario Defect.

Lemma getShapeOrigin_single_witness :
  getShapeOrigin (JArr [point 3 4]) = Ok (Float 3, Float 4) ∧
  midpoint (Int 3) (Int 3) = Ok (Float 3) ∧
  midpoint (Int (2 ^ 53 + 1)) (Int (2 ^ 53 + 1)) = Ok (Float 9007199254740992) ∧
  midpoint (Float 1e308) (Float 1e308) = Ok inf.
Proof.
  apply (getShapeOrigin_single (point 3 4)); [by eexists|done..].
Defined.

Lemma getShapeOrigin_same_points_witness :
  getShapeOrigin (JArr corners) = getShapeOrigin (JArr ring) ∧
  getShapeOrigin (JArr ring) = Ok (Float 5, Float 5).
Proof.
  split; [|reflexivity].
  apply (getShapeOrigin_same_points corners ring corners_has_xy);
    [apply corners_distinct..|].
  intros v. unfold ring. rewrite elem_of_app, list_elem_of_singleton.
  split; [by left|]. intros [H| ->]; [exact H|]. apply list_elem_of_here.
Defined.

Lemma getShapeOrigin_returns_floats_witness :
  ∃ fx fy,
    (Float 5, Float 5) = (Float fx, Float fy) ∧
    Py.quotient (num_neg (Float 5)) ten = Ok (Float (- fx / 10)) ∧
    Py.quotient (Float 5) ten = Ok (Float (fy / 10)).
Proof.
  apply (getShapeOrigin_returns_floats (JArr corners) (Float 5, Float 5)). reflexivity.
Defined.

Lemma createShapeObj_rejects_outline_witness :
  ∃ e, createShapeObj (JArr broken_outline) (geometry true) false empty_scene
       = (Raise e, empty_scene).
Proof.
  apply (createShapeObj_rejects_outline broken_outline (geometry true) false empty_scene).
  left. intros H. apply Forall_cons_1 in H as [_ H].
  apply Forall_cons_1 in H as [[[p Hp] _] _]. discriminate Hp.
Defined.

Lemma createShapeObj_missing_scale_witness :
  ∃ e,
    createShapeObj (JArr corners) unscaled_geometry false empty_scene =
    (Raise e,
     mkScene (<[0 := unfinished_object (coords <$> corners) (num_of_Z 0) false]> ∅)
             [] 1 [ObjectNew 0 "Mesh"]) ∧
    (e = KeyError "scale" ∨ e = KeyError "z" ∨ e = TypeError).
Proof.
  apply (createShapeObj_missing_scale corners unscaled_geometry (num_of_Z 0) false
           empty_scene corners_points); reflexivity.
Defined.

Lemma createShapeObj_empty_outline_witness :
  createShapeObj (JArr []) scale_only true empty_scene =
  (Ok 0,
   mkScene (<[0 := mkObject "Mesh"
                     (MeshData (Solidified (Some zero) (Some (num_of_Z 999)) (Polygon [] []))
                               None)
                     [] (zero, zero, num_div (num_of_Z 5) two) origin3]> ∅)
           [0] 1
           [ObjectNew 0 "Mesh";
            ModifierApply 0 "Solidify"
              (Solidified (Some zero) (Some (num_of_Z 999)) (Polygon [] []));
            ObjectLink 0]).
Proof.
  apply (createShapeObj_empty_outline (JArr []) scale_only (num_of_Z 5) true empty_scene);
    reflexivity.
Defined.

Lemma subtractObj_result_witness :
  subtractObj 0 1 tool_scene =
  (Ok tt,
   mkScene (<[0 := mkObject "Mesh"
                     (MeshData (subtracted (num_of_Z 5)
                                  (extruded (coords <$> corners) (num_of_Z 0) (num_of_Z 5))
                                  (hole_tool (num_of_Z 0) hole)) None)
                     [] (zero, zero, num_div (num_of_Z 5) two) origin3]>
              (delete 1 (objects tool_scene)))
           (filter (λ i, i ≠ 1) [0; 1]) 2
           [ModifierApply 0 "Boolean"
              (subtracted (num_of_Z 5)
                 (extruded (coords <$> corners) (num_of_Z 0) (num_of_Z 5))
                 (hole_tool (num_of_Z 0) hole));
            ObjectDelete 1]).
Proof.
  apply (subtractObj_result 0 1 bare_square hole_solid
           (extruded (coords <$> corners) (num_of_Z 0) (num_of_Z 5))
           (hole_tool (num_of_Z 0) hole) None tool_scene); [lia|reflexivity..].
Defined.

Lemma applyColorAttrib_success_inv_witness :
  ∃ items nm m c mods loc rot col,
    material "#00FF00" = JObj items ∧
    objects bare_scene !! 0 = Some (mkObject nm (MeshData m c) mods loc rot) ∧
    (applyColorAttrib vertex_count 0 (material "#00FF00") bare_scene).2 =
      Host.set_objects
        <[0 := mkObject nm (MeshData m (Some (replicate (vertex_count m) (Some col))))
                        mods loc rot]> bare_scene.
Proof.
  apply (applyColorAttrib_success_inv vertex_count 0 (material "#00FF00") bare_scene).
  vm_compute. reflexivity.
Defined.

Lemma applyColorAttrib_short_colour_witness :
  applyColorAttrib vertex_count 0 (material "#F00") bare_scene
  = (Raise ValueError, bare_scene).
Proof.
  apply (applyColorAttrib_short_colour vertex_count 0 (material "#F00") "#F00" bare_scene);
    [reflexivity|simpl; lia].
Defined.

Lemma applyColorAttrib_ignores_first_char_witness :
  applyColorAttrib vertex_count 0 (material "X00FF00") bare_scene =
  applyColorAttrib vertex_count 0 (material "#00FF00") bare_scene.
Proof.
  apply (applyColorAttrib_ignores_first_char vertex_count 0 (material "#00FF00")
           (material "X00FF00") "#" "X" "00FF00" bare_scene); reflexivity.
Defined.

Lemma createLabel_raise_unlinked_witness :
  (createLabel radians unrotated_label (JArr corners) empty_scene).2 = empty_scene ∨
  ∃ o, kind_of o = KText ∧ ob_name o = "Label"%string ∧
       (createLabel radians unrotated_label (JArr corners) empty_scene).2 =
       mkScene (<[0 := o]> ∅) [] 1 [ObjectNew 0 "Label"].
Proof.
  apply (createLabel_raise_unlinked radians unrotated_label (JArr corners) empty_scene _
           (KeyError "rotation")).
  vm_compute. reflexivity.
Defined.

Lemma importJson_not_an_array_witness :
  ∃ r, importJson vertex_count radians wrapped empty_scene = (r, empty_scene) ∧
       (r = Ok FINISHED ∨ r = Raise TypeError).
Proof.
  apply (importJson_not_an_array vertex_count radians wrapped empty_scene).
  intros l H. discriminate H.
Defined.

Lemma import_shape_hidden_labelled_witness :
  import_shape vertex_count radians (JObj hidden_labelled_square) empty_scene =
  createLabel radians label (JArr corners) empty_scene.
Proof.
  apply (import_shape_hidden_labelled vertex_count radians (JObj hidden_labelled_square)
           (JArr corners) (geometry false) (JBool false) label (JBool true) empty_scene);
    reflexivity.
Defined.

Lemma import_shape_missing_geometry_witness :
  import_shape vertex_count radians (JObj square_without_geometry) empty_scene
  = (Raise (KeyError "geometry"), empty_scene).
Proof.
  apply (proj1 (import_shape_missing_geometry vertex_count radians square_without_geometry
                  (JArr corners) empty_scene eq_refl)).
  reflexivity.
Defined.

Lemma import_shape_missing_material_witness :
  import_shape vertex_count radians (JObj square_without_material) empty_scene =
  (Raise (KeyError "material"),
   mkScene (<[0 := solid_object (coords <$> corners) (num_of_Z 0) (num_of_Z 5) false]> ∅)
           [0] 1
           [ObjectNew 0 "Mesh";
            ModifierApply 0 "Solidify"
              (extruded (coords <$> corners) (num_of_Z 0) (num_of_Z 5));
            ObjectLink 0]).
Proof.
  apply (import_shape_missing_material vertex_count radians square_without_material corners
           (geometry true) (JBool true) (num_of_Z 0) (num_of_Z 5) empty_scene);
    first [exact corners_points | reflexivity].
Defined.

Lemma import_geometry_colours_cut_mesh_witness :
  ∃ s',
    import_geometry vertex_count square_with_hole empty_scene = (Ok tt, s') ∧
    objects s' !! 0 =
      Some (mkObject "Mesh"
              (MeshData (cut_all (num_of_Z 0) (num_of_Z 5)
                           (extruded (coords <$> corners) (num_of_Z 0) (num_of_Z 5)) [hole])
                 (Some (replicate 16 (Some (Float 0, Float 1, Float 0, Float 1)))))
              [] (zero, zero, num_div (num_of_Z 5) two) origin3) ∧
    (∀ k, k < 1 → objects s' !! (1 + k) = None).
Proof.
  apply (import_geometry_colours_cut_mesh vertex_count square_with_hole (geometry true)
           (JBool true) (material "#00FF00") (JNum (Float 1)) corners [hole]
           (num_of_Z 0) (num_of_Z 5) (Float 0) (Float 1) (Float 0) (Float 1)
           empty_scene); try reflexivity.
  - exact corners_points.
  - constructor; [exact hole_points|constructor].
Defined.

Lemma channel_range_witness :
  ∃ n : Z, Float 1 = num_div (num_of_Z n) (num_of_Z 255) ∧ (-15 ≤ n ≤ 255)%Z.
Proof.
  apply (channel_range (material "#00FF00") 3 5 (Float 1)); [simpl; lia|reflexivity].
Defined.

Lemma importJson_hidden_record_inert_witness :
  run ([square] ++ hidden_square :: [square]) = run ([square] ++ [square]).
Proof.
  apply (importJson_hidden_record_inert vertex_count radians [square] [square] hidden_square
           empty_scene); reflexivity.
Defined.

Lemma createLabel_rotation_absent_witness :
  ∃ o, objects (createLabel radians unturned_label (JArr corners) empty_scene).2 !! 0
       = Some o ∧
       (Py.contains "x" (JObj []) = Ok false → (ob_rotation o).1.1 = zero) ∧
       (Py.contains "y" (JObj []) = Ok false → (ob_rotation o).1.2 = zero) ∧
       (Py.contains "z" (JObj []) = Ok false → (ob_rotation o).2 = zero) ∧
       (∀ zv z, Py.getitem (JObj []) "z" = Ok zv → Py.as_num zv = Some z →
                (ob_rotation o).2 = radians (num_add z (num_of_Z 180))).
Proof.
  apply (createLabel_rotation_absent radians unturned_label (JArr corners) (JObj [])
           empty_scene); [vm_compute|]; reflexivity.
Defined.

Lemma import_shape_defective_hole_witness :
  ∃ e s',
    import_shape vertex_count radians square_with_broken_hole empty_scene = (Raise e, s') ∧
    objects s' !! 0 =
      Some (mkObject "Mesh"
              (MeshData (cut_all (num_of_Z 0) (num_of_Z 5)
                           (extruded (coords <$> corners) (num_of_Z 0) (num_of_Z 5)) [hole])
                        None)
              [] (zero, zero, num_div (num_of_Z 5) two) origin3) ∧
    next_id s' = 2 ∧
    (∀ i, 1 ≤ i < next_id s' → objects s' !! i = None).
Proof.
  apply (import_shape_defective_hole vertex_count radians square_with_broken_hole
           (geometry true) (JBool true) corners [hole] broken_outline []
           (num_of_Z 0) (num_of_Z 5) empty_scene); try reflexivity.
  - exact corners_points.
  - constructor; [exact hole_points|constructor].
  - intros H. apply Forall_cons_1 in H as [_ H].
    apply Forall_cons_1 in H as [[[p Hp] _] _]. discriminate Hp.
Defined.

End Cases.
